(** * Update supervisor: progress state machine, log-line recognition,
      consent payload parsing and reboot request

    A shallow embedding of the Python sources

      - [src/ui/main_window.py]      (class [MainWindow]: phase / progress
                                      state machine, consent and check flow)
      - [src/services/dbus_worker.py] (closure [process_line] of
                                      [_watch_log_file], [reboot_now],
                                      [_reboot_via_dbus],
                                      [_format_proc_failure])
      - [src/domain/parsing.py]      ([parse_consent_required],
                                      [_shorten_target_id])
      - [src/domain/models.py]       ([UpdateTarget])

    Conventions of the embedding.

      - A Python [str] is a [string]: a sequence of code points below 256.
        Strings decoded from JSON can hold any code point (through [\u]
        escapes) and are sequences of [N].
      - A Python [int] is a [Z].
      - A Python [float] is a binary64 number.  Where the code computes with
        arbitrary floats ([on_download_progress_raw]) the operations are the
        IEEE 754 ones of [SpecFloat] at precision 53.  The field
        [phase_progress] only ever holds multiples of one half between 0 and
        100 (lemma [progress_grid_step]), on which binary64 addition and
        comparison are exact; it is kept as a rational.
      - Qt signals, widget updates, modal dialogs and worker commands are
        recorded in order in explicit logs.
      - The consent dialog runs an event loop of its own while it is open:
        the slot [on_consent_required] takes what the slots run by that
        loop do to the window, and [deliver] runs an event together with
        the events delivered while its dialog is open.  [step] is the loop
        in which no event arrives before the slot returns.
      - A raised Python exception is the [Raised] result.  The two limits
        of the interpreter that decide whether [json.loads] raises, the
        longest digit string [int] converts and the depth of recursion
        left, are parameters. *)

From Stdlib Require Import ZArith QArith Qround Lqa Lia List Bool.
From Stdlib Require Import Ascii String.
From Stdlib Require Import DecimalString.
From Stdlib Require Import Floats.SpecFloat.
Import ListNotations.

Local Open Scope Z_scope.

(* ================================================================== *)
(** * Python floats (binary64) *)
(* ================================================================== *)

Module PyFloat.

Definition prec : Z := 53.
Definition emax : Z := 1024.

(** [float(z)] for an [int] [z]. *)
Definition of_int (z : Z) : spec_float := binary_normalize prec emax z 0 false.

Definition add : spec_float -> spec_float -> spec_float := SFadd prec emax.
Definition mul : spec_float -> spec_float -> spec_float := SFmul prec emax.
Definition div : spec_float -> spec_float -> spec_float := SFdiv prec emax.

(** [a / b] on two [int]s: the correctly rounded quotient.  [None] stands for
    [ZeroDivisionError]. *)
Definition int_truediv (a b : Z) : option spec_float :=
  if b =? 0 then None else Some (div (of_int a) (of_int b)).

(** [int(x)]: truncation toward zero.  [None] stands for the [OverflowError]
    / [ValueError] raised on infinities and NaN. *)
Definition to_int (x : spec_float) : option Z :=
  match x with
  | S754_zero _ => Some 0
  | S754_finite s m e =>
      let mag := if 0 <=? e then Z.shiftl (Zpos m) e
                 else Z.shiftr (Zpos m) (- e) in
      Some (if s then - mag else mag)
  | S754_infinity _ | S754_nan => None
  end.

(** Truthiness of a float: everything but the two zeros. *)
Definition truthy (x : spec_float) : bool :=
  match x with
  | S754_zero _ => false
  | _ => true
  end.

End PyFloat.

(* ================================================================== *)
(** * Python strings *)
(* ================================================================== *)

Module Text.

Local Open Scope N_scope.

(** [str.isspace] and the regular-expression class [\s] on code points below
    256: TAB..CR, FS..US, SPACE, NEL and NBSP. *)
Definition is_space (c : ascii) : bool :=
  let n := N_of_ascii c in
  ((9 <=? n) && (n <=? 13)) || ((28 <=? n) && (n <=? 32))
  || (n =? 133) || (n =? 160).

(** The class [\d] on code points below 256: the digits 0..9. *)
Definition is_decimal (c : ascii) : bool :=
  let n := N_of_ascii c in (48 <=? n) && (n <=? 57).

(** The class [.]: everything but the newline. *)
Definition is_not_newline (c : ascii) : bool :=
  negb (N_of_ascii c =? 10).

Local Close Scope N_scope.

Fixpoint lstrip (s : string) : string :=
  match s with
  | EmptyString => EmptyString
  | String c s' => if is_space c then lstrip s' else s
  end.

Fixpoint rstrip (s : string) : string :=
  match s with
  | EmptyString => EmptyString
  | String c s' =>
      match rstrip s' with
      | EmptyString => if is_space c then EmptyString else String c EmptyString
      | r => String c r
      end
  end.

(** [s.strip()] *)
Definition strip (s : string) : string := rstrip (lstrip s).

(** Truthiness of a [str]: non-empty. *)
Definition nonempty (s : string) : bool :=
  match s with EmptyString => false | _ => true end.

(** [s] with the prefix [p] removed, when [s] starts with [p]. *)
Fixpoint drop_prefix (p s : string) : option string :=
  match p, s with
  | EmptyString, _ => Some s
  | String a p', String b s' =>
      if Ascii.eqb a b then drop_prefix p' s' else None
  | String _ _, EmptyString => None
  end.

(** [pat in text] *)
Fixpoint contains (pat text : string) : bool :=
  match drop_prefix pat text with
  | Some _ => true
  | None =>
      match text with
      | EmptyString => false
      | String _ t => contains pat t
      end
  end.

(** [str(z)] / [f"{z}"] for an [int]. *)
Definition str_of_int (z : Z) : string := NilZero.string_of_int (Z.to_int z).

(** The value of a run of decimal digits, most significant first. *)
Fixpoint decimal_value (acc : Z) (s : string) : option Z :=
  match s with
  | EmptyString => Some acc
  | String c s' =>
      if is_decimal c
      then decimal_value (10 * acc + Z.of_N (N_of_ascii c) - 48) s'
      else None
  end.

(** [int(s)] on an unsigned digit string.  [None] is [ValueError]: raised on
    the empty string, on a character that is not a decimal digit, and when
    the string has more digits than the interpreter's
    [sys.get_int_max_str_digits()] (0 disables that limit). *)
Definition int_of_digits (int_max_str_digits : nat) (s : string) : option Z :=
  match s with
  | EmptyString => None
  | _ =>
      if (0 <? int_max_str_digits)%nat
         && (int_max_str_digits <? String.length s)%nat
      then None
      else decimal_value 0 s
  end.

End Text.

(* ================================================================== *)
(** * Regular expressions: the fragment of [re] the worker uses *)
(* ================================================================== *)

Module Regex.

Import Text.

Inductive cls : Type :=
| Space          (* \s *)
| Digit          (* \d *)
| Dot.           (* .  *)

Definition in_cls (c : cls) : ascii -> bool :=
  match c with
  | Space => is_space
  | Digit => is_decimal
  | Dot => is_not_newline
  end.

Inductive regex : Type :=
| Lit (s : string)          (* literal text *)
| Star (c : cls)            (* c*  greedy *)
| Plus (c : cls)            (* c+  greedy *)
| Alt (a b : regex)         (* a|b *)
| Cat (a b : regex)         (* ab  *)
| Group (r : regex).        (* (r) capturing *)

Declare Scope regex_scope.
Delimit Scope regex_scope with re.
Bind Scope regex_scope with regex.
Infix "++" := Cat (right associativity, at level 60) : regex_scope.

Section Backtracking.

Context {A : Type}.

(** Greedy repetition of a character class: the longest run first, then
    shorter ones while the continuation fails. *)
Fixpoint repeat_greedy (p : ascii -> bool) (s : string)
    (k : string -> option A) : option A :=
  match s with
  | EmptyString => k EmptyString
  | String c s' =>
      if p c then
        match repeat_greedy p s' k with
        | Some r => Some r
        | None => k s
        end
      else k s
  end.

End Backtracking.

(** The part of [s] consumed when [rest] is what remains of it. *)
Definition consumed (s rest : string) : string :=
  substring 0 (String.length s - String.length rest) s.

(** Anchored match in continuation-passing style; the captures are the texts
    of the groups closed so far, in order. *)
Fixpoint match_here (r : regex) (s : string) (caps : list string)
    (k : string -> list string -> option (list string))
    : option (list string) :=
  match r with
  | Lit p =>
      match drop_prefix p s with
      | Some s' => k s' caps
      | None => None
      end
  | Star c => repeat_greedy (in_cls c) s (fun s' => k s' caps)
  | Plus c =>
      match s with
      | EmptyString => None
      | String a s' =>
          if in_cls c a
          then repeat_greedy (in_cls c) s' (fun s'' => k s'' caps)
          else None
      end
  | Alt a b =>
      match match_here a s caps k with
      | Some res => Some res
      | None => match_here b s caps k
      end
  | Cat a b => match_here a s caps (fun s' caps' => match_here b s' caps' k)
  | Group g =>
      match_here g s caps (fun s' caps' => k s' (caps' ++ [consumed s s']))
  end.

(** [pattern.search(text)]: the leftmost match; the result holds the groups. *)
Fixpoint search (r : regex) (text : string) : option (list string) :=
  match match_here r text [] (fun _ caps => Some caps) with
  | Some caps => Some caps
  | None =>
      match text with
      | EmptyString => None
      | String _ t => search r t
      end
  end.

(** [m.group(1)] *)
Definition group1 (caps : list string) : string := nth 0 caps EmptyString.

End Regex.

(* ================================================================== *)
(** * The log-line recogniser [process_line] (dbus_worker.py) *)
(* ================================================================== *)

Module LogTail.

Import Text Regex.
Local Open Scope string_scope.

(** The identifiers carried by the [phase_event] signal. *)
Inductive marker : Type :=
| download_complete
| install_started
| need_reboot
| install_complete
| rebooting.

(** The two signals [process_line] can emit. *)
Inductive signal : Type :=
| download_progress (p : Z)
| phase_event (m : marker).

Definition progress_re : regex :=
  (Lit "Event:" ++ Star Space ++ Lit "DownloadProgressReport," ++ Star Space
   ++ Lit "Progress at" ++ Star Space ++ Group (Plus Digit) ++ Lit "%")%re.

Definition ostree_receiving_objects_re : regex :=
  (Lit "ostree-pull:" ++ Star Space ++ Lit "Receiving objects:" ++ Plus Space
   ++ Group (Plus Digit) ++ Lit "%")%re.

Definition install_started_re : regex :=
  (Lit "Event:" ++ Star Space ++ Lit "InstallStarted")%re.

Definition install_complete_re : regex :=
  (Lit "Event:" ++ Star Space
   ++ Group (Alt (Lit "InstallTargetComplete") (Lit "AllInstallsComplete"))
   ++ Star Dot ++ Lit "Result")%re.

Definition need_reboot_re : regex :=
  (Lit "Event:" ++ Star Space ++ Lit "AllInstallsComplete," ++ Star Space
   ++ Lit "Result" ++ Star Space ++ Lit "-" ++ Star Space
   ++ Lit "NEED_COMPLETION")%re.

Definition reboot_re : regex :=
  Lit "About to reboot the system in order to apply pending updates".

Definition is_download_complete_line (text : string) : bool :=
  contains "Event: DownloadTargetComplete" text
  || contains "Event: AllDownloadsComplete" text.

Definition matches (r : regex) (text : string) : bool :=
  match search r text with Some _ => true | None => false end.

Section ProcessLine.

(** [sys.get_int_max_str_digits()] of the running interpreter. *)
Variable int_max_str_digits : nat.

(** [try: p = int(m.group(1)) except ValueError: p = 0], then
    [max(0, min(100, p))]. *)
Definition percent_of (caps : list string) : Z :=
  let p := match int_of_digits int_max_str_digits (group1 caps) with
           | Some p => p
           | None => 0
           end in
  Z.max 0 (Z.min 100 p).

(** The signals emitted for one line, in order. *)
Definition process_line (text : string) : list signal :=
  let text := strip text in
  if negb (nonempty text) then []
  else if is_download_complete_line text then [phase_event download_complete]
  else
    match search ostree_receiving_objects_re text with
    | Some m_obj => [download_progress (percent_of m_obj)]
    | None =>
    match search progress_re text with
    | Some m_prog => [download_progress (percent_of m_prog)]
    | None =>
    if matches install_started_re text then [phase_event install_started]
    else if matches need_reboot_re text then [phase_event need_reboot]
    else if matches install_complete_re text then [phase_event install_complete]
    else if matches reboot_re text then [phase_event rebooting]
    else []
    end
    end.

End ProcessLine.

End LogTail.

(* ================================================================== *)
(** * Results of calls that can raise *)
(* ================================================================== *)

Module Py.

(** The exception classes that occur in the modelled code. *)
Inductive exn : Type :=
| JSONDecodeError
| ValueError
| AttributeError
| RecursionError.

(** Outcome of a call: a value, or a raised exception.  [Exhausted] is the
    model's own outcome for a recursion bound that ran out; the decoder never
    ends with it (lemma [loads_not_exhausted]). *)
Inductive result (A : Type) : Type :=
| Returned (a : A)
| Raised (e : exn)
| Exhausted.

Arguments Returned {A} a.
Arguments Raised {A} e.
Arguments Exhausted {A}.

Definition bind {A B : Type} (r : result A) (k : A -> result B) : result B :=
  match r with
  | Returned a => k a
  | Raised e => Raised e
  | Exhausted => Exhausted
  end.

Declare Scope py_scope.
Delimit Scope py_scope with py.
Notation "x <- r ;; k" := (bind r (fun x => k))
  (at level 61, r at next level, right associativity) : py_scope.
Notation "' p <- r ;; k" := (bind r (fun p => k))
  (at level 61, p pattern, r at next level, right associativity) : py_scope.

End Py.

(* ================================================================== *)
(** * The JSON decoder [json.loads] of the standard library *)
(* ================================================================== *)

Module Json.

Import Text Py.
Local Open Scope py_scope.

(** A decoded [str]: a sequence of code points. *)
Definition ustring : Type := list N.

Definition ustr (s : string) : ustring :=
  List.map N_of_ascii (list_ascii_of_string s).

Fixpoint ustring_eqb (a b : ustring) : bool :=
  match a, b with
  | [], [] => true
  | x :: a', y :: b' => N.eqb x y && ustring_eqb a' b'
  | _, _ => false
  end.

(** Decoded documents: [None], [bool], [int], [float], [str], [list] and
    [dict] (keys in insertion order). *)
#[local] Set Warnings "-register-all".
Inductive value : Type :=
| JNull
| JBool (b : bool)
| JInt (z : Z)
| JFloat (x : spec_float)
| JStr (s : ustring)
| JArr (l : list value)
| JObj (kv : list (ustring * value)).

(** [bool(v)] *)
Definition truthy (v : value) : bool :=
  match v with
  | JNull => false
  | JBool b => b
  | JInt z => negb (z =? 0)
  | JFloat x => PyFloat.truthy x
  | JStr s => match s with [] => false | _ => true end
  | JArr l => match l with [] => false | _ => true end
  | JObj kv => match kv with [] => false | _ => true end
  end.

(** [d.get(k)] on the pairs of a [dict]. *)
Fixpoint dict_get (k : ustring) (kv : list (ustring * value)) : option value :=
  match kv with
  | [] => None
  | (k', v) :: rest => if ustring_eqb k k' then Some v else dict_get k rest
  end.

(** [d[k] = v]: a present key keeps its position. *)
Fixpoint dict_set (k : ustring) (v : value) (kv : list (ustring * value))
    : list (ustring * value) :=
  match kv with
  | [] => [(k, v)]
  | (k', v') :: rest =>
      if ustring_eqb k k' then (k, v) :: rest else (k', v') :: dict_set k v rest
  end.

(** [dict(pairs)] *)
Definition dict_of_pairs (pairs : list (ustring * value))
    : list (ustring * value) :=
  fold_left (fun d kv => dict_set (fst kv) (snd kv) d) pairs [].

(** ** Lexical level *)

Definition is_ws (c : ascii) : bool :=
  match c with
  | " "%char | "009"%char | "010"%char | "013"%char => true
  | _ => false
  end.

Fixpoint skip_ws (s : string) : string :=
  match s with
  | EmptyString => EmptyString
  | String c s' => if is_ws c then skip_ws s' else s
  end.

(** The longest prefix of ASCII digits, and what follows it. *)
Fixpoint span_digits (s : string) : string * string :=
  match s with
  | EmptyString => (EmptyString, EmptyString)
  | String c s' =>
      if is_decimal c
      then let '(d, r) := span_digits s' in (String c d, r)
      else (EmptyString, s)
  end.

(** A number lexeme, split as the scanner's pattern splits it: an optional
    minus sign with an integer part (a single 0, or a non-zero digit and any
    digits), an optional fraction (a dot and at least one digit) and an
    optional exponent (e or E, an optional sign, at least one digit). *)
Record number_lexeme : Type := {
  negative : bool;
  int_digits : string;
  frac_digits : option string;
  exponent : option (bool * string)   (* minus sign?, digits *)
}.

Definition lex_int_part (s : string) : option (string * string) :=
  match s with
  | String "0"%char rest => Some ("0"%string, rest)
  | String c _ =>
      if is_decimal c then Some (span_digits s) else None
  | EmptyString => None
  end.

Definition lex_frac (s : string) : option string * string :=
  match s with
  | String "."%char rest =>
      match span_digits rest with
      | (EmptyString, _) => (None, s)
      | (d, r) => (Some d, r)
      end
  | _ => (None, s)
  end.

Definition lex_exp (s : string) : option (bool * string) * string :=
  match s with
  | String c rest =>
      if Ascii.eqb c "e" || Ascii.eqb c "E" then
        let '(minus, rest') :=
          match rest with
          | String "-"%char r => (true, r)
          | String "+"%char r => (false, r)
          | _ => (false, rest)
          end in
        match span_digits rest' with
        | (EmptyString, _) => (None, s)
        | (d, r) => (Some (minus, d), r)
        end
      else (None, s)
  | EmptyString => (None, s)
  end.

Definition lex_number (s : string) : option (number_lexeme * string) :=
  let '(neg, s1) :=
    match s with
    | String "-"%char r => (true, r)
    | _ => (false, s)
    end in
  match lex_int_part s1 with
  | None => None
  | Some (i, s2) =>
      let '(f, s3) := lex_frac s2 in
      let '(e, s4) := lex_exp s3 in
      Some ({| negative := neg; int_digits := i;
               frac_digits := f; exponent := e |}, s4)
  end.

Definition digits_value (s : string) : Z :=
  match decimal_value 0 s with Some z => z | None => 0 end.

(** [float(lexeme)]: the binary64 number nearest to the decimal
    [m * 10^e] (ties to even). *)
Definition float_of_decimal (neg : bool) (m e : Z) : spec_float :=
  match m with
  | Zpos p =>
      if 0 <=? e
      then binary_normalize PyFloat.prec PyFloat.emax
             (if neg then - (m * 10 ^ e) else m * 10 ^ e) 0 false
      else
        match 10 ^ (- e) with
        | Zpos q => PyFloat.div (S754_finite neg p 0) (S754_finite false q 0)
        | _ => S754_nan
        end
  | _ => S754_zero neg
  end.

Section Decoder.

(** [sys.get_int_max_str_digits()] of the running interpreter. *)
Variable int_max_str_digits : nat.

Definition number_value (n : number_lexeme) : result value :=
  match frac_digits n, exponent n with
  | None, None =>
      match int_of_digits int_max_str_digits (int_digits n) with
      | Some z => Returned (JInt (if negative n then - z else z))
      | None => Raised ValueError
      end
  | f, e =>
      let fd := match f with Some d => d | None => EmptyString end in
      let ex := match e with
                | Some (minus, d) =>
                    if minus then - digits_value d else digits_value d
                | None => 0
                end in
      Returned (JFloat (float_of_decimal (negative n)
                          (digits_value (int_digits n ++ fd))
                          (ex - Z.of_nat (String.length fd))))
  end.

(** ** Strings (strict mode) *)

Definition hex_digit (c : ascii) : option N :=
  let n := N_of_ascii c in
  if ((48 <=? n) && (n <=? 57))%N then Some (n - 48)%N
  else if ((97 <=? n) && (n <=? 102))%N then Some (n - 87)%N
  else if ((65 <=? n) && (n <=? 70))%N then Some (n - 55)%N
  else None.

Definition is_high_surrogate (c : N) : bool :=
  ((55296 <=? c) && (c <=? 56319))%N.

Definition is_low_surrogate (c : N) : bool :=
  ((56320 <=? c) && (c <=? 57343))%N.

Definition join_surrogates (hi lo : N) : N :=
  (65536 + ((hi - 55296) * 1024 + (lo - 56320)))%N.

(** Where the string scanner is inside an escape sequence. *)
Inductive scan_mode : Type :=
| Plain
| Escaped                       (* after a backslash *)
| Hex (more : nat) (v : N).     (* inside \uXXXX, [more] digits are due
                                   after the next one *)

(** The scanner, started after the opening quote.  [acc] holds the decoded
    code points in reverse; [hi] tells that the last one is a high surrogate
    written as a [\u] escape that ends at the current position. *)
Fixpoint scanstring_from (mode : scan_mode) (hi : bool) (acc : list N)
    (s : string) : option (ustring * string) :=
  match s with
  | EmptyString => None
  | String c rest =>
      match mode with
      | Plain =>
          if Ascii.eqb c "034" then Some (rev acc, rest)
          else if Ascii.eqb c "\" then scanstring_from Escaped hi acc rest
          else if (N_of_ascii c <? 32)%N then None
          else scanstring_from Plain false (N_of_ascii c :: acc) rest
      | Escaped =>
          if Ascii.eqb c "u" then scanstring_from (Hex 3 0) hi acc rest
          else
            let simple :=
              match c with
              | "034"%char => Some 34%N
              | "\"%char => Some 92%N
              | "/"%char => Some 47%N
              | "b"%char => Some 8%N
              | "f"%char => Some 12%N
              | "n"%char => Some 10%N
              | "r"%char => Some 13%N
              | "t"%char => Some 9%N
              | _ => None
              end in
            match simple with
            | Some u => scanstring_from Plain false (u :: acc) rest
            | None => None
            end
      | Hex more v =>
          match hex_digit c with
          | None => None
          | Some d =>
              let v' := (16 * v + d)%N in
              match more with
              | S more' => scanstring_from (Hex more' v') hi acc rest
              | O =>
                  match hi, acc with
                  | true, h :: acc' =>
                      if is_low_surrogate v'
                      then scanstring_from Plain false
                             (join_surrogates h v' :: acc') rest
                      else scanstring_from Plain (is_high_surrogate v')
                             (v' :: acc) rest
                  | _, _ =>
                      scanstring_from Plain (is_high_surrogate v')
                        (v' :: acc) rest
                  end
              end
          end
      end
  end.

Definition scanstring (s : string) : result (ustring * string) :=
  match scanstring_from Plain false [] s with
  | Some r => Returned r
  | None => Raised JSONDecodeError
  end.

(** ** Values *)

Definition scan_literal (s : string) : result (value * string) :=
  match drop_prefix "null" s with
  | Some r => Returned (JNull, r)
  | None =>
  match drop_prefix "true" s with
  | Some r => Returned (JBool true, r)
  | None =>
  match drop_prefix "false" s with
  | Some r => Returned (JBool false, r)
  | None =>
  match lex_number s with
  | Some (n, r) => v <- number_value n ;; Returned (v, r)
  | None =>
  match drop_prefix "NaN" s with
  | Some r => Returned (JFloat S754_nan, r)
  | None =>
  match drop_prefix "Infinity" s with
  | Some r => Returned (JFloat (S754_infinity false), r)
  | None =>
  match drop_prefix "-Infinity" s with
  | Some r => Returned (JFloat (S754_infinity true), r)
  | None => Raised JSONDecodeError
  end end end end end end end.

(** [s] after its first character, when that is [c]. *)
Definition after (c : ascii) (s : string) : option string :=
  match s with
  | String a r => if Ascii.eqb a c then Some r else None
  | EmptyString => None
  end.

(** [scan_once] with the object and array loops; each call spends one unit
    of [fuel].  The scanner enters a recursive call of the interpreter
    ([Py_EnterRecursiveCall]) at the opening brace or bracket of every
    object and array, and leaves it at the end of the container: [room] is
    the number of such calls, one inside the other, the interpreter still
    allows.  With none left the scanner raises [RecursionError]. *)
Fixpoint scan_once (fuel : nat) (room : nat) (s : string)
    : result (value * string) :=
  match fuel with
  | O => Exhausted
  | S fuel' =>
      match after "034" s with
      | Some rest => '(k, r) <- scanstring rest ;; Returned (JStr k, r)
      | None =>
      match after "{" s with
      | Some rest =>
          match room with
          | O => Raised RecursionError
          | S room' =>
              let r := skip_ws rest in
              match after "}" r with
              | Some r' => Returned (JObj [], r')
              | None =>
                  match after "034" r with
                  | Some r' => members fuel' room' [] r'
                  | None => Raised JSONDecodeError
                  end
              end
          end
      | None =>
      match after "[" s with
      | Some rest =>
          match room with
          | O => Raised RecursionError
          | S room' =>
              let r := skip_ws rest in
              match after "]" r with
              | Some r' => Returned (JArr [], r')
              | None => elements fuel' room' [] r
              end
          end
      | None => scan_literal s
      end end end
  end

with members (fuel : nat) (room : nat) (pairs : list (ustring * value))
    (s : string) : result (value * string) :=
  match fuel with
  | O => Exhausted
  | S fuel' =>
      '(key, r) <- scanstring s ;;
      match after ":" (skip_ws r) with
      | Some r1 =>
          '(v, r2) <- scan_once fuel' room (skip_ws r1) ;;
          let pairs' := pairs ++ [(key, v)] in
          match after "}" (skip_ws r2) with
          | Some r3 => Returned (JObj (dict_of_pairs pairs'), r3)
          | None =>
              match after "," (skip_ws r2) with
              | Some r3 =>
                  match after "034" (skip_ws r3) with
                  | Some r4 => members fuel' room pairs' r4
                  | None => Raised JSONDecodeError
                  end
              | None => Raised JSONDecodeError
              end
          end
      | None => Raised JSONDecodeError
      end
  end

with elements (fuel : nat) (room : nat) (acc : list value) (s : string)
    : result (value * string) :=
  match fuel with
  | O => Exhausted
  | S fuel' =>
      '(v, r) <- scan_once fuel' room s ;;
      match after "]" (skip_ws r) with
      | Some r' => Returned (JArr (acc ++ [v]), r')
      | None =>
          match after "," (skip_ws r) with
          | Some r' => elements fuel' room (acc ++ [v]) (skip_ws r')
          | None => Raised JSONDecodeError
          end
      end
  end.

(** What is left of the interpreter's recursion limit when the scanner
    starts: the depth of nested objects and arrays [json.loads] decodes. *)
Variable recursion_room : nat.

(** [json.loads(s)] *)
Definition loads (s : string) : result value :=
  let s0 := skip_ws s in
  '(v, r) <- scan_once (S (2 * String.length s0)) recursion_room s0 ;;
  match skip_ws r with
  | EmptyString => Returned v
  | _ => Raised JSONDecodeError
  end.

End Decoder.

End Json.

(* ================================================================== *)
(** * Consent payloads (domain/parsing.py, domain/models.py) *)
(* ================================================================== *)

Module Parsing.

Import Py Json.
Local Open Scope py_scope.

Inductive update_kind : Type := application | os.

(** The text [str(v)], given by the value it is taken of: the text of [v]
    itself when [v] is a [str], [None] for [None], the decimal digits of
    an [int], and so on. *)
Inductive text : Type :=
| str (v : value).

(** The dataclass [UpdateTarget].  The fields hold what the parser stores in
    them: [target_id] is a key of the payload, [version] is the text
    [str(v)] of a value of the payload or of the default, the others are
    values of the payload or the parser's defaults. *)
Record UpdateTarget : Type := {
  target_id : ustring;
  name : value;
  version : text;
  description : value;
  length : value;
  uri : value;
  kind : update_kind
}.

(** [l[:k]] *)
Definition slice_to {A : Type} (k : Z) (l : list A) : list A :=
  if 0 <=? k then firstn (Z.to_nat k) l
  else firstn (List.length l - Z.to_nat (- k)) l.

Definition _shorten_target_id (tid : ustring) (max_len : Z) : ustring :=
  if Z.of_nat (List.length tid) <=? max_len then tid
  else slice_to (max_len - 3) tid ++ ustr "...".

(** [obj.get(key, default)]: only a [dict] has the method. *)
Definition get (obj : value) (key : string) (default : value) : result value :=
  match obj with
  | JObj kv =>
      Returned (match dict_get (ustr key) kv with
                | Some v => v
                | None => default
                end)
  | _ => Raised AttributeError
  end.

(** [a or b] *)
Definition or_else (a b : value) : value := if truthy a then a else b.

(** The body of the loop of [parse_consent_required] for one item. *)
Definition parse_target (tid : ustring) (t : value) : result UpdateTarget :=
  c <- get t "custom" (JObj []) ;;
  let custom := or_else c (JObj []) in
  n <- get custom "name" JNull ;;
  let name := if truthy n then n else JStr (_shorten_target_id tid 48) in
  v <- get custom "version" (JStr []) ;;
  let version := str v in
  d1 <- get custom "tdx-description" JNull ;;
  description <-
    (if truthy d1 then Returned d1
     else d2 <- get custom "description" JNull ;;
          Returned (or_else d2 (JStr []))) ;;
  l <- get t "length" (JInt 0) ;;
  let length := or_else l (JInt 0) in
  uri <- get custom "uri" (JStr []) ;;
  f <- get custom "canonical_compose_file" JNull ;;
  let kind := if truthy f then application else os in
  Returned {| target_id := tid; name := name; version := version;
              description := description; length := length; uri := uri;
              kind := kind |}.

(** [for target_id, t in targets.items(): ... items.append(...)] *)
Fixpoint parse_items (kv : list (ustring * value)) (items : list UpdateTarget)
    : result (list UpdateTarget) :=
  match kv with
  | [] => Returned items
  | (tid, t) :: rest =>
      u <- parse_target tid t ;;
      parse_items rest (items ++ [u])
  end.

(** What follows [data = json.loads(raw_json)]. *)
Definition parse_data (data : value) : result (list UpdateTarget) :=
  targets <- get data "targets" (JObj []) ;;
  match targets with
  | JObj kv => parse_items kv []
  | _ => Raised AttributeError       (* no method [items] *)
  end.

Definition parse_consent_required (int_max_str_digits recursion_room : nat)
    (raw_json : string) : result (list UpdateTarget) :=
  data <- loads int_max_str_digits recursion_room raw_json ;;
  parse_data data.

End Parsing.

(* ================================================================== *)
(** * The reboot request (dbus_worker.py) *)
(* ================================================================== *)

Module Reboot.

Import Text.
Local Open Scope string_scope.

(** The reboot lifecycle signals of [DBusWorker]. *)
Inductive signal : Type :=
| reboot_started
| reboot_failed (msg : string).

(** What the helper process does once [create_subprocess_exec] is called. *)
Inductive process : Type :=
| Exited (returncode : Z) (out err : option (list Byte.byte))
| Failed (e : string)      (* spawning or [communicate] raises; [e] is [str(e)] *)
| NeverReturns.            (* the system restarts first *)

Definition newline : string := String "010"%char EmptyString.

Section Worker.

(** Module constant [DBUS_SEND_ABS]. *)
Variable DBUS_SEND_ABS : string.

(** [bytes.decode(errors="ignore")] *)
Variable decode_ignore : list Byte.byte -> string.

(** [os.path.exists(DBUS_SEND_ABS)] when the request runs. *)
Variable helper_exists : bool.

(** The behaviour of the helper process. *)
Variable helper : process.

(** [b or b""], where [b] is [None] or a [bytes] value. *)
Definition or_empty (b : option (list Byte.byte)) : list Byte.byte :=
  match b with
  | Some l => l
  | None => []
  end.

Definition _format_proc_failure (cmd : list string) (rc : Z)
    (out err : option (list Byte.byte)) : string :=
  let out_s := strip (decode_ignore (or_empty out)) in
  let err_s := strip (decode_ignore (or_empty err)) in
  let cmd_s := String.concat " " cmd in
  let msg := "D-Bus reboot failed (rc=" ++ str_of_int rc ++ "): " ++ cmd_s in
  let msg := if nonempty out_s
             then msg ++ newline ++ newline ++ "stdout:" ++ newline ++ out_s
             else msg in
  let msg := if nonempty err_s
             then msg ++ newline ++ newline ++ "stderr:" ++ newline ++ err_s
             else msg in
  msg.

Definition cmd : list string :=
  [ DBUS_SEND_ABS;
    "--system";
    "--print-reply";
    "--dest=org.freedesktop.login1";
    "/org/freedesktop/login1";
    "org.freedesktop.login1.Manager.Reboot";
    "boolean:false" ].

(** The signals the coroutine [_reboot_via_dbus] emits, in order. *)
Definition _reboot_via_dbus : list signal :=
  if negb helper_exists then
    [ reboot_failed
        ("Missing " ++ DBUS_SEND_ABS
         ++ ". Install dbus-send in the container (package: dbus).") ]
  else
    match helper with
    | Exited returncode out err =>
        if negb (returncode =? 0)%Z
        then [ reboot_failed (_format_proc_failure cmd returncode out err) ]
        else []
    | Failed e => [ reboot_failed ("D-Bus reboot failed: " ++ e) ]
    | NeverReturns => []
    end.

(** The signals emitted from a call of the slot [reboot_now] on: first the
    slot's own emission, then those of the coroutine it schedules on the
    worker's loop.  Without a loop ([run] has not started)
    [run_coroutine_threadsafe] raises and the coroutine never runs. *)
Definition reboot_now (loop_running : bool) : list signal :=
  reboot_started :: (if loop_running then _reboot_via_dbus else []).

End Worker.

End Reboot.

(* ================================================================== *)
(** * The main window: phase and progress state machine (main_window.py) *)
(* ================================================================== *)

Module Window.

Import Text Py.
Local Open Scope string_scope.

(** The values of [self.phase]. *)
Inductive Phase : Type :=
| idle
| preparing
| downloading
| downloaded
| installing
| need_reboot.

(** The slots of the worker the window calls. *)
Inductive command : Type :=
| set_mode (value : Z)
| check_for_updates
| send_consent (granted : bool) (reason : string)
| reboot_now.

(** The modal dialogs the window opens with [exec()]. *)
Inductive dialog : Type :=
| consent_dialog (t : Parsing.UpdateTarget)   (* "Update Available"  *)
| reboot_dialog                               (* "Reboot Required"   *)
| error_dialog (msg : string).                (* "Reboot failed"     *)

(** The fields of [MainWindow] and the state of its widgets and timers,
    with the worker calls and the dialogs opened so far, oldest first. *)
Record window : Type := {
  phase : Phase;
  phase_progress : Q;
  starting_pct : option Z;
  last_raw_pct : Z;
  reboot_prompt_shown : bool;
  manual_check_active : bool;
  phase_timer_active : bool;
  check_timeout_active : bool;
  info : string;
  footer : string;
  net_label : string;
  net_label_visible : bool;
  progress_bar : Z;
  progress_bar_visible : bool;
  controls_enabled : bool;           (* btn_check and switch_mode *)
  switch_checked : bool;
  commands : list command;
  dialogs : list dialog
}.

(** ** Field updates *)

Definition set_phase (x : Phase) (s : window) : window :=
  {| phase := x; phase_progress := phase_progress s;
     starting_pct := starting_pct s; last_raw_pct := last_raw_pct s;
     reboot_prompt_shown := reboot_prompt_shown s;
     manual_check_active := manual_check_active s;
     phase_timer_active := phase_timer_active s;
     check_timeout_active := check_timeout_active s;
     info := info s; footer := footer s; net_label := net_label s;
     net_label_visible := net_label_visible s;
     progress_bar := progress_bar s;
     progress_bar_visible := progress_bar_visible s;
     controls_enabled := controls_enabled s;
     switch_checked := switch_checked s;
     commands := commands s; dialogs := dialogs s |}.

Definition set_phase_progress (x : Q) (s : window) : window :=
  {| phase := phase s; phase_progress := x;
     starting_pct := starting_pct s; last_raw_pct := last_raw_pct s;
     reboot_prompt_shown := reboot_prompt_shown s;
     manual_check_active := manual_check_active s;
     phase_timer_active := phase_timer_active s;
     check_timeout_active := check_timeout_active s;
     info := info s; footer := footer s; net_label := net_label s;
     net_label_visible := net_label_visible s;
     progress_bar := progress_bar s;
     progress_bar_visible := progress_bar_visible s;
     controls_enabled := controls_enabled s;
     switch_checked := switch_checked s;
     commands := commands s; dialogs := dialogs s |}.

Definition set_starting_pct (x : option Z) (s : window) : window :=
  {| phase := phase s; phase_progress := phase_progress s;
     starting_pct := x; last_raw_pct := last_raw_pct s;
     reboot_prompt_shown := reboot_prompt_shown s;
     manual_check_active := manual_check_active s;
     phase_timer_active := phase_timer_active s;
     check_timeout_active := check_timeout_active s;
     info := info s; footer := footer s; net_label := net_label s;
     net_label_visible := net_label_visible s;
     progress_bar := progress_bar s;
     progress_bar_visible := progress_bar_visible s;
     controls_enabled := controls_enabled s;
     switch_checked := switch_checked s;
     commands := commands s; dialogs := dialogs s |}.

Definition set_last_raw_pct (x : Z) (s : window) : window :=
  {| phase := phase s; phase_progress := phase_progress s;
     starting_pct := starting_pct s; last_raw_pct := x;
     reboot_prompt_shown := reboot_prompt_shown s;
     manual_check_active := manual_check_active s;
     phase_timer_active := phase_timer_active s;
     check_timeout_active := check_timeout_active s;
     info := info s; footer := footer s; net_label := net_label s;
     net_label_visible := net_label_visible s;
     progress_bar := progress_bar s;
     progress_bar_visible := progress_bar_visible s;
     controls_enabled := controls_enabled s;
     switch_checked := switch_checked s;
     commands := commands s; dialogs := dialogs s |}.

Definition set_reboot_prompt_shown (x : bool) (s : window) : window :=
  {| phase := phase s; phase_progress := phase_progress s;
     starting_pct := starting_pct s; last_raw_pct := last_raw_pct s;
     reboot_prompt_shown := x;
     manual_check_active := manual_check_active s;
     phase_timer_active := phase_timer_active s;
     check_timeout_active := check_timeout_active s;
     info := info s; footer := footer s; net_label := net_label s;
     net_label_visible := net_label_visible s;
     progress_bar := progress_bar s;
     progress_bar_visible := progress_bar_visible s;
     controls_enabled := controls_enabled s;
     switch_checked := switch_checked s;
     commands := commands s; dialogs := dialogs s |}.

Definition set_manual_check_active (x : bool) (s : window) : window :=
  {| phase := phase s; phase_progress := phase_progress s;
     starting_pct := starting_pct s; last_raw_pct := last_raw_pct s;
     reboot_prompt_shown := reboot_prompt_shown s;
     manual_check_active := x;
     phase_timer_active := phase_timer_active s;
     check_timeout_active := check_timeout_active s;
     info := info s; footer := footer s; net_label := net_label s;
     net_label_visible := net_label_visible s;
     progress_bar := progress_bar s;
     progress_bar_visible := progress_bar_visible s;
     controls_enabled := controls_enabled s;
     switch_checked := switch_checked s;
     commands := commands s; dialogs := dialogs s |}.

Definition set_phase_timer_active (x : bool) (s : window) : window :=
  {| phase := phase s; phase_progress := phase_progress s;
     starting_pct := starting_pct s; last_raw_pct := last_raw_pct s;
     reboot_prompt_shown := reboot_prompt_shown s;
     manual_check_active := manual_check_active s;
     phase_timer_active := x;
     check_timeout_active := check_timeout_active s;
     info := info s; footer := footer s; net_label := net_label s;
     net_label_visible := net_label_visible s;
     progress_bar := progress_bar s;
     progress_bar_visible := progress_bar_visible s;
     controls_enabled := controls_enabled s;
     switch_checked := switch_checked s;
     commands := commands s; dialogs := dialogs s |}.

Definition set_check_timeout_active (x : bool) (s : window) : window :=
  {| phase := phase s; phase_progress := phase_progress s;
     starting_pct := starting_pct s; last_raw_pct := last_raw_pct s;
     reboot_prompt_shown := reboot_prompt_shown s;
     manual_check_active := manual_check_active s;
     phase_timer_active := phase_timer_active s;
     check_timeout_active := x;
     info := info s; footer := footer s; net_label := net_label s;
     net_label_visible := net_label_visible s;
     progress_bar := progress_bar s;
     progress_bar_visible := progress_bar_visible s;
     controls_enabled := controls_enabled s;
     switch_checked := switch_checked s;
     commands := commands s; dialogs := dialogs s |}.

Definition set_info (x : string) (s : window) : window :=
  {| phase := phase s; phase_progress := phase_progress s;
     starting_pct := starting_pct s; last_raw_pct := last_raw_pct s;
     reboot_prompt_shown := reboot_prompt_shown s;
     manual_check_active := manual_check_active s;
     phase_timer_active := phase_timer_active s;
     check_timeout_active := check_timeout_active s;
     info := x; footer := footer s; net_label := net_label s;
     net_label_visible := net_label_visible s;
     progress_bar := progress_bar s;
     progress_bar_visible := progress_bar_visible s;
     controls_enabled := controls_enabled s;
     switch_checked := switch_checked s;
     commands := commands s; dialogs := dialogs s |}.

Definition set_footer (x : string) (s : window) : window :=
  {| phase := phase s; phase_progress := phase_progress s;
     starting_pct := starting_pct s; last_raw_pct := last_raw_pct s;
     reboot_prompt_shown := reboot_prompt_shown s;
     manual_check_active := manual_check_active s;
     phase_timer_active := phase_timer_active s;
     check_timeout_active := check_timeout_active s;
     info := info s; footer := x; net_label := net_label s;
     net_label_visible := net_label_visible s;
     progress_bar := progress_bar s;
     progress_bar_visible := progress_bar_visible s;
     controls_enabled := controls_enabled s;
     switch_checked := switch_checked s;
     commands := commands s; dialogs := dialogs s |}.

Definition set_net_label (x : string) (v : bool) (s : window) : window :=
  {| phase := phase s; phase_progress := phase_progress s;
     starting_pct := starting_pct s; last_raw_pct := last_raw_pct s;
     reboot_prompt_shown := reboot_prompt_shown s;
     manual_check_active := manual_check_active s;
     phase_timer_active := phase_timer_active s;
     check_timeout_active := check_timeout_active s;
     info := info s; footer := footer s; net_label := x;
     net_label_visible := v;
     progress_bar := progress_bar s;
     progress_bar_visible := progress_bar_visible s;
     controls_enabled := controls_enabled s;
     switch_checked := switch_checked s;
     commands := commands s; dialogs := dialogs s |}.

(** [progress_bar.setValue(v)]: a value outside the range 0..100 of the bar
    has no effect. *)
Definition set_progress_bar (v : Z) (s : window) : window :=
  {| phase := phase s; phase_progress := phase_progress s;
     starting_pct := starting_pct s; last_raw_pct := last_raw_pct s;
     reboot_prompt_shown := reboot_prompt_shown s;
     manual_check_active := manual_check_active s;
     phase_timer_active := phase_timer_active s;
     check_timeout_active := check_timeout_active s;
     info := info s; footer := footer s; net_label := net_label s;
     net_label_visible := net_label_visible s;
     progress_bar := if ((0 <=? v) && (v <=? 100))%Z then v
                     else progress_bar s;
     progress_bar_visible := progress_bar_visible s;
     controls_enabled := controls_enabled s;
     switch_checked := switch_checked s;
     commands := commands s; dialogs := dialogs s |}.

Definition set_progress_bar_visible (x : bool) (s : window) : window :=
  {| phase := phase s; phase_progress := phase_progress s;
     starting_pct := starting_pct s; last_raw_pct := last_raw_pct s;
     reboot_prompt_shown := reboot_prompt_shown s;
     manual_check_active := manual_check_active s;
     phase_timer_active := phase_timer_active s;
     check_timeout_active := check_timeout_active s;
     info := info s; footer := footer s; net_label := net_label s;
     net_label_visible := net_label_visible s;
     progress_bar := progress_bar s;
     progress_bar_visible := x;
     controls_enabled := controls_enabled s;
     switch_checked := switch_checked s;
     commands := commands s; dialogs := dialogs s |}.

Definition set_controls_enabled (x : bool) (s : window) : window :=
  {| phase := phase s; phase_progress := phase_progress s;
     starting_pct := starting_pct s; last_raw_pct := last_raw_pct s;
     reboot_prompt_shown := reboot_prompt_shown s;
     manual_check_active := manual_check_active s;
     phase_timer_active := phase_timer_active s;
     check_timeout_active := check_timeout_active s;
     info := info s; footer := footer s; net_label := net_label s;
     net_label_visible := net_label_visible s;
     progress_bar := progress_bar s;
     progress_bar_visible := progress_bar_visible s;
     controls_enabled := x;
     switch_checked := switch_checked s;
     commands := commands s; dialogs := dialogs s |}.

Definition set_switch_checked (x : bool) (s : window) : window :=
  {| phase := phase s; phase_progress := phase_progress s;
     starting_pct := starting_pct s; last_raw_pct := last_raw_pct s;
     reboot_prompt_shown := reboot_prompt_shown s;
     manual_check_active := manual_check_active s;
     phase_timer_active := phase_timer_active s;
     check_timeout_active := check_timeout_active s;
     info := info s; footer := footer s; net_label := net_label s;
     net_label_visible := net_label_visible s;
     progress_bar := progress_bar s;
     progress_bar_visible := progress_bar_visible s;
     controls_enabled := controls_enabled s;
     switch_checked := x;
     commands := commands s; dialogs := dialogs s |}.

(** A call of a slot of the worker. *)
Definition call (c : command) (s : window) : window :=
  {| phase := phase s; phase_progress := phase_progress s;
     starting_pct := starting_pct s; last_raw_pct := last_raw_pct s;
     reboot_prompt_shown := reboot_prompt_shown s;
     manual_check_active := manual_check_active s;
     phase_timer_active := phase_timer_active s;
     check_timeout_active := check_timeout_active s;
     info := info s; footer := footer s; net_label := net_label s;
     net_label_visible := net_label_visible s;
     progress_bar := progress_bar s;
     progress_bar_visible := progress_bar_visible s;
     controls_enabled := controls_enabled s;
     switch_checked := switch_checked s;
     commands := commands s ++ [c]; dialogs := dialogs s |}.

(** A modal dialog is opened: the slot enters [exec()]. *)
Definition exec (d : dialog) (s : window) : window :=
  {| phase := phase s; phase_progress := phase_progress s;
     starting_pct := starting_pct s; last_raw_pct := last_raw_pct s;
     reboot_prompt_shown := reboot_prompt_shown s;
     manual_check_active := manual_check_active s;
     phase_timer_active := phase_timer_active s;
     check_timeout_active := check_timeout_active s;
     info := info s; footer := footer s; net_label := net_label s;
     net_label_visible := net_label_visible s;
     progress_bar := progress_bar s;
     progress_bar_visible := progress_bar_visible s;
     controls_enabled := controls_enabled s;
     switch_checked := switch_checked s;
     commands := commands s; dialogs := dialogs s ++ [d] |}.

(** Statements in sequence: [s |> f |> g] runs [f], then [g]. *)
Notation "s |> f" := (f s) (at level 65, left associativity, only parsing).

(** The window as [__init__] leaves it. *)
Definition init : window :=
  {| phase := idle; phase_progress := 0;
     starting_pct := None; last_raw_pct := -1;
     reboot_prompt_shown := false;
     manual_check_active := false;
     phase_timer_active := false;
     check_timeout_active := false;
     info := "Connecting to Aktualizr..."; footer := ""; net_label := "";
     net_label_visible := false;
     progress_bar := 0;
     progress_bar_visible := false;
     controls_enabled := true;
     switch_checked := false;
     commands := []; dialogs := [] |}.

(** ** Small UI helpers *)

(** [int(x)] for the float [x] held in [phase_progress]. *)
Definition int_of_float (x : Q) : Z :=
  if Qle_bool 0 x then Qfloor x else Qceiling x.

(** [target > self.phase_progress] with an [int] on the left. *)
Definition above (target : Z) (x : Q) : bool :=
  negb (Qle_bool (inject_Z target) x).

Definition _is_update_flow_active (s : window) : bool :=
  match phase s with
  | preparing | downloading | downloaded | installing | need_reboot => true
  | idle => false
  end.

Definition _lock_ui (locked : bool) (s : window) : window :=
  s |> set_controls_enabled (negb locked).

Definition _advance_to_target (target : Z) (step : Q) (s : window) : window :=
  let target := Z.max 0 (Z.min 100 target) in
  if above target (phase_progress s) then
    let new_val := Qred (phase_progress s + step) in
    let new_val := if negb (Qle_bool new_val (inject_Z target))
                   then inject_Z target else new_val in
    s |> set_phase_progress new_val
      |> set_progress_bar (int_of_float new_val)
  else s.

Definition _set_progress_floor (value : Z) (s : window) : window :=
  let value := Z.max 0 (Z.min 100 value) in
  if above value (phase_progress s) then
    s |> set_phase_progress (inject_Z value)
      |> set_progress_bar (int_of_float (inject_Z value))
  else s.

Definition _reset_progress_math (s : window) : window :=
  s |> set_starting_pct None |> set_last_raw_pct (-1).

Definition reset_progress_state (s : window) : window :=
  s |> set_phase idle
    |> set_phase_progress 0
    |> set_reboot_prompt_shown false
    |> _reset_progress_math
    |> set_progress_bar 0
    |> set_progress_bar_visible false
    |> set_net_label "" false
    |> set_phase_timer_active false
    |> _lock_ui false.

(** ** Phase transitions *)

Definition start_update_flow (s : window) : window :=
  s |> set_phase preparing
    |> set_phase_progress 0
    |> set_reboot_prompt_shown false
    |> _reset_progress_math
    |> set_progress_bar 0
    |> set_progress_bar_visible true
    |> set_net_label "Measuring network activity..." true
    |> set_info "Preparing update (checking metadata)..."
    |> set_footer "Analyzing current system and update contents. This may take about a minute."
    |> _lock_ui true
    |> set_phase_timer_active true.

Definition switch_to_preparing (s : window) : window :=
  match phase s with
  | preparing => s
  | _ =>
      s |> set_phase preparing
        |> set_info "Preparing update (checking metadata)..."
        |> set_footer "Analyzing current system and update contents. This may take about a minute."
        |> set_phase_timer_active true
  end.

Definition switch_to_downloading (s : window) : window :=
  match phase s with
  | downloading => s
  | _ =>
      s |> set_phase_timer_active false
        |> set_phase downloading
        |> set_info "Downloading update..."
        |> set_footer "Downloading the update. This may take several minutes."
  end.

Definition switch_to_installing (s : window) : window :=
  match phase s with
  | installing => s
  | _ =>
      s |> set_phase_timer_active false
        |> set_phase installing
        |> _set_progress_floor 95
        |> set_info "Applying update..."
        |> set_footer "Finalizing changes. A reboot is required to complete the update."
  end.

(** ** Stage A: timer-driven progress 0..50 *)

Definition on_phase_tick (s : window) : window :=
  match phase s with
  | preparing =>
      if negb (Qle_bool 50 (phase_progress s))
      then s |> _advance_to_target 50 (1 # 2)
      else s
  | _ => s
  end.

(** ** Mode and check flow *)

Definition on_status_ready (mode : Z) (consent_raw : string) (s : window)
    : window :=
  let mode_txt := if (mode =? 1)%Z then "Require consent" else "Automatic" in
  let pending_txt := if nonempty consent_raw then "Yes" else "No" in
  s |> set_switch_checked (mode =? 1)%Z
    |> set_info ("Mode: " ++ mode_txt)
    |> set_footer ("Pending consent request: " ++ pending_txt).

Definition is_idle (s : window) : bool :=
  match phase s with idle => true | _ => false end.

Definition on_mode_toggled (checked : bool) (s : window) : window :=
  if _is_update_flow_active s && negb (is_idle s) then
    s |> set_info "An update is in progress. Mode cannot be changed now."
  else
    let value := if checked then 1%Z else 0%Z in
    let mode_txt := if checked then "Require consent" else "Automatic" in
    s |> call (set_mode value)
      |> set_info ("Mode: " ++ mode_txt).

Definition on_check_clicked (s : window) : window :=
  if _is_update_flow_active s && negb (is_idle s) then
    s |> set_info "An update is already in progress."
      |> set_footer "Please wait until the current update is finished."
  else
    s |> set_manual_check_active true
      |> set_info "Checking for updates on the server..."
      |> set_footer ""
      |> call check_for_updates
      |> set_check_timeout_active true.

Definition on_check_timeout (s : window) : window :=
  (if is_idle s then
     s |> set_info "No updates found."
       |> set_footer "Your system is up to date."
       |> reset_progress_state
   else s)
  |> set_manual_check_active false.

Section Consent.

(** [sys.get_int_max_str_digits()] of the running interpreter, and what is
    left of its recursion limit when the slot decodes the payload. *)
Variable int_max_str_digits : nat.
Variable recursion_room : nat.

(** The slot [on_consent_required].  [yes] is the button the user presses
    when the dialog is shown.  [box.exec()] runs an event loop of its own
    until the button is pressed: [during] is what the slots run by that
    loop do to the window while the dialog is open; they find
    [manual_check_active] still set.  The result holds the window when the
    slot finishes and tells whether it returned or raised. *)
Definition on_consent_required (raw_json : string) (yes : bool)
    (during : window -> window) (s : window) : window * result unit :=
  let s := if check_timeout_active s
           then s |> set_check_timeout_active false else s in
  if negb (manual_check_active s) then
    (s |> set_info "An update is available (pending consent)."
       |> set_footer "Press 'Check for updates' to review and apply it.",
     Returned tt)
  else
    match Parsing.parse_consent_required int_max_str_digits recursion_room
            raw_json with
    | Raised e => (s, Raised e)
    | Exhausted => (s, Exhausted)
    | Returned [] => (s |> set_manual_check_active false, Returned tt)
    | Returned (t :: _) =>
        let s := s |> exec (consent_dialog t) |> during in
        let s :=
          if yes then
            s |> start_update_flow
              |> call (send_consent true "Accepted via UI")
          else
            s |> set_info "Update refused."
              |> set_footer ""
              |> call (send_consent false "Refused via UI") in
        (s |> set_manual_check_active false, Returned tt)
    end.

End Consent.

Definition on_consent_cleared (s : window) : window :=
  match phase s with
  | preparing | downloading =>
      s |> set_info "Consent sent. Waiting for download to complete..."
        |> set_footer "Monitoring update progress..."
  | _ => s
  end.

(** ** Stage B: real progress *)

(** [int(start + ((raw_progress - start) / denom) * (94 - start))]; [None]
    when the expression raises. *)
Definition scaled_int (start raw_progress : Z) : option Z :=
  let denom := Z.max 1 (100 - start) in
  match PyFloat.int_truediv (raw_progress - start) denom with
  | Some q =>
      PyFloat.to_int
        (PyFloat.add (PyFloat.of_int start)
           (PyFloat.mul q (PyFloat.of_int (94 - start))))
  | None => None
  end.

Definition on_download_progress_raw (raw_progress : Z) (s : window) : window :=
  if is_idle s then s
  else
    let raw_progress := Z.max 0 (Z.min 100 raw_progress) in
    if (raw_progress <? last_raw_pct s)%Z then s
    else
      let s := s |> set_last_raw_pct raw_progress in
      if (raw_progress <=? 50)%Z then s
      else
        let s := match phase s with
                 | downloading => s
                 | _ => switch_to_downloading s
                 end in
        match starting_pct s with
        | None =>
            s |> set_starting_pct (Some raw_progress)
              |> _set_progress_floor (Z.min raw_progress 94)
              |> set_info ("Downloading update... "
                           ++ str_of_int raw_progress ++ "%")
        | Some start =>
            match scaled_int start raw_progress with
            | None => s                  (* the slot raises here *)
            | Some scaled_i =>
                let scaled_i := if (95 <=? scaled_i)%Z then 94%Z
                                else scaled_i in
                s |> _set_progress_floor scaled_i
                  |> set_info ("Downloading update... "
                               ++ str_of_int raw_progress ++ "%")
            end
        end.

(** ** Reboot *)

(** [yes]: the user presses Yes in the prompt; [raises]: [str(e)] when the
    call [worker.reboot_now()] raises [e].  After each of its two dialogs
    the slot only sets the two labels, calls the worker and opens the error
    dialog, and its caller returns at once; it reads no field again.  The
    slots run while these dialogs are open are therefore placed after this
    one, as the loop delivers them. *)
Definition _show_reboot_prompt (yes : bool) (raises : option string)
    (s : window) : window :=
  if reboot_prompt_shown s then s
  else
    let s := s |> set_reboot_prompt_shown true |> exec reboot_dialog in
    if negb yes then
      s |> set_info "Reboot postponed."
        |> set_footer "You can reboot later to complete the update."
    else
      let s := s |> call reboot_now in
      match raises with
      | None =>
          s |> set_info "Rebooting to complete the update..."
            |> set_footer "Please wait while the device restarts."
      | Some e =>
          s |> set_info "Reboot failed."
            |> set_footer e
            |> exec (error_dialog e)
      end.

Definition on_reboot_started (s : window) : window :=
  s |> set_info "Rebooting to complete the update..."
    |> set_footer "Please wait while the device restarts.".

Definition on_reboot_failed (msg : string) (s : window) : window :=
  s |> set_info "Reboot failed."
    |> set_footer msg
    |> exec (error_dialog msg).

(** ** Phase events from logs *)

Definition on_phase_event (event : LogTail.marker) (yes : bool)
    (raises : option string) (s : window) : window :=
  match event with
  | LogTail.download_complete =>
      s |> set_phase_timer_active false
        |> set_phase downloaded
        |> _set_progress_floor 95
        |> set_info "Download completed. Applying update..."
        |> set_footer "Finalizing changes..."
  | _ =>
      if is_idle s then s
      else
        match event with
        | LogTail.install_started => s |> switch_to_installing
        | LogTail.need_reboot =>
            s |> set_phase need_reboot
              |> set_phase_timer_active false
              |> switch_to_installing
              |> _lock_ui false
              |> set_info "Update ready. Reboot required."
              |> set_footer "Please reboot to complete the update."
              |> _show_reboot_prompt yes raises
        | LogTail.install_complete => s |> switch_to_installing
        | LogTail.rebooting =>
            s |> set_info "Rebooting to apply the update..."
              |> set_footer "Please wait while the device restarts."
        | LogTail.download_complete => s
        end
  end.

Definition on_error (err : string) (s : window) : window :=
  s |> set_info "Failed to connect to D-Bus / Aktualizr."
    |> set_footer err
    |> reset_progress_state.

(** ** The event loop *)

(** What reaches the window: signals of the worker, clicks, timer ticks. *)
Inductive event : Type :=
| status_ready (mode : Z) (consent_raw : string)
| consent_required (raw_json : string)
| consent_cleared
| error (err : string)
| download_progress (raw_progress : Z)
| phase_event (m : LogTail.marker)
| reboot_started
| reboot_failed (msg : string)
| mode_toggled (checked : bool)
| check_clicked
| phase_timer_timeout
| check_timeout_timeout.

(** What the surroundings answer while a slot runs. *)
Record replies : Type := {
  consent_yes : bool;               (* button pressed in "Update Available" *)
  reboot_yes : bool;                (* button pressed in "Reboot Required"  *)
  reboot_raises : option string     (* [worker.reboot_now()] raises         *)
}.

Section Loop.

Variable int_max_str_digits : nat.
Variable recursion_room : nat.

(** One event delivered to its slot, no other event being delivered before
    the slot returns.  A timer only fires while it is active, and
    [check_timeout] is single-shot.  An exception leaving a slot is reported
    by the toolkit and the loop goes on. *)
Definition step (s : window) (e : event * replies) : window :=
  let '(ev, r) := e in
  match ev with
  | status_ready mode consent_raw => on_status_ready mode consent_raw s
  | consent_required raw_json =>
      fst (on_consent_required int_max_str_digits recursion_room raw_json
             (consent_yes r) (fun w => w) s)
  | consent_cleared => on_consent_cleared s
  | error err => on_error err s
  | download_progress raw_progress => on_download_progress_raw raw_progress s
  | phase_event m => on_phase_event m (reboot_yes r) (reboot_raises r) s
  | reboot_started => on_reboot_started s
  | reboot_failed msg => on_reboot_failed msg s
  | mode_toggled checked => on_mode_toggled checked s
  | check_clicked => on_check_clicked s
  | phase_timer_timeout =>
      if phase_timer_active s then on_phase_tick s else s
  | check_timeout_timeout =>
      if check_timeout_active s
      then s |> set_check_timeout_active false |> on_check_timeout
      else s
  end.

Definition run (s : window) (es : list (event * replies)) : window :=
  fold_left step es s.

(** An event together with the events delivered while the consent dialog
    its slot opens is open, in the order of their delivery. *)
#[local] Set Warnings "-register-all".
Inductive delivery : Type :=
| Deliver (e : event) (r : replies) (while_open : list delivery).

(** One delivery: the slot of a [consent_required] notification runs the
    slots of [while_open] inside [box.exec()]. *)
Fixpoint deliver (s : window) (d : delivery) {struct d} : window :=
  match d with
  | Deliver (consent_required raw_json) r while_open =>
      fst (on_consent_required int_max_str_digits recursion_room raw_json
             (consent_yes r) (fun w => fold_left deliver while_open w) s)
  | Deliver e r _ => step s (e, r)
  end.

Definition deliver_all (s : window) (ds : list delivery) : window :=
  fold_left deliver ds s.

End Loop.

End Window.

(* ================================================================== *)
(** * The specification's wording, for comparison with the code *)
(* ================================================================== *)

Module Spec.

Import Text Regex LogTail.

(** ** LogEventExtractor (section 4.2)

    The seven checks in the order the specification lists them; each returns
    the event it recognises. *)
Section Extractor.

Variable int_max_str_digits : nat.

Definition progress_from (r : regex) (text : string) : option signal :=
  option_map (fun m => download_progress (percent_of int_max_str_digits m))
    (search r text).

Definition marker_from (r : regex) (m : marker) (text : string)
    : option signal :=
  if matches r text then Some (phase_event m) else None.

Definition checks : list (string -> option signal) :=
  [ (fun text => if is_download_complete_line text
                 then Some (phase_event LogTail.download_complete) else None);
    progress_from ostree_receiving_objects_re;
    progress_from progress_re;
    marker_from install_started_re LogTail.install_started;
    marker_from need_reboot_re LogTail.need_reboot;
    marker_from install_complete_re LogTail.install_complete;
    marker_from reboot_re LogTail.rebooting ].

(** First match wins. *)
Fixpoint first_match (cs : list (string -> option signal)) (text : string)
    : option signal :=
  match cs with
  | [] => None
  | c :: cs' =>
      match c text with
      | Some e => Some e
      | None => first_match cs' text
      end
  end.

(** [extract(line)]: zero or one event. *)
Definition extract (line : string) : option signal :=
  match strip line with
  | EmptyString => None
  | text => first_match checks text
  end.

End Extractor.

(** ** Real progress mapping (section 4.5)

    [starting_pct + (p - starting_pct) / (100 - starting_pct)
                    * (94 - starting_pct)], in exact arithmetic. *)
Definition rescaled (starting_pct p : Z) : Q :=
  inject_Z starting_pct
  + (inject_Z (p - starting_pct) / inject_Z (100 - starting_pct))
    * inject_Z (94 - starting_pct).

(** The value the bar is floored at: the integer part, capped at 94. *)
Definition bar_target (starting_pct p : Z) : Z :=
  Z.min 94 (Qfloor (rescaled starting_pct p)).

End Spec.

(* ================================================================== *)
(** * Sample inputs and auxiliary predicates *)
(* ================================================================== *)

Module Samples.

Import Window.
Local Open Scope string_scope.

(** JSON text written with apostrophes in place of the double quotes. *)
Definition requote (s : string) : string :=
  string_of_list_ascii
    (List.map (fun c => if Ascii.eqb c "039"%char then "034"%char else c)
       (list_ascii_of_string s)).

(** A consent payload with one application target. *)
Definition one_app_payload : string :=
  requote "{'targets': {'app-1': {'length': 12, 'custom': {'name': 'demo', 'version': '2', 'canonical_compose_file': 'docker-compose.yml'}}}}".

(** A consent payload without targets. *)
Definition no_target_payload : string := requote "{'targets': {}}".

(** A target whose length and custom metadata are null. *)
Definition null_fields_payload : string :=
  requote "{'targets': {'a': {'length': null, 'custom': null}}}".

(** A target whose length is not a number. *)
Definition text_length_payload : string :=
  requote "{'targets': {'a': {'length': 'abc'}}}".

(** A payload whose targets entry is null. *)
Definition null_targets_payload : string := requote "{'targets': null}".

(** A target whose custom metadata is a string. *)
Definition text_custom_payload : string :=
  requote "{'targets': {'a': {'custom': 'x'}}}".

(** A target whose metadata holds null entries. *)
Definition null_custom_entries_payload : string :=
  requote "{'targets': {'a': {'custom': {'name': null, 'version': null, 'description': null, 'uri': null}}}}".

(** A user who presses Yes in every dialog; [reboot_now] does not raise. *)
Definition says_yes : replies :=
  {| consent_yes := true; reboot_yes := true; reboot_raises := None |}.

(** A user who presses No in every dialog. *)
Definition says_no : replies :=
  {| consent_yes := false; reboot_yes := false; reboot_raises := None |}.

(** The events that feed the progress bar: raw percentages, phase markers
    and the ticks of the stage-A timer. *)
Definition drives_progress (e : event) : bool :=
  match e with
  | download_progress _ | phase_event _ | phase_timer_timeout => true
  | _ => false
  end.

(** The values a float reaches by half-percent steps between 0 and 100. *)
Definition on_half_grid (x : Q) : Prop :=
  exists k : Z, 0 <= k <= 200 /\ (x == k # 2)%Q.

Local Open Scope Z_scope.

(** [after] is [before] with the progress floored at [v]: raised to [v]
    (and the bar with it) when it was lower, left alone otherwise. *)
Definition floored_at (v : Z) (before after : window) : Prop :=
  (phase_progress before < inject_Z v)%Q
  /\ phase_progress after = inject_Z v /\ progress_bar after = v
  \/ (inject_Z v <= phase_progress before)%Q
     /\ phase_progress after = phase_progress before
     /\ progress_bar after = progress_bar before.

(** [scaled_i] of [on_download_progress_raw] after its cap. *)
Definition capped (start raw_progress : Z) : option Z :=
  option_map (fun i => if 95 <=? i then 94 else i)
    (scaled_int start raw_progress).

(** The float computation of the code gives the value of the
    specification's formula, between 0 and 94. *)
Definition agrees (start raw_progress : Z) : bool :=
  match capped start raw_progress with
  | Some i =>
      (i =? Spec.bar_target start raw_progress) && (0 <=? i) && (i <=? 94)
  | None => false
  end.

Fixpoint all_below (n : nat) (P : nat -> bool) : bool :=
  match n with
  | O => true
  | S n' => P n' && all_below n' P
  end.

(** How [starting_pct] and [last_raw_pct] stand to each other. *)
Definition math_ok (s : window) : Prop :=
  match starting_pct s with
  | None => last_raw_pct s <= 50
  | Some p0 => 50 < p0 <= last_raw_pct s /\ last_raw_pct s <= 100
  end.

Definition same_math (s s' : window) : Prop :=
  starting_pct s' = starting_pct s /\ last_raw_pct s' = last_raw_pct s.

(** The target of [one_app_payload]. *)
Definition one_app_target : Parsing.UpdateTarget :=
  {| Parsing.target_id := Json.ustr "app-1";
     Parsing.name := Json.JStr (Json.ustr "demo");
     Parsing.version := Parsing.str (Json.JStr (Json.ustr "2"));
     Parsing.description := Json.JStr [];
     Parsing.length := Json.JInt 12;
     Parsing.uri := Json.JStr [];
     Parsing.kind := Parsing.application |}.








(** The window once [on_consent_required] has stopped the check timeout. *)
Definition timeout_stopped (s : window) : window :=
  if check_timeout_active s then set_check_timeout_active false s else s.

End Samples.

(* ================================================================== *)
(** * Shapes of consent payloads *)
(* ================================================================== *)

Module PayloadShape.

Import Py Json Parsing.

Definition is_dict (v : value) : bool :=
  match v with JObj _ => true | _ => false end.

(** A target the parser accepts: a [dict] whose entry [custom] is absent,
    falsy or a [dict]. *)
Definition target_ok (t : value) : bool :=
  match t with
  | JObj kv =>
      match dict_get (ustr "custom") kv with
      | None => true
      | Some c => negb (truthy c) || is_dict c
      end
  | _ => false
  end.

(** A decoded payload the parser accepts: a [dict] whose entry [targets] is
    absent or a [dict] of accepted targets. *)
Definition payload_ok (data : value) : bool :=
  match data with
  | JObj kv =>
      match dict_get (ustr "targets") kv with
      | None => true
      | Some (JObj ts) => forallb (fun kt => target_ok (snd kt)) ts
      | Some _ => false
      end
  | _ => false
  end.

(** The targets of an accepted payload, in the order of the payload. *)
Definition targets_of (data : value) : list (ustring * value) :=
  match data with
  | JObj kv =>
      match dict_get (ustr "targets") kv with
      | Some (JObj ts) => ts
      | _ => []
      end
  | _ => []
  end.

Definition entry (key : string) (kv : list (ustring * value)) : option value :=
  dict_get (ustr key) kv.

(** An entry, or the default when the entry is absent. *)
Definition present_or (default : value) (o : option value) : value :=
  match o with Some v => v | None => default end.

(** An entry, or the default when the entry is absent or falsy. *)
Definition truthy_or (default : value) (o : option value) : value :=
  match o with
  | Some v => if truthy v then v else default
  | None => default
  end.

(** The metadata of an accepted target: its entry [custom] when that is a
    [dict], no entry at all when it is absent or falsy. *)
Definition custom_of (t : value) : list (ustring * value) :=
  match t with
  | JObj kv =>
      match entry "custom" kv with
      | Some (JObj c) => c
      | _ => []
      end
  | _ => []
  end.

(** The [UpdateTarget] of an accepted target, field by field: [name],
    [description] and [length] fall back to their defaults when absent or
    falsy, [version] and [uri] only when absent. *)
Definition described (tid : ustring) (t : value) : UpdateTarget :=
  let c := custom_of t in
  {| target_id := tid;
     name := truthy_or (JStr (_shorten_target_id tid 48)) (entry "name" c);
     version := str (present_or (JStr []) (entry "version" c));
     description :=
       truthy_or (truthy_or (JStr []) (entry "description" c))
         (entry "tdx-description" c);
     length :=
       truthy_or (JInt 0)
         (match t with JObj kv => entry "length" kv | _ => None end);
     uri := present_or (JStr []) (entry "uri" c);
     kind := if truthy (present_or JNull (entry "canonical_compose_file" c))
             then application else os |}.

(** [n] opening brackets before [rest]. *)
Fixpoint nested_open (n : nat) (rest : string) : string :=
  match n with
  | O => rest
  | S n' => String "["%char (nested_open n' rest)
  end.

End PayloadShape.

(* ================================================================== *)
(** * Sample log lines *)
(* ================================================================== *)

Module LogSamples.

Import LogTail.
Local Open Scope string_scope.

Definition as_list (e : option signal) : list signal :=
  match e with Some x => [x] | None => [] end.

(** A progress line whose percentage has 4301 digits. *)
Definition long_percent_line : string :=
  "ostree-pull: Receiving objects: "
  ++ string_of_list_ascii (repeat "9"%char 4301) ++ "%".

(** A line on which both the need-reboot and the install-complete patterns
    match. *)
Definition need_completion_line : string :=
  "Jan 01 00:00:01 aktualizr[42]: Event: AllInstallsComplete, Result - NEED_COMPLETION".

(** A line with a download-finished marker and an object-transfer
    percentage. *)
Definition complete_and_percent_line : string :=
  "Event: AllDownloadsComplete ostree-pull: Receiving objects:  57% (4/7)".

(** A line with both kinds of percentage. *)
Definition two_percent_line : string :=
  "Event: DownloadProgressReport, Progress at 20% ostree-pull: Receiving objects: 80%".

(** A line with an install-started and an install-complete marker. *)
Definition started_and_complete_line : string :=
  "Event: InstallTargetComplete, Result - OK; Event: InstallStarted".

End LogSamples.

(* ================================================================== *)
(** * Orders of reboot signals *)
(* ================================================================== *)

Module RebootShape.

Import Reboot.

(** Every [reboot_failed] in a list of signals has a [reboot_started]
    before it. *)
Definition started_before_failed (l : list signal) : Prop :=
  forall (pre post : list signal) (msg : string),
    l = pre ++ reboot_failed msg :: post -> In reboot_started pre.

(** A decoder for ASCII output. *)
Definition ascii_decode (b : list Byte.byte) : string :=
  string_of_list_ascii (List.map ascii_of_byte b).

End RebootShape.

(* ================================================================== *)
(** * Shapes of windows and deliveries *)
(* ================================================================== *)

Module WindowShape.

Import Py Window Samples.

(** The stage-A timer belongs to the phase [preparing]. *)
Definition is_preparing (s : window) : bool :=
  match phase s with preparing => true | _ => false end.

(** The [Reboot Required] prompts opened so far. *)
Definition is_reboot_dialog (d : dialog) : bool :=
  match d with reboot_dialog => true | _ => false end.

Definition reboot_dialogs (s : window) : nat :=
  List.length (filter is_reboot_dialog (dialogs s)).

(** The events whose slots can call [reset_progress_state] or
    [start_update_flow], which forget that the reboot prompt was shown. *)
Definition restarts (e : event) : bool :=
  match e with
  | consent_required _ | error _ | check_timeout_timeout => true
  | _ => false
  end.

(** What [reset_progress_state] leaves behind. *)
Definition at_rest (s : window) : Prop :=
  phase_progress s = 0%Q /\ progress_bar s = 0
  /\ progress_bar_visible s = false /\ net_label_visible s = false
  /\ phase_timer_active s = false /\ controls_enabled s = true
  /\ reboot_prompt_shown s = false
  /\ starting_pct s = None /\ last_raw_pct s = -1.

(** The bar shows [int(self.phase_progress)]; the progress stays within
    0 and 95. *)
Definition bar_ok (s : window) : Prop :=
  (0 <= phase_progress s)%Q /\ (phase_progress s <= 95)%Q
  /\ progress_bar s = int_of_float (phase_progress s).

(** The fields that the phase and progress logic reads and writes. *)
Definition same_core (s s' : window) : Prop :=
  phase s' = phase s /\ phase_progress s' = phase_progress s
  /\ progress_bar s' = progress_bar s
  /\ progress_bar_visible s' = progress_bar_visible s
  /\ net_label_visible s' = net_label_visible s
  /\ phase_timer_active s' = phase_timer_active s
  /\ controls_enabled s' = controls_enabled s
  /\ reboot_prompt_shown s' = reboot_prompt_shown s
  /\ starting_pct s' = starting_pct s /\ last_raw_pct s' = last_raw_pct s.

(** What holds of a window between two deliveries. *)
Definition coherent (s : window) : Prop :=
  phase s <> need_reboot
  /\ phase_timer_active s = is_preparing s
  /\ (phase s = idle -> at_rest s)
  /\ bar_ok s.

(** An error signal of the worker, at any depth of a delivery. *)
Definition is_error (e : event) : bool :=
  match e with error _ => true | _ => false end.

Fixpoint has_error (d : delivery) : bool :=
  match d with
  | Deliver e _ while_open => is_error e || existsb has_error while_open
  end.

(** Raw percentages and timer ticks. *)
Definition is_stage_event (e : event) : bool :=
  match e with download_progress _ | phase_timer_timeout => true | _ => false end.

(** Reboot prompts opened so far, plus the one that may still open. *)
Definition rbudget (s : window) : nat :=
  (reboot_dialogs s + if reboot_prompt_shown s then 0 else 1)%nat.

(** Events that neither start a manual check nor answer one. *)
Definition waits (e : event) : bool :=
  match e with consent_required _ | check_clicked => false | _ => true end.

End WindowShape.

(* ================================================================== *)
(** * Whitespace *)
(* ================================================================== *)

Module TextShape.
Import Text.
(** A string of whitespace only. *)
Definition blank (s : string) : bool :=
  forallb is_space (list_ascii_of_string s).
End TextShape.

(* ================================================================== *)
(** * The backlog of the log watcher (dbus_worker.py) *)
(* ================================================================== *)

Module Watcher.
Import Text LogTail.
Local Open Scope string_scope.

Definition BACKLOG_LINES : nat := 300.

(** [lines[-n:]] for a positive [n]. *)
Definition last_lines (n : nat) (lines : list string) : list string :=
  skipn (List.length lines - n) lines.

(** What reading the log file gives: its lines, or an exception [e] with
    the text [str(e)]. *)
Inductive reading : Type :=
| Lines (lines : list string)
| ReadFails (e : string).

(** The signals of the watcher that the window is connected to. *)
Definition to_event (sg : signal) : Window.event :=
  match sg with
  | download_progress p => Window.download_progress p
  | phase_event m => Window.phase_event m
  end.

Section Backlog.

Variable int_max_str_digits : nat.

(** Step 1 of [_watch_log_file]: the signals of the last lines of the
    file, in the order of the lines, or the error signal when reading
    raises. *)
Definition backlog (r : reading) : list Window.event :=
  match r with
  | Lines lines =>
      List.map to_event
        (flat_map (process_line int_max_str_digits)
           (last_lines BACKLOG_LINES lines))
  | ReadFails e => [Window.error ("Failed to read log backlog: " ++ e)]
  end.

End Backlog.

(** A line that announces the end of the download. *)
Definition announces_complete (line : string) : bool :=
  is_download_complete_line (strip line).

End Watcher.

(* ================================================================== *)
(** * Consent notifications of the client (aktualizr_client.py, dbus_worker.py) *)
(* ================================================================== *)

Module Client.
Import Text.

(** The two signals of the worker about a pending consent. *)
Inductive signal : Type :=
| consent_required (raw : string)
| consent_cleared.

(** [DBusWorker._emit_consent]; [raw] is [None] or a [str]. *)
Definition _emit_consent (raw : option string) : list signal :=
  match raw with
  | Some r => if nonempty r then [consent_required r] else [consent_cleared]
  | None => [consent_cleared]
  end.

Section Callback.

(** [self.on_consent_required_changed]: [None] until the worker registers
    its callback. *)
Variable on_consent_required_changed : option (option string -> list signal).

(** [AktualizrClient._on_props_changed]; [changed] is the value of the key
    [ConsentRequired] when the notification holds it. *)
Definition _on_props_changed (changed : option string) : list signal :=
  match changed with
  | Some raw =>
      match on_consent_required_changed with
      | Some callback => callback (if nonempty raw then Some raw else None)
      | None => []
      end
  | None => []
  end.

(** [AktualizrClient.check_for_updates] once [CheckForUpdates] has
    returned; [status] is what [get_status] returns, [None] when it raises
    [DBusError]. *)
Definition check_for_updates (status : option (Z * string)) : list signal :=
  match on_consent_required_changed with
  | Some callback =>
      match status with
      | None => []
      | Some (_, consent_req) =>
          if nonempty consent_req then callback (Some consent_req) else []
      end
  | None => []
  end.

End Callback.

(** The slot each signal is connected to. *)
Definition to_event (sg : signal) : Window.event :=
  match sg with
  | consent_required raw => Window.consent_required raw
  | consent_cleared => Window.consent_cleared
  end.

End Client.

(* ================================================================== *)
(** * Properties of the progress state machine *)
(* ================================================================== *)

Import Py Window Samples PayloadShape LogSamples.

(** Projections of field updates. *)
Ltac fields :=
  cbn [phase phase_progress starting_pct last_raw_pct reboot_prompt_shown
       manual_check_active phase_timer_active check_timeout_active info footer
       net_label net_label_visible progress_bar progress_bar_visible
       controls_enabled switch_checked commands dialogs
       set_phase set_phase_progress set_starting_pct set_last_raw_pct
       set_reboot_prompt_shown set_manual_check_active set_phase_timer_active
       set_check_timeout_active set_info set_footer set_net_label
       set_progress_bar set_progress_bar_visible set_controls_enabled
       set_switch_checked call exec _lock_ui _reset_progress_math] in *.

(** The phases other than [idle]. *)
Lemma active_iff_not_idle (s : window) :
  _is_update_flow_active s = negb (is_idle s).
Proof. unfold _is_update_flow_active, is_idle. now destruct (phase s). Qed.

Lemma above_spec (v : Z) (x : Q) : above v x = true <-> (x < inject_Z v)%Q.
Proof.
  unfold above. rewrite negb_true_iff.
  destruct (Qle_bool (inject_Z v) x) eqn:E.
  - apply Qle_bool_iff in E. split; [discriminate|]. intro H.
    exfalso. apply (Qlt_not_le _ _ H E).
  - split; [intros _|reflexivity].
    apply Qnot_le_lt. intro H. apply Qle_bool_iff in H. congruence.
Qed.

Lemma above_false (v : Z) (x : Q) : above v x = false <-> (inject_Z v <= x)%Q.
Proof.
  unfold above. rewrite negb_false_iff. apply Qle_bool_iff.
Qed.

Lemma int_of_float_inject (z : Z) : int_of_float (inject_Z z) = z.
Proof.
  unfold int_of_float.
  destruct (Qle_bool 0 (inject_Z z)); [apply Qfloor_Z | apply Qceiling_Z].
Qed.

(** What [_set_progress_floor] does to the progress value. *)
Lemma floor_progress (v : Z) (s : window) :
  phase_progress (_set_progress_floor v s)
  = if above (Z.max 0 (Z.min 100 v)) (phase_progress s)
    then inject_Z (Z.max 0 (Z.min 100 v)) else phase_progress s.
Proof.
  unfold _set_progress_floor.
  now destruct (above _ _).
Qed.

Lemma floor_phase (v : Z) (s : window) :
  phase (_set_progress_floor v s) = phase s.
Proof. unfold _set_progress_floor. now destruct (above _ _). Qed.

Lemma floor_monotone (v : Z) (s : window) :
  (phase_progress s <= phase_progress (_set_progress_floor v s))%Q.
Proof.
  rewrite floor_progress.
  destruct (above _ _) eqn:E; [|apply Qle_refl].
  apply above_spec in E. now apply Qlt_le_weak.
Qed.

Lemma floor_reaches (v : Z) (s : window) :
  (inject_Z (Z.max 0 (Z.min 100 v))
   <= phase_progress (_set_progress_floor v s))%Q.
Proof.
  rewrite floor_progress.
  destruct (above _ _) eqn:E; [apply Qle_refl|].
  now apply above_false.
Qed.

(** The effect of a [download_complete] marker on any window. *)
Lemma on_download_complete (yes : bool) (raises : option string) (s : window) :
  let s' := on_phase_event LogTail.download_complete yes raises s in
  phase s' = downloaded
  /\ (95 <= phase_progress s')%Q
  /\ ((phase_progress s < 95)%Q /\ phase_progress s' = 95%Q
      /\ progress_bar s' = 95
      \/ (95 <= phase_progress s)%Q
         /\ phase_progress s' = phase_progress s)
  /\ starting_pct s' = starting_pct s
  /\ last_raw_pct s' = last_raw_pct s.
Proof.
  cbv zeta. unfold on_phase_event.
  cbn [set_footer set_info phase phase_progress starting_pct last_raw_pct
       progress_bar].
  rewrite floor_phase.
  split; [reflexivity|].
  split; [apply (floor_reaches 95)|].
  unfold _set_progress_floor.
  change (Z.max 0 (Z.min 100 95)) with 95.
  cbn [set_phase set_phase_timer_active phase_progress].
  destruct (above 95 (phase_progress s)) eqn:E.
  - cbn. split; [left|split; reflexivity].
    apply above_spec in E. split; [exact E|]. split; reflexivity.
  - cbn. split; [right|split; reflexivity].
    apply above_false in E. split; [exact E|reflexivity].
Qed.

(** C3.  Processing a [download_complete] marker sets the phase to
    [downloaded] and floors the progress at 95, whatever the state before --
    whatever raw percentage was last seen ([last_raw_pct], [starting_pct]):
    the progress afterwards is at least 95, it is 95 exactly unless it was
    already higher, and the bar shows 95 when it moved.  In particular, in
    a flow where only raw values up to 50 were reported, the bar jumps from
    0 to 95 on the marker. *)
Theorem download_complete_forces_95 :
  (forall (yes : bool) (raises : option string) (s : window),
     let s' := on_phase_event LogTail.download_complete yes raises s in
     phase s' = downloaded
     /\ (95 <= phase_progress s')%Q
     /\ ((phase_progress s < 95)%Q /\ phase_progress s' = 95%Q
         /\ progress_bar s' = 95
         \/ (95 <= phase_progress s)%Q
            /\ phase_progress s' = phase_progress s)
     /\ starting_pct s' = starting_pct s
     /\ last_raw_pct s' = last_raw_pct s)
  /\ (let r := {| consent_yes := true; reboot_yes := false;
                  reboot_raises := None |} in
      let before :=
        run 4300 1000 (start_update_flow init)
          [ (download_progress 10, r); (download_progress 30, r) ] in
      let after := step 4300 1000 before (phase_event LogTail.download_complete, r) in
      starting_pct before = None
      /\ phase_progress before = 0%Q
      /\ phase after = downloaded
      /\ phase_progress after = 95%Q
      /\ progress_bar after = 95).
Proof.
  split.
  - exact on_download_complete.
  - vm_compute. repeat split; reflexivity.
Qed.

(** C9.  A [download_complete] marker that arrives in the [idle] phase still
    moves the phase to [downloaded] and floors the progress at 95, while
    each of the other four markers arriving in [idle] leaves the window --
    its phase and its progress in particular -- as it was. *)
Theorem idle_phase_markers :
  forall (yes : bool) (raises : option string) (s : window),
    phase s = idle ->
    (let s' := on_phase_event LogTail.download_complete yes raises s in
     phase s' = downloaded /\ (95 <= phase_progress s')%Q
     /\ ((phase_progress s < 95)%Q -> phase_progress s' = 95%Q))
    /\ (forall m : LogTail.marker,
          m <> LogTail.download_complete ->
          on_phase_event m yes raises s = s).
Proof.
  intros yes raises s Hidle. split.
  - destruct (on_download_complete yes raises s) as (Hp & H95 & Hcase & _).
    cbv zeta. split; [exact Hp|]. split; [exact H95|].
    intro Hlt. destruct Hcase as [(_ & Heq & _) | (Hge & _)]; [exact Heq|].
    exfalso. apply (Qlt_not_le _ _ Hlt Hge).
  - intros m Hm. unfold on_phase_event, is_idle. rewrite Hidle.
    destruct m; try reflexivity. now elim Hm.
Qed.

Lemma idle_phase_markers_witness :
  phase init = idle
  /\ phase (on_phase_event LogTail.download_complete false None init)
     = downloaded
  /\ phase_progress (on_phase_event LogTail.download_complete false None init)
     = 95%Q
  /\ on_phase_event LogTail.install_started false None init = init.
Proof.
  pose proof (idle_phase_markers false None init eq_refl) as [(Hp & _ & H95) Hm].
  split; [reflexivity|]. split; [exact Hp|].
  split; [apply H95; reflexivity|].
  apply Hm. discriminate.
Defined.

(** C5.  In every phase other than [idle], [on_mode_toggled] and
    [on_check_clicked] only show a message: the worker is not called
    ([set_mode], [check_for_updates]) and -- apart from the two labels --
    the window is unchanged.  In [idle] they proceed:
    [on_mode_toggled] calls [set_mode] with 1 or 0, [on_check_clicked]
    calls [check_for_updates], sets the manual-check flag and starts the
    timeout. *)
Theorem mode_and_check_locked_unless_idle :
  forall (checked : bool) (s : window),
    (phase s <> idle ->
       commands (on_mode_toggled checked s) = commands s
       /\ info (on_mode_toggled checked s)
          = "An update is in progress. Mode cannot be changed now."%string
       /\ commands (on_check_clicked s) = commands s
       /\ info (on_check_clicked s)
          = "An update is already in progress."%string
       /\ footer (on_check_clicked s)
          = "Please wait until the current update is finished."%string
       /\ manual_check_active (on_check_clicked s) = manual_check_active s
       /\ check_timeout_active (on_check_clicked s) = check_timeout_active s
       /\ phase (on_mode_toggled checked s) = phase s
       /\ phase (on_check_clicked s) = phase s)
    /\ (phase s = idle ->
          commands (on_mode_toggled checked s)
          = commands s ++ [set_mode (if checked then 1 else 0)]
          /\ commands (on_check_clicked s)
             = commands s ++ [check_for_updates]
          /\ manual_check_active (on_check_clicked s) = true
          /\ check_timeout_active (on_check_clicked s) = true).
Proof.
  intros checked s. unfold on_mode_toggled, on_check_clicked.
  rewrite active_iff_not_idle, andb_diag. unfold is_idle.
  split; intro H.
  - destruct (phase s) eqn:E; [now elim H| | | | |]; cbn;
      rewrite ?E; repeat split; reflexivity.
  - rewrite H. cbn. repeat split; reflexivity.
Qed.

Lemma mode_and_check_locked_unless_idle_witness :
  (commands (on_mode_toggled true (start_update_flow init)) = []
   /\ commands (on_check_clicked (start_update_flow init)) = [])
  /\ commands (on_mode_toggled true init) = [set_mode 1]
  /\ commands (on_check_clicked init) = [check_for_updates].
Proof.
  split.
  - destruct (mode_and_check_locked_unless_idle true (start_update_flow init))
      as [H _].
    assert (Hp : phase (start_update_flow init) <> idle) by discriminate.
    destruct (H Hp) as (H1 & _ & H2 & _).
    split; [exact H1 | exact H2].
  - destruct (mode_and_check_locked_unless_idle true init) as [_ H].
    destruct (H eq_refl) as (H1 & H2 & _).
    split; [exact H1 | exact H2].
Defined.

(** ** Monotonicity of the progress value *)

Lemma advance_monotone (target : Z) (step : Q) (s : window) :
  (0 <= step)%Q ->
  (phase_progress s <= phase_progress (_advance_to_target target step s))%Q.
Proof.
  intro Hstep. unfold _advance_to_target.
  destruct (above _ _) eqn:E; [|apply Qle_refl].
  apply above_spec in E. fields.
  destruct (Qle_bool _ _) eqn:F; cbn [negb].
  - rewrite Qred_correct.
    rewrite <- (Qplus_0_r (phase_progress s)) at 1.
    apply Qplus_le_r. exact Hstep.
  - now apply Qlt_le_weak.
Qed.

Lemma switch_to_installing_monotone (s : window) :
  (phase_progress s <= phase_progress (switch_to_installing s))%Q.
Proof.
  unfold switch_to_installing.
  destruct (phase s); try apply Qle_refl; fields;
    (eapply Qle_trans; [|apply floor_monotone]); fields; apply Qle_refl.
Qed.

Lemma switch_to_downloading_progress (s : window) :
  phase_progress (switch_to_downloading s) = phase_progress s.
Proof. unfold switch_to_downloading. now destruct (phase s). Qed.

Lemma show_reboot_prompt_progress (yes : bool) (raises : option string)
    (s : window) :
  phase_progress (_show_reboot_prompt yes raises s) = phase_progress s.
Proof.
  unfold _show_reboot_prompt.
  destruct (reboot_prompt_shown s), yes, raises; reflexivity.
Qed.

Lemma on_phase_tick_monotone (s : window) :
  (phase_progress s <= phase_progress (on_phase_tick s))%Q.
Proof.
  unfold on_phase_tick.
  destruct (phase s); try apply Qle_refl.
  destruct (negb _); [|apply Qle_refl].
  apply advance_monotone. discriminate.
Qed.

Lemma on_download_progress_raw_monotone (raw : Z) (s : window) :
  (phase_progress s <= phase_progress (on_download_progress_raw raw s))%Q.
Proof.
  unfold on_download_progress_raw.
  destruct (is_idle s); [apply Qle_refl|].
  destruct (_ <? _); [apply Qle_refl|].
  destruct (_ <=? 50); [apply Qle_refl|].
  set (s1 := match phase (set_last_raw_pct _ s) with
             | downloading => _ | _ => _ end).
  assert (H1 : phase_progress s1 = phase_progress s).
  { subst s1. destruct (phase _); try reflexivity;
      rewrite switch_to_downloading_progress; reflexivity. }
  rewrite <- H1.
  destruct (starting_pct s1).
  - destruct (scaled_int _ _); [|apply Qle_refl]. fields.
    eapply Qle_trans; [|apply floor_monotone]. apply Qle_refl.
  - fields. eapply Qle_trans; [|apply floor_monotone]. apply Qle_refl.
Qed.

Lemma on_phase_event_monotone (m : LogTail.marker) (yes : bool)
    (raises : option string) (s : window) :
  (phase_progress s <= phase_progress (on_phase_event m yes raises s))%Q.
Proof.
  destruct m.
  - destruct (on_download_complete yes raises s)
      as (_ & _ & [(H & E & _)|(H & E)] & _); cbv zeta in E; rewrite E.
    + now apply Qlt_le_weak.
    + apply Qle_refl.
  - unfold on_phase_event. destruct (is_idle s); [apply Qle_refl|].
    apply switch_to_installing_monotone.
  - unfold on_phase_event. destruct (is_idle s); [apply Qle_refl|].
    rewrite show_reboot_prompt_progress. fields.
    eapply Qle_trans; [|apply switch_to_installing_monotone]. apply Qle_refl.
  - unfold on_phase_event. destruct (is_idle s); [apply Qle_refl|].
    apply switch_to_installing_monotone.
  - unfold on_phase_event. destruct (is_idle s); apply Qle_refl.
Qed.

Lemma on_consent_required_progress (limit depth : nat) (raw : string) (yes : bool)
    (s : window) :
  let s' := fst (on_consent_required limit depth raw yes (fun w => w) s) in
  phase_progress s' = phase_progress s
  \/ (phase_progress s' = 0%Q /\ phase s' = preparing
      /\ yes = true /\ manual_check_active s = true).
Proof.
  cbv zeta. unfold on_consent_required.
  set (s0 := if check_timeout_active s then _ else s).
  assert (H0 : phase_progress s0 = phase_progress s
               /\ manual_check_active s0 = manual_check_active s).
  { subst s0. now destruct (check_timeout_active s). }
  destruct H0 as [Hp Hm]. rewrite <- Hp, <- Hm.
  destruct (manual_check_active s0) eqn:M; cbn [negb fst]; [|left; reflexivity].
  destruct (Parsing.parse_consent_required limit depth raw) as [[|t ts]|e|];
    cbn [fst]; try (left; reflexivity).
  destruct yes; [right|left; reflexivity].
  repeat split; reflexivity.
Qed.

Lemma on_check_timeout_progress (s : window) :
  phase_progress (on_check_timeout s) = phase_progress s
  \/ (phase_progress (on_check_timeout s) = 0%Q
      /\ phase (on_check_timeout s) = idle /\ phase s = idle).
Proof.
  unfold on_check_timeout, is_idle.
  destruct (phase s) eqn:E; fields; rewrite ?E; try (left; reflexivity).
  right. repeat split; reflexivity.
Qed.

(** Every event either keeps or raises the progress, or writes 0 to it; the
    latter happens in [reset_progress_state] (the check timeout in phase
    [idle] and every worker error; the phase is [idle] afterwards) and in
    [start_update_flow] (accepted consent, phase [preparing]). *)
Lemma step_progress (limit depth : nat) (s : window) (e : event) (r : replies) :
  let s' := step limit depth s (e, r) in
  (phase_progress s <= phase_progress s')%Q
  \/ phase_progress s' = 0%Q
     /\ (phase s' = idle
         /\ (e = check_timeout_timeout \/ exists err, e = error err)
         \/ phase s' = preparing
            /\ (exists raw, e = consent_required raw)
            /\ consent_yes r = true /\ manual_check_active s = true).
Proof.
  cbv zeta. destruct e; cbn [step].
  - left. apply Qle_refl.
  - destruct (on_consent_required_progress limit depth raw_json (consent_yes r) s)
      as [H|(H0 & Hp & Hy & Hm)]; cbv zeta in *.
    + left. rewrite H. apply Qle_refl.
    + right. split; [exact H0|]. right. split; [exact Hp|].
      split; [now exists raw_json|]. now split.
  - left. unfold on_consent_cleared. destruct (phase s); apply Qle_refl.
  - right. split; [reflexivity|]. left. split; [reflexivity|].
    right. now exists err.
  - left. apply on_download_progress_raw_monotone.
  - left. apply on_phase_event_monotone.
  - left. apply Qle_refl.
  - left. apply Qle_refl.
  - left. unfold on_mode_toggled. destruct (_ && _); apply Qle_refl.
  - left. unfold on_check_clicked. destruct (_ && _); apply Qle_refl.
  - left. destruct (phase_timer_active s); [|apply Qle_refl].
    apply on_phase_tick_monotone.
  - destruct (check_timeout_active s); [|left; apply Qle_refl].
    destruct (on_check_timeout_progress (set_check_timeout_active false s))
      as [H|(H0 & Hp & _)].
    + left. rewrite H. apply Qle_refl.
    + right. split; [exact H0|]. left. split; [exact Hp|]. now left.
Qed.

Lemma run_monotone (limit depth : nat) (es : list (event * replies)) :
  forall s : window,
    forallb (fun e => drives_progress (fst e)) es = true ->
    (phase_progress s <= phase_progress (run limit depth s es))%Q.
Proof.
  induction es as [|[e r] es IH]; intros s H; cbn [run fold_left].
  - apply Qle_refl.
  - cbn [forallb fst] in H. apply andb_true_iff in H as [He Hes].
    eapply Qle_trans; [|apply IH, Hes].
    destruct (step_progress limit depth s e r)
      as [Hle|(_ & [(_ & [Hc|(err & Hc)])|(_ & (raw & Hc) & _)])];
      [exact Hle| | |]; subst e; discriminate.
Qed.

(** C1, as the code has it.  [_advance_to_target] (with a step that is not
    negative) and [_set_progress_floor] never lower [phase_progress]; every
    event delivered to the window either keeps or raises it, or writes 0 to
    it, and 0 is written at two places only: by [reset_progress_state] on
    the check timeout and on a worker error (the phase is then [idle]) and
    by [start_update_flow] when the user accepts a consent request (the
    phase is then [preparing]).  Hence over every sequence of raw
    percentages, phase markers and timer ticks the progress is
    non-decreasing. *)
Theorem progress_lowered_only_by_restart :
  (forall (target : Z) (step : Q) (s : window),
     (0 <= step)%Q ->
     (phase_progress s
      <= phase_progress (_advance_to_target target step s))%Q)
  /\ (forall (value : Z) (s : window),
        (phase_progress s
         <= phase_progress (_set_progress_floor value s))%Q)
  /\ (forall (limit depth : nat) (s : window) (e : event) (r : replies),
        let s' := step limit depth s (e, r) in
        (phase_progress s <= phase_progress s')%Q
        \/ phase_progress s' = 0%Q
           /\ (phase s' = idle
               /\ (e = check_timeout_timeout \/ exists err, e = error err)
               \/ phase s' = preparing
                  /\ (exists raw, e = consent_required raw)
                  /\ consent_yes r = true /\ manual_check_active s = true))
  /\ (forall (limit depth : nat) (es : list (event * replies)) (s : window),
        forallb (fun e => drives_progress (fst e)) es = true ->
        (phase_progress s <= phase_progress (run limit depth s es))%Q).
Proof.
  split; [exact advance_monotone|].
  split; [exact floor_monotone|].
  split; [exact step_progress|].
  exact run_monotone.
Qed.

Lemma progress_lowered_only_by_restart_witness :
  (0 <= 1 # 2)%Q
  /\ (phase_progress (start_update_flow init)
      <= phase_progress
           (_advance_to_target 50 (1 # 2) (start_update_flow init)))%Q
  /\ forallb (fun e => drives_progress (fst e))
       [ (phase_timer_timeout, says_yes); (download_progress 75, says_yes);
         (phase_event LogTail.download_complete, says_yes) ] = true
  /\ (phase_progress (start_update_flow init)
      <= phase_progress
           (run 4300 1000 (start_update_flow init)
              [ (phase_timer_timeout, says_yes);
                (download_progress 75, says_yes);
                (phase_event LogTail.download_complete, says_yes) ]))%Q.
Proof.
  destruct progress_lowered_only_by_restart as (Ha & _ & _ & Hr).
  assert (H0 : (0 <= 1 # 2)%Q) by discriminate.
  split; [exact H0|].
  split; [exact (Ha 50 (1 # 2)%Q (start_update_flow init) H0)|].
  split; [reflexivity|].
  apply Hr. reflexivity.
Defined.

(** C1, as the claim words it, fails: the progress is also written to 0 on
    a transition to [preparing].  After a manual check, a
    [download_complete] marker read in the [idle] phase puts the progress
    at 95; the consent request that answers the check is accepted and
    [start_update_flow] puts the progress back to 0 in phase [preparing]. *)
Lemma progress_reset_outside_idle :
  let s := run 4300 1000 init
             [ (check_clicked, says_yes);
               (phase_event LogTail.download_complete, says_yes) ] in
  let s' := step 4300 1000 s (consent_required one_app_payload, says_yes) in
  phase_progress s = 95%Q
  /\ phase_progress s' = 0%Q
  /\ (phase_progress s' < phase_progress s)%Q
  /\ phase s' = preparing
  /\ phase s' <> idle.
Proof.
  vm_compute. repeat split; try reflexivity; discriminate.
Qed.

(** ** The real progress mapping *)

Lemma all_below_spec (n : nat) (P : nat -> bool) :
  all_below n P = true -> forall k, (k < n)%nat -> P k = true.
Proof.
  induction n as [|n IH]; intros H k Hk; [lia|].
  cbn in H. apply andb_true_iff in H as [H1 H2].
  destruct (Nat.eq_dec k n) as [->|]; [exact H1|]. apply IH; [exact H2|lia].
Qed.

Lemma agrees_on_range :
  all_below 50 (fun a => all_below 50 (fun b =>
    agrees (51 + Z.of_nat a) (51 + Z.of_nat b))) = true.
Proof. vm_compute. reflexivity. Qed.

Lemma capped_exact (p0 p : Z) :
  50 < p0 <= 100 -> 50 < p <= 100 ->
  capped p0 p = Some (Spec.bar_target p0 p)
  /\ 0 <= Spec.bar_target p0 p <= 94.
Proof.
  intros H0 H.
  pose proof (all_below_spec _ _ agrees_on_range (Z.to_nat (p0 - 51))) as A.
  cbv beta in A. specialize (A ltac:(lia)).
  pose proof (all_below_spec _ _ A (Z.to_nat (p - 51)) ltac:(lia)) as B.
  cbv beta in B.
  replace (51 + Z.of_nat (Z.to_nat (p0 - 51))) with p0 in B by lia.
  replace (51 + Z.of_nat (Z.to_nat (p - 51))) with p in B by lia.
  unfold agrees in B. destruct (capped p0 p) as [i|]; [|discriminate].
  apply andb_true_iff in B as [B B3]. apply andb_true_iff in B as [B1 B2].
  apply Z.eqb_eq in B1. subst i. split; [reflexivity|lia].
Qed.

Lemma floor_floored (v : Z) (s : window) :
  0 <= v <= 100 -> floored_at v s (_set_progress_floor v s).
Proof.
  intro H. unfold floored_at, _set_progress_floor.
  replace (Z.max 0 (Z.min 100 v)) with v by lia.
  destruct (above v (phase_progress s)) eqn:E.
  - left. apply above_spec in E. split; [exact E|]. fields.
    rewrite int_of_float_inject.
    split; [reflexivity|].
    destruct ((0 <=? v) && (v <=? 100)) eqn:F; [reflexivity|].
    apply andb_false_iff in F as [F|F]; lia.
  - right. apply above_false in E. now split.
Qed.

Lemma not_idle (s : window) : phase s <> idle -> is_idle s = false.
Proof. unfold is_idle. destruct (phase s); congruence. Qed.

Lemma floor_keeps (v : Z) (s : window) :
  starting_pct (_set_progress_floor v s) = starting_pct s
  /\ last_raw_pct (_set_progress_floor v s) = last_raw_pct s
  /\ phase (_set_progress_floor v s) = phase s.
Proof. unfold _set_progress_floor. now destruct (above _ _). Qed.

(** The window after the raw value passed the filter and the phase switch. *)
Lemma switched (p : Z) (s : window) :
  let s1 := match phase (set_last_raw_pct p s) with
            | downloading => set_last_raw_pct p s
            | _ => switch_to_downloading (set_last_raw_pct p s)
            end in
  phase s1 = downloading /\ starting_pct s1 = starting_pct s
  /\ last_raw_pct s1 = p /\ phase_progress s1 = phase_progress s
  /\ progress_bar s1 = progress_bar s.
Proof.
  cbv zeta. unfold switch_to_downloading. fields.
  destruct (phase s) eqn:E; fields; rewrite ?E; repeat split; reflexivity.
Qed.

Lemma floored_at_from (v : Z) (s s1 s' : window) :
  phase_progress s1 = phase_progress s -> progress_bar s1 = progress_bar s ->
  floored_at v s1 s' -> floored_at v s s'.
Proof. unfold floored_at. intros -> ->. exact (fun H => H). Qed.

Lemma first_real_value (s : window) (p0 : Z) :
  phase s <> idle -> starting_pct s = None -> last_raw_pct s <= 50 ->
  50 < p0 <= 100 ->
  let s' := on_download_progress_raw p0 s in
  starting_pct s' = Some p0 /\ last_raw_pct s' = p0
  /\ phase s' = downloading /\ floored_at (Z.min p0 94) s s'.
Proof.
  intros Hph Hst Hlast Hp. cbv zeta. unfold on_download_progress_raw.
  rewrite (not_idle s Hph).
  replace (Z.max 0 (Z.min 100 p0)) with p0 by lia.
  destruct (Z.ltb_spec p0 (last_raw_pct s)); [lia|].
  destruct (Z.leb_spec p0 50); [lia|].
  destruct (switched p0 s) as (H1 & H2 & H3 & H4 & H5). cbv zeta in *.
  set (s1 := match phase (set_last_raw_pct p0 s) with
             | downloading => _ | _ => _ end) in *.
  rewrite H2, Hst. fields.
  destruct (floor_keeps (Z.min p0 94) (set_starting_pct (Some p0) s1))
    as (K1 & K2 & K3).
  rewrite K1, K2, K3. fields.
  repeat split; try assumption.
  unfold floored_at. fields.
  apply (floored_at_from _ s (set_starting_pct (Some p0) s1)); fields;
    try assumption.
  apply floor_floored. lia.
Qed.

Lemma later_real_value (s : window) (p0 p : Z) :
  phase s <> idle -> starting_pct s = Some p0 -> 50 < p0 <= 100 ->
  last_raw_pct s <= p -> 50 < p <= 100 ->
  let s' := on_download_progress_raw p s in
  starting_pct s' = Some p0 /\ last_raw_pct s' = p
  /\ phase s' = downloading /\ floored_at (Spec.bar_target p0 p) s s'.
Proof.
  intros Hph Hst Hp0 Hlast Hp. cbv zeta. unfold on_download_progress_raw.
  rewrite (not_idle s Hph).
  replace (Z.max 0 (Z.min 100 p)) with p by lia.
  destruct (Z.ltb_spec p (last_raw_pct s)); [lia|].
  destruct (Z.leb_spec p 50); [lia|].
  destruct (switched p s) as (H1 & H2 & H3 & H4 & H5). cbv zeta in *.
  set (s1 := match phase (set_last_raw_pct p s) with
             | downloading => _ | _ => _ end) in *.
  rewrite H2, Hst.
  destruct (capped_exact p0 p Hp0 Hp) as [Hc Hb].
  unfold capped in Hc. destruct (scaled_int p0 p) as [i|]; [|discriminate].
  cbn [option_map] in Hc. injection Hc as Hc. rewrite Hc. fields.
  destruct (floor_keeps (Spec.bar_target p0 p) s1) as (K1 & K2 & K3).
  rewrite K1, K2, K3.
  repeat split; try congruence.
  unfold floored_at. fields.
  apply (floored_at_from _ s s1); try assumption.
  apply floor_floored. lia.
Qed.

Lemma stale_value_discarded (s : window) (p : Z) :
  0 <= p <= 100 -> p < last_raw_pct s -> on_download_progress_raw p s = s.
Proof.
  intros Hp Hlt. unfold on_download_progress_raw.
  destruct (is_idle s); [reflexivity|].
  replace (Z.max 0 (Z.min 100 p)) with p by lia.
  destruct (Z.ltb_spec p (last_raw_pct s)); [reflexivity|lia].
Qed.

Lemma low_value_ignored (s : window) (p : Z) :
  phase s <> idle -> 0 <= p <= 50 -> last_raw_pct s <= p ->
  on_download_progress_raw p s = set_last_raw_pct p s.
Proof.
  intros Hph Hp Hle. unfold on_download_progress_raw.
  rewrite (not_idle s Hph).
  replace (Z.max 0 (Z.min 100 p)) with p by lia.
  destruct (Z.ltb_spec p (last_raw_pct s)); [lia|].
  destruct (Z.leb_spec p 50); [reflexivity|lia].
Qed.


Lemma same_math_ok (s s' : window) : same_math s s' -> math_ok s -> math_ok s'.
Proof. unfold same_math, math_ok. intros [-> ->]. exact (fun H => H). Qed.

Lemma switch_to_installing_math (s : window) :
  same_math s (switch_to_installing s).
Proof.
  unfold switch_to_installing, same_math, _set_progress_floor.
  destruct (phase s); fields; try (split; reflexivity);
    destruct (above _ _); split; reflexivity.
Qed.

Lemma show_reboot_prompt_math yes raises (s : window) :
  same_math s (_show_reboot_prompt yes raises s).
Proof.
  unfold _show_reboot_prompt, same_math.
  destruct (reboot_prompt_shown s), yes, raises; split; reflexivity.
Qed.

Lemma on_phase_event_math m yes raises (s : window) :
  same_math s (on_phase_event m yes raises s).
Proof.
  destruct m; unfold on_phase_event.
  - destruct (on_download_complete yes raises s) as (_ & _ & _ & H1 & H2).
    split; assumption.
  - destruct (is_idle s); [split; reflexivity|apply switch_to_installing_math].
  - destruct (is_idle s); [split; reflexivity|].
    destruct (show_reboot_prompt_math yes raises
                (set_footer "Please reboot to complete the update."
                   (set_info "Update ready. Reboot required."
                      (_lock_ui false
                         (switch_to_installing
                            (set_phase_timer_active false
                               (set_phase need_reboot s))))))) as [H1 H2].
    destruct (switch_to_installing_math
                (set_phase_timer_active false (set_phase need_reboot s)))
      as [H3 H4].
    split; [rewrite H1|rewrite H2]; fields; assumption.
  - destruct (is_idle s); [split; reflexivity|apply switch_to_installing_math].
  - destruct (is_idle s); split; reflexivity.
Qed.

Lemma on_download_progress_raw_math (raw : Z) (s : window) :
  math_ok s -> math_ok (on_download_progress_raw raw s).
Proof.
  intro H. unfold on_download_progress_raw.
  destruct (is_idle s); [exact H|].
  set (p := Z.max 0 (Z.min 100 raw)).
  assert (Hp : 0 <= p <= 100) by (subst p; lia).
  clearbody p.
  destruct (Z.ltb_spec p (last_raw_pct s)) as [|Hge]; [exact H|].
  destruct (Z.leb_spec p 50) as [Hle|Hgt].
  - unfold math_ok in *. fields. destruct (starting_pct s); lia.
  - destruct (switched p s) as (H1 & H2 & H3 & H4 & H5). cbv zeta in *.
    set (s1 := match phase (set_last_raw_pct p s) with
               | downloading => _ | _ => _ end) in *.
    unfold math_ok in H.
    destruct (starting_pct s1) as [p0|] eqn:E.
    + rewrite <- H2 in H.
      assert (M1 : math_ok s1) by (unfold math_ok; rewrite E, H3; lia).
      destruct (scaled_int p0 p); [|exact M1].
      unfold math_ok. fields.
      destruct (floor_keeps (if 95 <=? z then 94 else z) s1) as (K1 & K2 & _).
      rewrite K1, K2, E, H3. lia.
    + unfold math_ok. fields.
      destruct (floor_keeps (Z.min p 94) (set_starting_pct (Some p) s1))
        as (K1 & K2 & _).
      rewrite K1, K2. fields. rewrite H3. lia.
Qed.

Lemma step_math (limit depth : nat) (s : window) (e : event * replies) :
  math_ok s -> math_ok (step limit depth s e).
Proof.
  intro H. destruct e as [e r]. destruct e; cbn [step];
    try exact H.
  - unfold on_consent_required.
    set (s0 := if check_timeout_active s then _ else s).
    assert (H0 : math_ok s0) by (subst s0; now destruct (check_timeout_active s)).
    destruct (negb (manual_check_active s0)); [exact H0|].
    destruct (Parsing.parse_consent_required limit depth raw_json) as [[|t ts]|x|];
      cbn [fst]; try exact H0.
    destruct (consent_yes r); [|exact H0].
    unfold math_ok, start_update_flow. fields. lia.
  - unfold on_consent_cleared. now destruct (phase s).
  - unfold math_ok, on_error, reset_progress_state. fields. lia.
  - now apply on_download_progress_raw_math.
  - exact (same_math_ok _ _ (on_phase_event_math m _ _ s) H).
  - unfold on_mode_toggled. now destruct (_ && _).
  - unfold on_check_clicked. now destruct (_ && _).
  - destruct (phase_timer_active s); [|exact H].
    unfold on_phase_tick. destruct (phase s); try exact H.
    destruct (negb _); [|exact H].
    unfold _advance_to_target. now destruct (above _ _).
  - destruct (check_timeout_active s); [|exact H].
    unfold on_check_timeout. destruct (is_idle _); [|exact H].
    unfold math_ok, reset_progress_state. fields. lia.
Qed.

Lemma run_math (limit depth : nat) (es : list (event * replies)) :
  forall s, math_ok s -> math_ok (run limit depth s es).
Proof.
  induction es as [|e es IH]; intros s H; [exact H|].
  cbn [run fold_left]. apply IH. now apply step_math.
Qed.

(** C2.  In a phase other than [idle]:
    - the first raw value [p0] above 50 (no value above 50 was accepted
      before: [starting_pct] is unset and [last_raw_pct] is at most 50, as
      in every state the window reaches with [starting_pct] unset) sets
      [starting_pct] to [p0], moves the phase to [downloading] and floors
      the bar at [min(p0, 94)];
    - every later accepted value [p] (not below the last accepted one;
      an equal one is accepted) floors the bar at the integer part of
      [p0 + (p - p0) / (100 - p0) * (94 - p0)] capped at 94 -- the float
      computation of the code gives exactly the value of that formula;
    - a value below the last accepted one is discarded, and an accepted value
      up to 50 only updates [last_raw_pct];
    - for the raw values 10, 30, 75, 82, 100 from [preparing]: 10 and 30
      leave the bar at 0, 75 puts it at 75 in phase [downloading], 82 at 80
      and 100 at 94. *)
Theorem real_progress_mapping :
  (forall (s : window) (p0 : Z),
     phase s <> idle -> starting_pct s = None -> last_raw_pct s <= 50 ->
     50 < p0 <= 100 ->
     let s' := on_download_progress_raw p0 s in
     starting_pct s' = Some p0 /\ last_raw_pct s' = p0
     /\ phase s' = downloading /\ floored_at (Z.min p0 94) s s')
  /\ (forall (s : window) (p0 p : Z),
        phase s <> idle -> starting_pct s = Some p0 -> 50 < p0 <= 100 ->
        last_raw_pct s <= p -> 50 < p <= 100 ->
        let s' := on_download_progress_raw p s in
        starting_pct s' = Some p0 /\ last_raw_pct s' = p
        /\ phase s' = downloading
        /\ floored_at (Spec.bar_target p0 p) s s')
  /\ (forall (s : window) (p : Z),
        0 <= p <= 100 -> p < last_raw_pct s ->
        on_download_progress_raw p s = s)
  /\ (forall (s : window) (p : Z),
        phase s <> idle -> 0 <= p <= 50 -> last_raw_pct s <= p ->
        on_download_progress_raw p s = set_last_raw_pct p s)
  /\ (forall (limit depth : nat) (es : list (event * replies)),
        math_ok (run limit depth init es))
  /\ (let s0 := start_update_flow init in
      let s1 := on_download_progress_raw 10 s0 in
      let s2 := on_download_progress_raw 30 s1 in
      let s3 := on_download_progress_raw 75 s2 in
      let s4 := on_download_progress_raw 82 s3 in
      let s5 := on_download_progress_raw 100 s4 in
      phase s0 = preparing
      /\ List.map (fun s => (phase s, progress_bar s, phase_progress s))
           [s1; s2; s3; s4; s5]
         = [ (preparing, 0, 0%Q); (preparing, 0, 0%Q);
             (downloading, 75, 75%Q); (downloading, 80, 80%Q);
             (downloading, 94, 94%Q) ]
      /\ starting_pct s2 = None /\ starting_pct s3 = Some 75).
Proof.
  split; [exact first_real_value|].
  split; [exact later_real_value|].
  split; [exact stale_value_discarded|].
  split; [exact low_value_ignored|].
  split.
  - intros limit depth es. apply run_math. unfold math_ok. cbn. lia.
  - vm_compute. repeat split; reflexivity.
Qed.

Lemma real_progress_mapping_witness :
  let s0 := start_update_flow init in
  let s3 := on_download_progress_raw 75 s0 in
  let s4 := on_download_progress_raw 82 s3 in
  (starting_pct s3 = Some 75 /\ phase s3 = downloading
   /\ phase_progress s3 = 75%Q)
  /\ (last_raw_pct s4 = 82 /\ floored_at 80 s3 s4)
  /\ on_download_progress_raw 60 s4 = s4
  /\ on_download_progress_raw 30 s0 = set_last_raw_pct 30 s0.
Proof.
  cbv zeta.
  destruct real_progress_mapping as (Hfirst & Hlater & Hstale & Hlow & _).
  assert (Hph : phase (start_update_flow init) <> idle) by discriminate.
  assert (H75 : 50 < 75 <= 100) by lia.
  destruct (Hfirst (start_update_flow init) 75 Hph eq_refl
              ltac:(cbn; lia) H75) as (A1 & A2 & A3 & A4).
  cbv zeta in A1, A2, A3, A4.
  split.
  { split; [exact A1|]. split; [exact A3|].
    destruct A4 as [(_ & E & _)|(C & _)]; [exact E|].
    exfalso. revert C. vm_compute. intro C. now apply C. }
  assert (Hph3 : phase (on_download_progress_raw 75 (start_update_flow init))
                 <> idle) by (rewrite A3; discriminate).
  destruct (Hlater _ 75 82 Hph3 A1 H75 ltac:(rewrite A2; lia) ltac:(lia))
    as (B1 & B2 & B3 & B4).
  cbv zeta in B1, B2, B3, B4.
  split; [split; [exact B2|exact B4]|].
  split.
  - apply Hstale; [lia|]. rewrite B2. lia.
  - apply Hlow; [exact Hph|lia|cbn; lia].
Defined.

(** ** The values of [phase_progress]

    Every state the window reaches holds a multiple of one half between 0
    and 100 in [phase_progress]: on these values the binary64 operations
    of the code are exact. *)

Lemma grid_of_int (v : Z) : 0 <= v <= 100 -> on_half_grid (inject_Z v).
Proof.
  intro H. exists (2 * v). split; [lia|].
  unfold Qeq, inject_Z. cbn [Qnum Qden]. lia.
Qed.

Lemma floor_grid (v : Z) (s : window) :
  on_half_grid (phase_progress s) ->
  on_half_grid (phase_progress (_set_progress_floor v s)).
Proof.
  intro H. rewrite floor_progress. destruct (above _ _); [|exact H].
  apply grid_of_int. lia.
Qed.

Lemma tick_grid (s : window) :
  on_half_grid (phase_progress s) ->
  on_half_grid (phase_progress (on_phase_tick s)).
Proof.
  intro H. unfold on_phase_tick.
  destruct (phase s); try exact H.
  destruct (negb _); [|exact H].
  unfold _advance_to_target.
  change (Z.max 0 (Z.min 100 50)) with 50.
  destruct (above 50 (phase_progress s)) eqn:E; [|exact H].
  fields. destruct (negb _); [apply grid_of_int; lia|].
  apply above_spec in E. destruct H as (k & Hk & Heq).
  exists (k + 1). rewrite Qred_correct, Heq.
  rewrite Heq in E.
  split.
  - unfold Qlt, inject_Z in E. cbn [Qnum Qden] in E. lia.
  - unfold Qeq, Qplus. cbn [Qnum Qden]. lia.
Qed.

Lemma switch_to_installing_grid (s : window) :
  on_half_grid (phase_progress s) ->
  on_half_grid (phase_progress (switch_to_installing s)).
Proof.
  intro H. unfold switch_to_installing.
  destruct (phase s); try exact H; fields; apply floor_grid; exact H.
Qed.

Lemma on_phase_event_grid m yes raises (s : window) :
  on_half_grid (phase_progress s) ->
  on_half_grid (phase_progress (on_phase_event m yes raises s)).
Proof.
  intro H. destruct m; unfold on_phase_event;
    try (destruct (is_idle s); [exact H|]).
  - fields. apply floor_grid. exact H.
  - now apply switch_to_installing_grid.
  - rewrite show_reboot_prompt_progress. fields.
    now apply switch_to_installing_grid.
  - now apply switch_to_installing_grid.
  - exact H.
Qed.

Lemma on_download_progress_raw_grid (raw : Z) (s : window) :
  on_half_grid (phase_progress s) ->
  on_half_grid (phase_progress (on_download_progress_raw raw s)).
Proof.
  intro H. unfold on_download_progress_raw.
  destruct (is_idle s); [exact H|].
  destruct (_ <? _); [exact H|].
  destruct (_ <=? 50); [exact H|].
  set (s1 := match phase (set_last_raw_pct _ s) with
             | downloading => _ | _ => _ end).
  assert (H1 : phase_progress s1 = phase_progress s).
  { subst s1. destruct (phase _); try reflexivity;
      rewrite switch_to_downloading_progress; reflexivity. }
  rewrite <- H1 in H.
  destruct (starting_pct s1).
  - destruct (scaled_int _ _); [|exact H]. fields. now apply floor_grid.
  - fields. now apply floor_grid.
Qed.

Lemma progress_grid_step (limit depth : nat) (s : window) (e : event * replies) :
  on_half_grid (phase_progress s) ->
  on_half_grid (phase_progress (step limit depth s e)).
Proof.
  intro H. destruct e as [e r].
  assert (Z0 : on_half_grid 0%Q) by (apply (grid_of_int 0); lia).
  destruct e; cbn [step]; try exact H.
  - destruct (on_consent_required_progress limit depth raw_json (consent_yes r) s)
      as [E|(E & _)]; cbv zeta in E; rewrite E; assumption.
  - unfold on_consent_cleared. now destruct (phase s).
  - exact Z0.
  - now apply on_download_progress_raw_grid.
  - now apply on_phase_event_grid.
  - unfold on_mode_toggled. now destruct (_ && _).
  - unfold on_check_clicked. now destruct (_ && _).
  - destruct (phase_timer_active s); [|exact H]. now apply tick_grid.
  - destruct (check_timeout_active s); [|exact H].
    destruct (on_check_timeout_progress (set_check_timeout_active false s))
      as [E|(E & _)]; rewrite E; assumption.
Qed.

Lemma progress_grid_run (limit depth : nat) (es : list (event * replies)) :
  on_half_grid (phase_progress (run limit depth init es)).
Proof.
  assert (G : forall s, on_half_grid (phase_progress s) ->
                        on_half_grid (phase_progress (run limit depth s es))).
  { induction es as [|e es IH]; intros s H; [exact H|].
    cbn [run fold_left]. apply IH. now apply progress_grid_step. }
  apply G. apply (grid_of_int 0). lia.
Qed.

(** ** The consent sub-flow *)

Lemma consent_passive (limit depth : nat) (raw : string) (yes : bool)
    (during : window -> window) (s : window) :
  manual_check_active s = false ->
  let s' := fst (on_consent_required limit depth raw yes during s) in
  snd (on_consent_required limit depth raw yes during s) = Returned tt
  /\ dialogs s' = dialogs s /\ commands s' = commands s
  /\ phase s' = phase s /\ phase_progress s' = phase_progress s
  /\ manual_check_active s' = false
  /\ info s' = "An update is available (pending consent)."%string
  /\ footer s' = "Press 'Check for updates' to review and apply it."%string.
Proof.
  intro H. cbv zeta. unfold on_consent_required.
  destruct (check_timeout_active s); fields; rewrite H; cbn [negb fst snd];
    fields; repeat split; try reflexivity; exact H.
Qed.

Lemma timeout_stopped_fields (s : window) :
  manual_check_active (timeout_stopped s) = manual_check_active s
  /\ check_timeout_active (timeout_stopped s) = false
  /\ dialogs (timeout_stopped s) = dialogs s
  /\ commands (timeout_stopped s) = commands s
  /\ phase (timeout_stopped s) = phase s
  /\ phase_progress (timeout_stopped s) = phase_progress s.
Proof.
  unfold timeout_stopped.
  destruct (check_timeout_active s) eqn:E; fields; repeat split;
    try reflexivity; exact E.
Qed.

(** The slot from the point where the payload is decoded. *)
Lemma consent_after_timeout (limit depth : nat) (raw : string) (yes : bool)
    (during : window -> window) (s : window) :
  manual_check_active s = true ->
  on_consent_required limit depth raw yes during s
  = match Parsing.parse_consent_required limit depth raw with
    | Raised e => (timeout_stopped s, Raised e)
    | Exhausted => (timeout_stopped s, Exhausted)
    | Returned [] =>
        (set_manual_check_active false (timeout_stopped s), Returned tt)
    | Returned (t :: _) =>
        let w := during (exec (consent_dialog t) (timeout_stopped s)) in
        (set_manual_check_active false
           (if yes
            then call (send_consent true "Accepted via UI")
                   (start_update_flow w)
            else call (send_consent false "Refused via UI")
                   (set_footer "" (set_info "Update refused." w))),
         Returned tt)
    end.
Proof.
  intro H. unfold on_consent_required.
  destruct (timeout_stopped_fields s) as (M & _).
  unfold timeout_stopped in *. rewrite M, H. reflexivity.
Qed.

Lemma consent_modal (limit depth : nat) (raw : string) (yes : bool)
    (during : window -> window) (s : window)
    (t : Parsing.UpdateTarget) (ts : list Parsing.UpdateTarget) :
  manual_check_active s = true ->
  Parsing.parse_consent_required limit depth raw = Returned (t :: ts) ->
  let opened := exec (consent_dialog t) (timeout_stopped s) in
  let r := on_consent_required limit depth raw yes during s in
  snd r = Returned tt
  /\ dialogs opened = dialogs s ++ [consent_dialog t]
  /\ manual_check_active opened = true
  /\ manual_check_active (fst r) = false
  /\ dialogs (fst r) = dialogs (during opened)
  /\ commands (fst r)
     = commands (during opened)
       ++ [if yes then send_consent true "Accepted via UI"
           else send_consent false "Refused via UI"]
  /\ phase (fst r) = (if yes then preparing else phase (during opened)).
Proof.
  intros H P. cbv zeta. rewrite (consent_after_timeout _ _ _ _ _ _ H), P.
  cbv zeta. cbn [fst snd].
  destruct (timeout_stopped_fields s) as (M & _ & D & _).
  split; [reflexivity|].
  split; [cbn [dialogs exec]; now rewrite D|].
  split; [cbn [manual_check_active exec]; now rewrite M|].
  generalize (during (exec (consent_dialog t) (timeout_stopped s))).
  intro w. destruct yes; unfold start_update_flow; fields;
    repeat split; reflexivity.
Qed.


Lemma consent_raises (limit depth : nat) (raw : string) (yes : bool)
    (during : window -> window) (s : window) (e : exn) :
  manual_check_active s = true ->
  Parsing.parse_consent_required limit depth raw = Raised e ->
  let s' := fst (on_consent_required limit depth raw yes during s) in
  snd (on_consent_required limit depth raw yes during s) = Raised e
  /\ dialogs s' = dialogs s /\ commands s' = commands s
  /\ manual_check_active s' = true /\ check_timeout_active s' = false
  /\ phase s' = phase s.
Proof.
  intros H P. cbv zeta. rewrite (consent_after_timeout _ _ _ _ _ _ H), P.
  destruct (timeout_stopped_fields s) as (M & T & D & C & Ph & _).
  cbn [fst snd]. rewrite M. now repeat split.
Qed.




















(* ================================================================== *)
(** * Properties of the log-line recogniser *)
(* ================================================================== *)

Module LogFacts.

Import Text Regex LogTail.

Lemma lstrip_blank (s : string) :
  forallb is_space (list_ascii_of_string s) = true -> lstrip s = EmptyString.
Proof.
  induction s as [|c s IH]; [reflexivity|].
  cbn [list_ascii_of_string forallb lstrip]. intro H.
  apply andb_true_iff in H as [Hc Hs]. rewrite Hc. now apply IH.
Qed.

Lemma strip_blank (s : string) :
  forallb is_space (list_ascii_of_string s) = true -> strip s = EmptyString.
Proof. intro H. unfold strip. now rewrite (lstrip_blank s H). Qed.

Lemma process_line_extract (limit : nat) (line : string) :
  process_line limit line = as_list (Spec.extract limit line).
Proof.
  unfold process_line, Spec.extract.
  destruct (strip line) as [|c text] eqn:E; [reflexivity|].
  cbn [nonempty negb]. unfold Spec.checks.
  cbn [Spec.first_match].
  destruct (is_download_complete_line _); [reflexivity|].
  unfold Spec.progress_from, Spec.marker_from.
  destruct (search ostree_receiving_objects_re _); [reflexivity|].
  cbn [option_map].
  destruct (search progress_re _); [reflexivity|].
  cbn [option_map].
  destruct (matches install_started_re _); [reflexivity|].
  destruct (matches need_reboot_re _); [reflexivity|].
  destruct (matches install_complete_re _); [reflexivity|].
  destruct (matches reboot_re _); reflexivity.
Qed.

Lemma percent_of_range (limit : nat) (caps : list string) :
  0 <= percent_of limit caps <= 100.
Proof. unfold percent_of. lia. Qed.

Lemma percent_of_failure (limit : nat) (caps : list string) :
  int_of_digits limit (group1 caps) = None -> percent_of limit caps = 0.
Proof. unfold percent_of. now intros ->. Qed.

Lemma process_line_short (limit : nat) (line : string) :
  (List.length (process_line limit line) <= 1)%nat.
Proof.
  rewrite process_line_extract. destruct (Spec.extract limit line); cbn; lia.
Qed.

Lemma process_line_clamped (limit : nat) (line : string) (p : Z) :
  In (download_progress p) (process_line limit line) -> 0 <= p <= 100.
Proof.
  unfold process_line.
  destruct (negb _); [intros []|].
  destruct (is_download_complete_line _);
    [intros [H|[]]; discriminate|].
  destruct (search ostree_receiving_objects_re _).
  { intros [H|[]]. injection H as <-. apply percent_of_range. }
  destruct (search progress_re _).
  { intros [H|[]]. injection H as <-. apply percent_of_range. }
  destruct (matches install_started_re _); [intros [H|[]]; discriminate|].
  destruct (matches need_reboot_re _); [intros [H|[]]; discriminate|].
  destruct (matches install_complete_re _); [intros [H|[]]; discriminate|].
  destruct (matches reboot_re _); [intros [H|[]]; discriminate|intros []].
Qed.

(** A matched percentage whose conversion fails still yields the event. *)
Lemma process_line_malformed (limit : nat) (line : string) (caps : list string) :
  nonempty (strip line) = true ->
  is_download_complete_line (strip line) = false ->
  (search ostree_receiving_objects_re (strip line) = Some caps
   \/ search ostree_receiving_objects_re (strip line) = None
      /\ search progress_re (strip line) = Some caps) ->
  int_of_digits limit (group1 caps) = None ->
  process_line limit line = [download_progress 0].
Proof.
  intros Hne Hdc Hm Hint. unfold process_line. rewrite Hne, Hdc. cbn [negb].
  destruct Hm as [->|[-> ->]]; now rewrite (percent_of_failure _ _ Hint).
Qed.

(** C6.  For every line given to [process_line]:
    - a blank or whitespace-only line yields no event;
    - otherwise the result is that of the seven checks of the specification
      run in their order -- download-complete markers, ostree object
      transfer percentage, DownloadProgressReport percentage,
      install_started, need_reboot, install_complete, rebooting -- the
      first match winning;
    - a line yields at most one event;
    - a percentage is clamped to 0..100;
    - a matched percentage whose conversion to an integer fails yields
      progress 0: the line is not discarded.
    Checked on lines where two checks match, and on a percentage of 4301
    digits, which [int] refuses under the default limit of 4300. *)
Theorem process_line_recognition :
  (forall (limit : nat) (line : string),
     forallb is_space (list_ascii_of_string line) = true ->
     process_line limit line = [])
  /\ (forall (limit : nat) (line : string),
        process_line limit line = as_list (Spec.extract limit line))
  /\ (forall (limit : nat) (line : string),
        (List.length (process_line limit line) <= 1)%nat)
  /\ (forall (limit : nat) (line : string) (p : Z),
        In (download_progress p) (process_line limit line) -> 0 <= p <= 100)
  /\ (forall (limit : nat) (line : string) (caps : list string),
        nonempty (strip line) = true ->
        is_download_complete_line (strip line) = false ->
        (search ostree_receiving_objects_re (strip line) = Some caps
         \/ search ostree_receiving_objects_re (strip line) = None
            /\ search progress_re (strip line) = Some caps) ->
        int_of_digits limit (group1 caps) = None ->
        process_line limit line = [download_progress 0])
  /\ (process_line 4300 need_completion_line = [phase_event need_reboot]
      /\ matches install_complete_re need_completion_line = true)
  /\ (process_line 4300 complete_and_percent_line
      = [phase_event download_complete]
      /\ matches ostree_receiving_objects_re complete_and_percent_line = true)
  /\ (process_line 4300 two_percent_line = [download_progress 80]
      /\ matches progress_re two_percent_line = true)
  /\ (process_line 4300 started_and_complete_line
      = [phase_event install_started]
      /\ matches install_complete_re started_and_complete_line = true)
  /\ process_line 4300 long_percent_line = [download_progress 0]
  /\ process_line 0 long_percent_line = [download_progress 100].
Proof.
  split.
  { intros limit line H. unfold process_line.
    now rewrite (strip_blank line H). }
  split; [exact process_line_extract|].
  split; [exact process_line_short|].
  split; [exact process_line_clamped|].
  split; [exact process_line_malformed|].
  repeat split; vm_compute; reflexivity.
Qed.

Lemma process_line_recognition_witness :
  process_line 4300 "   " = []
  /\ 0 <= 80 <= 100
  /\ process_line 4300 long_percent_line = [download_progress 0].
Proof.
  destruct process_line_recognition as (Hb & _ & _ & Hc & Hm & _).
  split; [apply Hb; reflexivity|].
  split.
  { apply (Hc 4300%nat two_percent_line 80). vm_compute. now left. }
  apply (Hm 4300%nat long_percent_line
           [string_of_list_ascii (repeat "9"%char 4301)]).
  - vm_compute. reflexivity.
  - vm_compute. reflexivity.
  - left. vm_compute. reflexivity.
  - vm_compute. reflexivity.
Defined.

End LogFacts.

(* ================================================================== *)
(** * The recursion bound of the JSON decoder suffices *)
(* ================================================================== *)

Module JsonFacts.

Import Text Py Json.
Local Open Scope nat_scope.

Lemma skip_ws_length (s : string) : String.length (skip_ws s) <= String.length s.
Proof.
  induction s as [|c s IH]; cbn; [lia|]. destruct (is_ws c); cbn; lia.
Qed.

Lemma after_length (c : ascii) (s r : string) :
  after c s = Some r -> String.length s = S (String.length r).
Proof.
  destruct s as [|a t]; cbn; [discriminate|].
  destruct (Ascii.eqb a c); [|discriminate]. now intros [= ->].
Qed.

Lemma drop_prefix_length (p s r : string) :
  drop_prefix p s = Some r -> String.length s = String.length p + String.length r.
Proof.
  revert s. induction p as [|a p IH]; intros s H.
  - destruct s; cbn in H; injection H as <-; reflexivity.
  - destruct s as [|b s]; [discriminate|]. cbn in H.
    destruct (Ascii.eqb a b); [|discriminate]. cbn. now rewrite (IH s H).
Qed.

Lemma span_digits_length (s : string) : String.length (snd (span_digits s)) <= String.length s.
Proof.
  induction s as [|c s IH]; cbn; [lia|].
  destruct (is_decimal c); [|cbn; lia].
  destruct (span_digits s) as [d r]. cbn in *. lia.
Qed.

Lemma lex_int_part_shrink (s i r : string) :
  lex_int_part s = Some (i, r) -> String.length r < String.length s.
Proof.
  destruct s as [|c t]; [discriminate|].
  pose proof (span_digits_length t) as L.
  assert (G : (if is_decimal c then Some (span_digits (String c t)) else None)
              = Some (i, r) -> String.length r < String.length (String c t)).
  { destruct (is_decimal c) eqn:D; [|discriminate].
    cbn [span_digits]. rewrite D.
    destruct (span_digits t) as [d r']. cbn in L. intros [= <- <-]. cbn. lia. }
  destruct c as [[] [] [] [] [] [] [] []]; cbn [lex_int_part];
    try exact G.
  intros [= <- <-]. cbn. lia.
Qed.

Lemma lex_frac_length (s : string) : String.length (snd (lex_frac s)) <= String.length s.
Proof.
  destruct s as [|c t]; [cbn; lia|].
  pose proof (span_digits_length t) as L.
  destruct c as [[] [] [] [] [] [] [] []]; cbn [lex_frac snd]; try lia.
  destruct (span_digits t) as [[|d ds] r]; cbn in *; lia.
Qed.

Lemma lex_exp_length (s : string) : String.length (snd (lex_exp s)) <= String.length s.
Proof.
  destruct s as [|c t]; [cbn; lia|]. cbn [lex_exp].
  destruct (_ || _); [|cbn; lia].
  assert (G : forall t', String.length t' <= String.length t ->
     String.length (snd (match span_digits t' with
               | (EmptyString, _) => (@None (bool * string), String c t)
               | (d, r) => (Some (false, d), r)
               end)) <= String.length (String c t)
     /\ String.length (snd (match span_digits t' with
               | (EmptyString, _) => (@None (bool * string), String c t)
               | (d, r) => (Some (true, d), r)
               end)) <= String.length (String c t)).
  { intros t' Ht. pose proof (span_digits_length t') as L.
    destruct (span_digits t') as [[|d ds] r]; cbn in *; lia. }
  destruct t as [|a u].
  - apply (G EmptyString). lia.
  - destruct a as [[] [] [] [] [] [] [] []];
      try (apply (G (String _ u)); cbn; lia);
      apply (G u); cbn; lia.
Qed.

Lemma lex_number_shrink (s r : string) (n : number_lexeme) :
  lex_number s = Some (n, r) -> String.length r < String.length s.
Proof.
  unfold lex_number.
  set (p := match s with String "-"%char r0 => (true, r0) | _ => (false, s) end).
  assert (Hp : String.length (snd p) <= String.length s).
  { subst p. destruct s as [|c t]; [cbn; lia|].
    destruct c as [[] [] [] [] [] [] [] []]; cbn; lia. }
  destruct p as [neg s1]. cbn [snd] in Hp.
  destruct (lex_int_part s1) as [[i s2]|] eqn:E; [|discriminate].
  apply lex_int_part_shrink in E.
  pose proof (lex_frac_length s2) as F.
  destruct (lex_frac s2) as [f s3]. cbn [snd] in F.
  pose proof (lex_exp_length s3) as X.
  destruct (lex_exp s3) as [e s4]. cbn [snd] in X.
  intros [= _ <-]. lia.
Qed.

Lemma scanstring_from_shrink (s : string) :
  forall mode hi acc u r,
    scanstring_from mode hi acc s = Some (u, r) -> String.length r < String.length s.
Proof.
  induction s as [|c s IH]; intros mode hi acc u r H; [discriminate|].
  cbn [scanstring_from] in H. cbn [String.length].
  destruct mode as [| |more v].
  - destruct (Ascii.eqb c "034"); [injection H as _ <-; lia|].
    destruct (Ascii.eqb c "\"); [apply IH in H; lia|].
    destruct (_ <? _)%N; [discriminate|]. apply IH in H. lia.
  - destruct (Ascii.eqb c "u"); [apply IH in H; lia|].
    match type of H with
    | match ?x with _ => _ end = _ => destruct x; [|discriminate]
    end.
    apply IH in H. lia.
  - destruct (hex_digit c); [|discriminate].
    destruct more; [|apply IH in H; lia].
    destruct hi, acc; try (apply IH in H; lia).
    destruct (is_low_surrogate _); apply IH in H; lia.
Qed.

Lemma scanstring_shrink (s r : string) (u : ustring) :
  scanstring s = Returned (u, r) -> String.length r < String.length s.
Proof.
  unfold scanstring.
  destruct (scanstring_from Plain false [] s) as [[u' r']|] eqn:E;
    [|discriminate].
  intros [= <- <-]. now apply scanstring_from_shrink in E.
Qed.

Lemma scanstring_not_exhausted (s : string) : scanstring s <> Exhausted.
Proof. unfold scanstring. now destruct (scanstring_from _ _ _ _). Qed.

Lemma number_value_not_exhausted (limit : nat) (n : number_lexeme) :
  number_value limit n <> Exhausted.
Proof.
  unfold number_value.
  destruct (frac_digits n), (exponent n); try discriminate.
  now destruct (int_of_digits _ _).
Qed.

Lemma scan_literal_facts (limit : nat) (s : string) :
  scan_literal limit s <> Exhausted
  /\ forall v r, scan_literal limit s = Returned (v, r) -> String.length r < String.length s.
Proof.
  unfold scan_literal.
  destruct (drop_prefix "null" s) eqn:E1.
  { apply drop_prefix_length in E1. cbn in E1.
    split; [discriminate|]. intros v r [= _ <-]. lia. }
  destruct (drop_prefix "true" s) eqn:E2.
  { apply drop_prefix_length in E2. cbn in E2.
    split; [discriminate|]. intros v r [= _ <-]. lia. }
  destruct (drop_prefix "false" s) eqn:E3.
  { apply drop_prefix_length in E3. cbn in E3.
    split; [discriminate|]. intros v r [= _ <-]. lia. }
  destruct (lex_number s) as [[n r0]|] eqn:E4.
  { apply lex_number_shrink in E4.
    pose proof (number_value_not_exhausted limit n) as N.
    destruct (number_value limit n); cbn [bind];
      try contradiction; split; try discriminate.
    intros v r [= _ <-]. exact E4. }
  destruct (drop_prefix "NaN" s) eqn:E5.
  { apply drop_prefix_length in E5. cbn in E5.
    split; [discriminate|]. intros v r [= _ <-]. lia. }
  destruct (drop_prefix "Infinity" s) eqn:E6.
  { apply drop_prefix_length in E6. cbn in E6.
    split; [discriminate|]. intros v r [= _ <-]. lia. }
  destruct (drop_prefix "-Infinity" s) eqn:E7.
  { apply drop_prefix_length in E7. cbn in E7.
    split; [discriminate|]. intros v r [= _ <-]. lia. }
  split; discriminate.
Qed.

Section Fuel.

Variable limit : nat.

Lemma scan_shrink (fuel : nat) :
  (forall room s v r,
     scan_once limit fuel room s = Returned (v, r) ->
     String.length r < String.length s)
  /\ (forall room pairs s v r,
        members limit fuel room pairs s = Returned (v, r) ->
        String.length r < String.length s)
  /\ (forall room acc s v r,
        elements limit fuel room acc s = Returned (v, r) ->
        String.length r < String.length s).
Proof.
  induction fuel as [|fuel (IHs & IHm & IHe)];
    [repeat split; intros; discriminate|].
  split; [|split].
  - intros room s v r H. cbn [scan_once] in H.
    destruct (after "034" s) as [rest|] eqn:A1.
    { apply after_length in A1.
      destruct (scanstring rest) as [[k r0]| |] eqn:S1; try discriminate.
      apply scanstring_shrink in S1. cbn [bind] in H. injection H as _ <-. lia. }
    destruct (after "{" s) as [rest|] eqn:A2.
    { destruct room as [|room']; [discriminate|].
      apply after_length in A2. cbv zeta in H.
      pose proof (skip_ws_length rest) as W.
      destruct (after "}" (skip_ws rest)) as [r'|] eqn:A3.
      { apply after_length in A3. injection H as _ <-. lia. }
      destruct (after "034" (skip_ws rest)) as [r'|] eqn:A4; [|discriminate].
      apply after_length in A4. apply IHm in H. lia. }
    destruct (after "[" s) as [rest|] eqn:A5.
    { destruct room as [|room']; [discriminate|].
      apply after_length in A5. cbv zeta in H.
      pose proof (skip_ws_length rest) as W.
      destruct (after "]" (skip_ws rest)) as [r'|] eqn:A6.
      { apply after_length in A6. injection H as _ <-. lia. }
      apply IHe in H. lia. }
    now apply (proj2 (scan_literal_facts limit s)) in H.
  - intros room pairs s v r H. cbn [members] in H.
    destruct (scanstring s) as [[key r0]| |] eqn:S1; try discriminate.
    apply scanstring_shrink in S1. cbn [bind] in H.
    pose proof (skip_ws_length r0) as W0.
    destruct (after ":" (skip_ws r0)) as [r1|] eqn:A1; [|discriminate].
    apply after_length in A1. pose proof (skip_ws_length r1) as W1.
    destruct (scan_once limit fuel room (skip_ws r1)) as [[v0 r2]| |] eqn:S2;
      try discriminate.
    apply IHs in S2. cbn [bind] in H. cbv zeta in H.
    pose proof (skip_ws_length r2) as W2.
    destruct (after "}" (skip_ws r2)) as [r3|] eqn:A2.
    { apply after_length in A2. injection H as _ <-. lia. }
    destruct (after "," (skip_ws r2)) as [r3|] eqn:A3; [|discriminate].
    apply after_length in A3. pose proof (skip_ws_length r3) as W3.
    destruct (after "034" (skip_ws r3)) as [r4|] eqn:A4; [|discriminate].
    apply after_length in A4. apply IHm in H. lia.
  - intros room acc s v r H. cbn [elements] in H.
    destruct (scan_once limit fuel room s) as [[v0 r0]| |] eqn:S1;
      try discriminate.
    apply IHs in S1. cbn [bind] in H.
    pose proof (skip_ws_length r0) as W0.
    destruct (after "]" (skip_ws r0)) as [r1|] eqn:A1.
    { apply after_length in A1. injection H as _ <-. lia. }
    destruct (after "," (skip_ws r0)) as [r1|] eqn:A2; [|discriminate].
    apply after_length in A2. pose proof (skip_ws_length r1) as W1.
    apply IHe in H. lia.
Qed.

Lemma scan_enough (fuel : nat) :
  (forall room s, 2 * String.length s + 1 <= fuel ->
     scan_once limit fuel room s <> Exhausted)
  /\ (forall room pairs s, 2 * String.length s + 2 <= fuel ->
        members limit fuel room pairs s <> Exhausted)
  /\ (forall room acc s, 2 * String.length s + 2 <= fuel ->
        elements limit fuel room acc s <> Exhausted).
Proof.
  induction fuel as [|fuel (IHs & IHm & IHe)];
    [repeat split; intros; lia|].
  split; [|split].
  - intros room s F. cbn [scan_once].
    destruct (after "034" s) as [rest|] eqn:A1.
    { pose proof (scanstring_not_exhausted rest).
      destruct (scanstring rest) as [[k r0]| |]; cbn [bind];
        try discriminate; contradiction. }
    destruct (after "{" s) as [rest|] eqn:A2.
    { destruct room as [|room']; [discriminate|].
      apply after_length in A2. cbv zeta.
      pose proof (skip_ws_length rest) as W.
      destruct (after "}" (skip_ws rest)) as [r'|] eqn:A3; [discriminate|].
      destruct (after "034" (skip_ws rest)) as [r'|] eqn:A4; [|discriminate].
      apply after_length in A4. apply IHm. lia. }
    destruct (after "[" s) as [rest|] eqn:A5.
    { destruct room as [|room']; [discriminate|].
      apply after_length in A5. cbv zeta.
      pose proof (skip_ws_length rest) as W.
      destruct (after "]" (skip_ws rest)) as [r'|] eqn:A6; [discriminate|].
      apply IHe. lia. }
    apply scan_literal_facts.
  - intros room pairs s F. cbn [members].
    pose proof (scanstring_not_exhausted s) as N.
    destruct (scanstring s) as [[key r0]| |] eqn:S1; try discriminate;
      [|contradiction].
    apply scanstring_shrink in S1. cbn [bind].
    pose proof (skip_ws_length r0) as W0.
    destruct (after ":" (skip_ws r0)) as [r1|] eqn:A1; [|discriminate].
    apply after_length in A1. pose proof (skip_ws_length r1) as W1.
    assert (N2 : scan_once limit fuel room (skip_ws r1) <> Exhausted)
      by (apply IHs; lia).
    destruct (scan_once limit fuel room (skip_ws r1)) as [[v0 r2]| |] eqn:S2;
      try discriminate; [|contradiction].
    apply scan_shrink in S2. cbn [bind]. cbv zeta.
    pose proof (skip_ws_length r2) as W2.
    destruct (after "}" (skip_ws r2)) as [r3|] eqn:A2; [discriminate|].
    destruct (after "," (skip_ws r2)) as [r3|] eqn:A3; [|discriminate].
    apply after_length in A3. pose proof (skip_ws_length r3) as W3.
    destruct (after "034" (skip_ws r3)) as [r4|] eqn:A4; [|discriminate].
    apply after_length in A4. apply IHm. lia.
  - intros room acc s F. cbn [elements].
    assert (N : scan_once limit fuel room s <> Exhausted) by (apply IHs; lia).
    destruct (scan_once limit fuel room s) as [[v0 r0]| |] eqn:S1;
      try discriminate; [|contradiction].
    apply scan_shrink in S1. cbn [bind].
    pose proof (skip_ws_length r0) as W0.
    destruct (after "]" (skip_ws r0)) as [r1|] eqn:A1; [discriminate|].
    destruct (after "," (skip_ws r0)) as [r1|] eqn:A2; [|discriminate].
    apply after_length in A2. pose proof (skip_ws_length r1) as W1.
    apply IHe. lia.
Qed.

Lemma loads_not_exhausted (room : nat) (s : string) :
  loads limit room s <> Exhausted.
Proof.
  unfold loads. cbv zeta.
  assert (N : scan_once limit (S (2 * String.length (skip_ws s))) room
                (skip_ws s)
              <> Exhausted) by (apply scan_enough; lia).
  destruct (scan_once _ _ _) as [[v r]| |]; cbn [bind];
    try discriminate; [|contradiction].
  now destruct (skip_ws r).
Qed.

End Fuel.

End JsonFacts.

(* ================================================================== *)
(** * Properties of the consent payload parser *)
(* ================================================================== *)

Module PayloadFacts.

Import Py Json Parsing.

Lemma get_dict (kv : list (ustring * value)) (key : string) (d : value) :
  get (JObj kv) key d = Returned (present_or d (entry key kv)).
Proof. reflexivity. Qed.

(** The metadata the parser reads from an accepted target. *)
Lemma custom_of_ok (kv : list (ustring * value)) :
  target_ok (JObj kv) = true ->
  or_else (present_or (JObj []) (entry "custom" kv)) (JObj [])
  = JObj (custom_of (JObj kv)).
Proof.
  unfold target_ok, custom_of, entry, or_else, present_or.
  destruct (dict_get (ustr "custom") kv) as [c|]; [|reflexivity].
  destruct (truthy c) eqn:T; cbn [negb orb]; intro H.
  - destruct c; try discriminate. reflexivity.
  - destruct c as [| | | | | |ckv]; try reflexivity.
    destruct ckv; [reflexivity|discriminate T].
Qed.

Lemma parse_target_ok (tid : ustring) (t : value) :
  target_ok t = true -> parse_target tid t = Returned (described tid t).
Proof.
  destruct t as [| | | | | |kv]; try discriminate. intro H.
  unfold parse_target. rewrite get_dict. cbn [bind].
  rewrite (custom_of_ok kv H). rewrite !get_dict. cbn [bind].
  unfold described. set (c := custom_of (JObj kv)).
  unfold truthy_or, present_or, or_else.
  destruct (entry "name" c) as [n|]; [destruct (truthy n)|];
    (destruct (entry "tdx-description" c) as [d1|];
     [destruct (truthy d1)|]);
    cbn [truthy bind]; rewrite ?get_dict; cbn [bind];
    unfold present_or;
    (destruct (entry "description" c) as [d2|]; [destruct (truthy d2)|]);
    (destruct (entry "length" kv) as [l|]; [destruct (truthy l)|]);
    reflexivity.
Qed.

Lemma parse_target_bad (tid : ustring) (t : value) :
  target_ok t = false -> parse_target tid t = Raised AttributeError.
Proof.
  unfold target_ok, parse_target. destruct t as [| | | | | |kv]; try reflexivity.
  unfold get at 1. cbn [bind].
  destruct (dict_get (ustr "custom") kv) as [c|]; [|discriminate].
  intro H. apply orb_false_iff in H as [H1 H2].
  apply negb_false_iff in H1. unfold or_else. rewrite H1.
  destruct c; try discriminate; reflexivity.
Qed.

Lemma parse_items_ok (kv : list (ustring * value)) :
  forall items,
    forallb (fun kt => target_ok (snd kt)) kv = true ->
    parse_items kv items
    = Returned (items ++ List.map (fun kt => described (fst kt) (snd kt)) kv).
Proof.
  induction kv as [|[tid t] kv IH]; intros items H.
  - cbn. now rewrite app_nil_r.
  - cbn [forallb snd] in H. apply andb_true_iff in H as [Ht Hkv].
    cbn [parse_items]. rewrite (parse_target_ok tid t Ht). cbn [bind].
    rewrite (IH _ Hkv), <- app_assoc. reflexivity.
Qed.

Lemma parse_items_bad (kv : list (ustring * value)) :
  forall items,
    forallb (fun kt => target_ok (snd kt)) kv = false ->
    parse_items kv items = Raised AttributeError.
Proof.
  induction kv as [|[tid t] kv IH]; intros items H; [discriminate|].
  cbn [forallb snd] in H. cbn [parse_items].
  destruct (target_ok t) eqn:Ht.
  - rewrite (parse_target_ok tid t Ht). cbn [bind]. apply IH. exact H.
  - now rewrite (parse_target_bad tid t Ht).
Qed.

(** What follows the decoding, for every decoded document. *)
Lemma parse_data_spec (data : value) :
  parse_data data
  = if payload_ok data
    then Returned (List.map (fun kt => described (fst kt) (snd kt))
                     (targets_of data))
    else Raised AttributeError.
Proof.
  unfold payload_ok, parse_data, targets_of.
  destruct data as [| | | | | |kv]; try reflexivity.
  unfold get. cbn [bind].
  destruct (dict_get (ustr "targets") kv) as [ts|]; [|reflexivity].
  destruct ts as [| | | | | |ts]; try reflexivity.
  destruct (forallb _ ts) eqn:H.
  - now rewrite (parse_items_ok ts [] H).
  - now apply parse_items_bad.
Qed.

Lemma parse_spec (limit room : nat) (raw : string) :
  parse_consent_required limit room raw
  = match loads limit room raw with
    | Returned data =>
        if payload_ok data
        then Returned (List.map (fun kt => described (fst kt) (snd kt))
                         (targets_of data))
        else Raised AttributeError
    | Raised e => Raised e
    | Exhausted => Exhausted
    end.
Proof.
  unfold parse_consent_required.
  destruct (loads limit room raw); cbn [bind]; try reflexivity.
  apply parse_data_spec.
Qed.

Lemma parse_returns_or_raises (limit room : nat) (raw : string) :
  (exists items, parse_consent_required limit room raw = Returned items)
  \/ (exists e, parse_consent_required limit room raw = Raised e).
Proof.
  rewrite parse_spec.
  pose proof (JsonFacts.loads_not_exhausted limit room raw) as N.
  destruct (loads limit room raw) as [data|e|];
    [|right; now exists e|contradiction].
  destruct (payload_ok data); [left|right]; eexists; reflexivity.
Qed.

(** Brackets nested deeper than the interpreter allows. *)
Lemma scan_too_deep (limit : nat) (rest : string) (room : nat) :
  forall fuel,
    (2 * room + 1 <= fuel)%nat ->
    scan_once limit fuel room (nested_open (S room) rest)
    = Raised RecursionError.
Proof.
  induction room as [|room IH]; intros fuel F.
  - destruct fuel as [|fuel]; [lia|]. reflexivity.
  - destruct fuel as [|[|fuel]]; try lia.
    change (nested_open (S (S room)) rest)
      with (String "["%char (nested_open (S room) rest)).
    cbn [scan_once after Ascii.eqb Bool.eqb].
    change (nested_open (S room) rest)
      with (String "["%char (nested_open room rest)).
    cbn [skip_ws is_ws after Ascii.eqb Bool.eqb].
    cbn [elements].
    change (String "["%char (nested_open room rest))
      with (nested_open (S room) rest).
    rewrite IH by lia. reflexivity.
Qed.

Lemma nested_open_length (n : nat) (rest : string) :
  (n <= String.length (nested_open n rest))%nat.
Proof. induction n as [|n IH]; cbn; lia. Qed.

Lemma loads_too_deep (limit room : nat) (rest : string) :
  loads limit room (nested_open (S room) rest) = Raised RecursionError.
Proof.
  unfold loads.
  change (skip_ws (nested_open (S room) rest))
    with (nested_open (S room) rest).
  cbv zeta. rewrite scan_too_deep; [reflexivity|].
  pose proof (nested_open_length (S room) rest). lia.
Qed.

(** C7, as the code has it.  A matched percentage of a log line that
    [int] cannot convert counts as 0 and the line still yields its progress
    event.  [parse_consent_required] has no handler: what [json.loads]
    raises leaves it -- the decoder's error for text that is not JSON,
    [RecursionError] for containers nested deeper than the interpreter
    allows -- and a decoded document of another shape than a [dict] whose
    entry [targets] is absent or a [dict] of targets, a target being a
    [dict] whose entry [custom] is absent, falsy or a [dict], raises
    [AttributeError].  For a document of that shape it returns one
    [UpdateTarget] per entry of [targets], in the order of the payload,
    with the fields of [described]: [name], [description] and [length]
    take their defaults (the shortened id, the empty text, 0) when absent
    or falsy and are stored as they are otherwise, no field being parsed
    as a number; [uri] and [version] take the empty text only when absent,
    a null staying null, and [version] is the text [str] gives.  The call
    always returns or raises. *)
Theorem malformed_data_handling :
  (forall (limit : nat) (line : string) (caps : list string),
     Text.nonempty (Text.strip line) = true ->
     LogTail.is_download_complete_line (Text.strip line) = false ->
     (Regex.search LogTail.ostree_receiving_objects_re (Text.strip line)
      = Some caps
      \/ Regex.search LogTail.ostree_receiving_objects_re (Text.strip line)
         = None
         /\ Regex.search LogTail.progress_re (Text.strip line) = Some caps) ->
     Text.int_of_digits limit (Regex.group1 caps) = None ->
     LogTail.process_line limit line = [LogTail.download_progress 0])
  /\ (forall (limit room : nat) (raw : string),
        parse_consent_required limit room raw
        = match loads limit room raw with
          | Returned data =>
              if payload_ok data
              then Returned (List.map (fun kt => described (fst kt) (snd kt))
                               (targets_of data))
              else Raised AttributeError
          | Raised e => Raised e
          | Exhausted => Exhausted
          end)
  /\ (forall (limit room : nat) (raw : string),
        loads limit room raw <> Exhausted)
  /\ (forall (limit room : nat) (rest : string),
        parse_consent_required limit room (nested_open (S room) rest)
        = Raised RecursionError)
  /\ parse_consent_required 4300 1000 null_fields_payload
     = Returned [ {| target_id := ustr "a"; name := JStr (ustr "a");
                     version := str (JStr []); description := JStr [];
                     length := JInt 0; uri := JStr []; kind := os |} ]
  /\ parse_consent_required 4300 1000 text_length_payload
     = Returned [ {| target_id := ustr "a"; name := JStr (ustr "a");
                     version := str (JStr []); description := JStr [];
                     length := JStr (ustr "abc"); uri := JStr [];
                     kind := os |} ]
  /\ parse_consent_required 4300 1000 null_custom_entries_payload
     = Returned [ {| target_id := ustr "a"; name := JStr (ustr "a");
                     version := str JNull; description := JStr [];
                     length := JInt 0; uri := JNull; kind := os |} ]
  /\ parse_consent_required 4300 1000 no_target_payload = Returned []
  /\ (forall (limit room : nat) (raw : string),
        (exists items, parse_consent_required limit room raw = Returned items)
        \/ (exists e, parse_consent_required limit room raw = Raised e)).
Proof.
  split; [exact LogFacts.process_line_malformed|].
  split; [exact parse_spec|].
  split; [exact JsonFacts.loads_not_exhausted|].
  split.
  { intros limit room rest. now rewrite parse_spec, loads_too_deep. }
  split; [vm_compute; reflexivity|].
  split; [vm_compute; reflexivity|].
  split; [vm_compute; reflexivity|].
  split; [vm_compute; reflexivity|].
  exact parse_returns_or_raises.
Qed.

Lemma malformed_data_handling_witness :
  LogTail.process_line 4300 long_percent_line
  = [LogTail.download_progress 0]
  /\ parse_consent_required 4300 1000 one_app_payload
     = Returned [one_app_target]
  /\ parse_consent_required 4300 1000 text_custom_payload
     = Raised AttributeError
  /\ parse_consent_required 4300 1000 "not json" = Raised JSONDecodeError
  /\ parse_consent_required 4300 2 "[[[1]]]" = Raised RecursionError.
Proof.
  destruct malformed_data_handling as (Hlog & Hspec & _ & Hdeep & _).
  split.
  { apply (Hlog 4300%nat long_percent_line
             [string_of_list_ascii (repeat "9"%char 4301)]).
    - vm_compute. reflexivity.
    - vm_compute. reflexivity.
    - left. vm_compute. reflexivity.
    - vm_compute. reflexivity. }
  split; [rewrite Hspec; vm_compute; reflexivity|].
  split; [rewrite Hspec; vm_compute; reflexivity|].
  split; [rewrite Hspec; vm_compute; reflexivity|].
  exact (Hdeep 4300%nat 2%nat "1]]]"%string).
Defined.

(** C7, as the claim words it, fails: [parse_consent_required] raises on
    payload strings that are not JSON, on JSON of another shape and on
    JSON nested deeper than the interpreter allows. *)
Lemma parse_consent_required_raises :
  parse_consent_required 4300 1000 "" = Raised JSONDecodeError
  /\ parse_consent_required 4300 1000 "not json" = Raised JSONDecodeError
  /\ parse_consent_required 4300 1000 "[]" = Raised AttributeError
  /\ parse_consent_required 4300 1000 null_targets_payload
     = Raised AttributeError
  /\ parse_consent_required 4300 1000 text_custom_payload
     = Raised AttributeError
  /\ parse_consent_required 4300 2 "[[[1]]]" = Raised RecursionError.
Proof.
  repeat split; vm_compute; reflexivity.
Qed.

End PayloadFacts.

(* ================================================================== *)
(** * Properties of the reboot request *)
(* ================================================================== *)

Module RebootFacts.

Import Text Reboot RebootShape.
Local Open Scope string_scope.

Lemma drop_prefix_app (p s : string) : drop_prefix p (p ++ s) = Some s.
Proof.
  induction p as [|c p IH]; [now destruct s|].
  cbn. now rewrite Ascii.eqb_refl.
Qed.

Lemma drop_prefix_more (p t post : string) (r : string) :
  drop_prefix p t = Some r -> drop_prefix p (t ++ post) = Some (r ++ post).
Proof.
  revert t. induction p as [|c p IH]; intros t H.
  - destruct t; cbn in *; now injection H as <-.
  - destruct t as [|d t]; [discriminate|]. cbn in *.
    destruct (Ascii.eqb c d); [now apply IH|discriminate].
Qed.

Lemma contains_app_l (p t post : string) :
  contains p t = true -> contains p (t ++ post) = true.
Proof.
  induction t as [|d t IH]; intro H.
  - cbn in H. destruct (drop_prefix p EmptyString) eqn:E; [|discriminate].
    destruct p; [|discriminate].
    destruct post; reflexivity.
  - cbn [contains] in H. cbn [append contains].
    destruct (drop_prefix p (String d t)) eqn:E.
    + change (String d (t ++ post)) with (String d t ++ post).
      now rewrite (drop_prefix_more _ _ post _ E).
    + change (String d (t ++ post)) with (String d t ++ post).
      destruct (drop_prefix p (String d t ++ post)); [reflexivity|].
      now apply IH.
Qed.

Lemma contains_app_r (p pre t : string) :
  contains p t = true -> contains p (pre ++ t) = true.
Proof.
  intro H. induction pre as [|d pre IH]; [exact H|].
  cbn [append contains].
  destruct (drop_prefix p (String d (pre ++ t))); [reflexivity|exact IH].
Qed.

Lemma contains_refl (p : string) : contains p p = true.
Proof.
  destruct p as [|c p]; [reflexivity|].
  cbn [contains].
  pose proof (drop_prefix_app (String c p) EmptyString) as H.
  assert (E : String c p ++ EmptyString = String c p).
  { clear H. induction (String c p) as [|a q IH]; [reflexivity|].
    cbn. now rewrite IH. }
  rewrite E in H. now rewrite H.
Qed.

Lemma contains_empty (t : string) : contains EmptyString t = true.
Proof. now destruct t. Qed.

Section Worker.

Variable DBUS_SEND_ABS : string.
Variable decode_ignore : list Byte.byte -> string.

Lemma format_contains (cmd : list string) (rc : Z)
    (out err : option (list Byte.byte)) :
  let msg := _format_proc_failure decode_ignore cmd rc out err in
  contains (String.concat " " cmd) msg = true
  /\ contains (str_of_int rc) msg = true
  /\ contains (strip (decode_ignore (or_empty out))) msg = true
  /\ contains (strip (decode_ignore (or_empty err))) msg = true.
Proof.
  cbv zeta. unfold _format_proc_failure.
  set (out_s := strip (decode_ignore (or_empty out))).
  set (err_s := strip (decode_ignore (or_empty err))).
  set (cmd_s := String.concat " " cmd).
  set (msg0 := "D-Bus reboot failed (rc=" ++ str_of_int rc ++ "): " ++ cmd_s).
  assert (C0 : contains cmd_s msg0 = true).
  { subst msg0. do 3 apply contains_app_r. apply contains_refl. }
  assert (R0 : contains (str_of_int rc) msg0 = true).
  { subst msg0. apply contains_app_r, contains_app_l, contains_refl. }
  set (msg1 := if nonempty out_s then _ else msg0).
  assert (C1 : contains cmd_s msg1 = true
               /\ contains (str_of_int rc) msg1 = true
               /\ contains out_s msg1 = true).
  { subst msg1. destruct out_s as [|c o] eqn:E; cbn [nonempty].
    - repeat split; try assumption; apply contains_empty.
    - repeat split; try (now apply contains_app_l).
      do 5 apply contains_app_r. apply contains_refl. }
  destruct C1 as (C1 & R1 & O1).
  destruct err_s as [|c e] eqn:E; cbn [nonempty].
  - repeat split; try assumption; apply contains_empty.
  - repeat split; try (now apply contains_app_l).
    do 5 apply contains_app_r. apply contains_refl.
Qed.

(** C8.  [_reboot_via_dbus] looks for the helper binary first.  When it is
    absent, exactly one [reboot_failed] is emitted, with the remediation
    hint, whatever the helper process would do: it is not started.  When
    the helper runs and exits with a code other than 0, exactly one
    [reboot_failed] is emitted, whose message holds the command line, the
    exit code and the captured stdout and stderr (decoded and stripped).
    When it exits with 0 nothing is emitted. *)
Theorem reboot_failure_reporting :
  (forall helper : process,
     _reboot_via_dbus DBUS_SEND_ABS decode_ignore false helper
     = [ reboot_failed
           ("Missing " ++ DBUS_SEND_ABS
            ++ ". Install dbus-send in the container (package: dbus).") ])
  /\ (forall (rc : Z) (out err : option (list Byte.byte)),
        rc <> 0%Z ->
        exists msg,
          _reboot_via_dbus DBUS_SEND_ABS decode_ignore true
            (Exited rc out err) = [reboot_failed msg]
          /\ msg = _format_proc_failure decode_ignore (cmd DBUS_SEND_ABS)
                     rc out err
          /\ contains (String.concat " " (cmd DBUS_SEND_ABS)) msg = true
          /\ contains (str_of_int rc) msg = true
          /\ contains (strip (decode_ignore (or_empty out))) msg = true
          /\ contains (strip (decode_ignore (or_empty err))) msg = true)
  /\ (forall out err : option (list Byte.byte),
        _reboot_via_dbus DBUS_SEND_ABS decode_ignore true
          (Exited 0 out err) = []).
Proof.
  split; [reflexivity|]. split; [|reflexivity].
  intros rc out err Hrc. eexists. split.
  - unfold _reboot_via_dbus. cbn [negb].
    destruct (Z.eqb_spec rc 0); [contradiction|]. reflexivity.
  - split; [reflexivity|]. apply format_contains.
Qed.

Lemma started_first (l : list signal) :
  started_before_failed (reboot_started :: l).
Proof.
  intros pre post msg H. destruct pre as [|x pre]; [discriminate|].
  injection H as <- _. now left.
Qed.

(** C10.  [reboot_now] emits [reboot_started] first, whatever the state of
    the helper and of the worker's loop; hence every [reboot_failed] it
    leads to comes after a [reboot_started] -- also when the helper binary
    is missing and no process is started: the signals are then
    [reboot_started] and [reboot_failed] with the hint. *)
Theorem reboot_started_precedes_failure :
  (forall (helper_exists : bool) (helper : process) (loop_running : bool),
     exists rest,
       reboot_now DBUS_SEND_ABS decode_ignore helper_exists helper
         loop_running = reboot_started :: rest)
  /\ (forall (helper_exists : bool) (helper : process) (loop_running : bool),
        started_before_failed
          (reboot_now DBUS_SEND_ABS decode_ignore helper_exists helper
             loop_running))
  /\ (forall helper : process,
        reboot_now DBUS_SEND_ABS decode_ignore false helper true
        = [ reboot_started;
            reboot_failed
              ("Missing " ++ DBUS_SEND_ABS
               ++ ". Install dbus-send in the container (package: dbus).") ]).
Proof.
  split.
  { intros. eexists. reflexivity. }
  split.
  { intros. apply started_first. }
  reflexivity.
Qed.

End Worker.

Lemma reboot_failure_reporting_witness :
  exists msg,
    _reboot_via_dbus "/usr/bin/dbus-send" ascii_decode true
      (Exited 1 None (Some (list_byte_of_string "Access denied")))
    = [reboot_failed msg]
    /\ contains "rc=1" msg = true
    /\ contains "/usr/bin/dbus-send --system --print-reply" msg = true
    /\ contains "Access denied" msg = true.
Proof.
  assert (H1 : 1%Z <> 0%Z) by discriminate.
  destruct (reboot_failure_reporting "/usr/bin/dbus-send" ascii_decode)
    as (_ & H & _).
  destruct (H 1%Z None (Some (list_byte_of_string "Access denied")) H1)
    as (msg & E & F & _).
  exists msg. split; [exact E|]. rewrite F.
  repeat split; vm_compute; reflexivity.
Defined.

End RebootFacts.

(* ================================================================== *)
(** * Invariants of the windows reached from the start *)
(* ================================================================== *)

Import WindowShape.

(** ** Fields the helpers leave alone *)

Create Rewrite HintDb frame.

Lemma keep_phase_floor (v : Z) (s : window) :
  phase (_set_progress_floor v s) = phase s.
Proof. unfold _set_progress_floor; now destruct (above _ _). Qed.

Lemma keep_starting_pct_floor (v : Z) (s : window) :
  starting_pct (_set_progress_floor v s) = starting_pct s.
Proof. unfold _set_progress_floor; now destruct (above _ _). Qed.

Lemma keep_last_raw_pct_floor (v : Z) (s : window) :
  last_raw_pct (_set_progress_floor v s) = last_raw_pct s.
Proof. unfold _set_progress_floor; now destruct (above _ _). Qed.

Lemma keep_reboot_prompt_shown_floor (v : Z) (s : window) :
  reboot_prompt_shown (_set_progress_floor v s) = reboot_prompt_shown s.
Proof. unfold _set_progress_floor; now destruct (above _ _). Qed.

Lemma keep_manual_check_active_floor (v : Z) (s : window) :
  manual_check_active (_set_progress_floor v s) = manual_check_active s.
Proof. unfold _set_progress_floor; now destruct (above _ _). Qed.

Lemma keep_phase_timer_active_floor (v : Z) (s : window) :
  phase_timer_active (_set_progress_floor v s) = phase_timer_active s.
Proof. unfold _set_progress_floor; now destruct (above _ _). Qed.

Lemma keep_check_timeout_active_floor (v : Z) (s : window) :
  check_timeout_active (_set_progress_floor v s) = check_timeout_active s.
Proof. unfold _set_progress_floor; now destruct (above _ _). Qed.

Lemma keep_progress_bar_visible_floor (v : Z) (s : window) :
  progress_bar_visible (_set_progress_floor v s) = progress_bar_visible s.
Proof. unfold _set_progress_floor; now destruct (above _ _). Qed.

Lemma keep_net_label_visible_floor (v : Z) (s : window) :
  net_label_visible (_set_progress_floor v s) = net_label_visible s.
Proof. unfold _set_progress_floor; now destruct (above _ _). Qed.

Lemma keep_controls_enabled_floor (v : Z) (s : window) :
  controls_enabled (_set_progress_floor v s) = controls_enabled s.
Proof. unfold _set_progress_floor; now destruct (above _ _). Qed.

Lemma keep_switch_checked_floor (v : Z) (s : window) :
  switch_checked (_set_progress_floor v s) = switch_checked s.
Proof. unfold _set_progress_floor; now destruct (above _ _). Qed.

Lemma keep_commands_floor (v : Z) (s : window) :
  commands (_set_progress_floor v s) = commands s.
Proof. unfold _set_progress_floor; now destruct (above _ _). Qed.

Lemma keep_dialogs_floor (v : Z) (s : window) :
  dialogs (_set_progress_floor v s) = dialogs s.
Proof. unfold _set_progress_floor; now destruct (above _ _). Qed.

Lemma keep_phase_advance (t : Z) (d : Q) (s : window) :
  phase (_advance_to_target t d s) = phase s.
Proof. unfold _advance_to_target; now destruct (above _ _). Qed.

Lemma keep_starting_pct_advance (t : Z) (d : Q) (s : window) :
  starting_pct (_advance_to_target t d s) = starting_pct s.
Proof. unfold _advance_to_target; now destruct (above _ _). Qed.

Lemma keep_last_raw_pct_advance (t : Z) (d : Q) (s : window) :
  last_raw_pct (_advance_to_target t d s) = last_raw_pct s.
Proof. unfold _advance_to_target; now destruct (above _ _). Qed.

Lemma keep_reboot_prompt_shown_advance (t : Z) (d : Q) (s : window) :
  reboot_prompt_shown (_advance_to_target t d s) = reboot_prompt_shown s.
Proof. unfold _advance_to_target; now destruct (above _ _). Qed.

Lemma keep_manual_check_active_advance (t : Z) (d : Q) (s : window) :
  manual_check_active (_advance_to_target t d s) = manual_check_active s.
Proof. unfold _advance_to_target; now destruct (above _ _). Qed.

Lemma keep_phase_timer_active_advance (t : Z) (d : Q) (s : window) :
  phase_timer_active (_advance_to_target t d s) = phase_timer_active s.
Proof. unfold _advance_to_target; now destruct (above _ _). Qed.

Lemma keep_check_timeout_active_advance (t : Z) (d : Q) (s : window) :
  check_timeout_active (_advance_to_target t d s) = check_timeout_active s.
Proof. unfold _advance_to_target; now destruct (above _ _). Qed.

Lemma keep_progress_bar_visible_advance (t : Z) (d : Q) (s : window) :
  progress_bar_visible (_advance_to_target t d s) = progress_bar_visible s.
Proof. unfold _advance_to_target; now destruct (above _ _). Qed.

Lemma keep_net_label_visible_advance (t : Z) (d : Q) (s : window) :
  net_label_visible (_advance_to_target t d s) = net_label_visible s.
Proof. unfold _advance_to_target; now destruct (above _ _). Qed.

Lemma keep_controls_enabled_advance (t : Z) (d : Q) (s : window) :
  controls_enabled (_advance_to_target t d s) = controls_enabled s.
Proof. unfold _advance_to_target; now destruct (above _ _). Qed.

Lemma keep_switch_checked_advance (t : Z) (d : Q) (s : window) :
  switch_checked (_advance_to_target t d s) = switch_checked s.
Proof. unfold _advance_to_target; now destruct (above _ _). Qed.

Lemma keep_commands_advance (t : Z) (d : Q) (s : window) :
  commands (_advance_to_target t d s) = commands s.
Proof. unfold _advance_to_target; now destruct (above _ _). Qed.

Lemma keep_dialogs_advance (t : Z) (d : Q) (s : window) :
  dialogs (_advance_to_target t d s) = dialogs s.
Proof. unfold _advance_to_target; now destruct (above _ _). Qed.

Lemma keep_starting_pct_installing  (s : window) :
  starting_pct (switch_to_installing s) = starting_pct s.
Proof. unfold switch_to_installing, _set_progress_floor; destruct (phase s); try reflexivity; fields; now destruct (above _ _). Qed.

Lemma keep_last_raw_pct_installing  (s : window) :
  last_raw_pct (switch_to_installing s) = last_raw_pct s.
Proof. unfold switch_to_installing, _set_progress_floor; destruct (phase s); try reflexivity; fields; now destruct (above _ _). Qed.

Lemma keep_reboot_prompt_shown_installing  (s : window) :
  reboot_prompt_shown (switch_to_installing s) = reboot_prompt_shown s.
Proof. unfold switch_to_installing, _set_progress_floor; destruct (phase s); try reflexivity; fields; now destruct (above _ _). Qed.

Lemma keep_manual_check_active_installing  (s : window) :
  manual_check_active (switch_to_installing s) = manual_check_active s.
Proof. unfold switch_to_installing, _set_progress_floor; destruct (phase s); try reflexivity; fields; now destruct (above _ _). Qed.

Lemma keep_check_timeout_active_installing  (s : window) :
  check_timeout_active (switch_to_installing s) = check_timeout_active s.
Proof. unfold switch_to_installing, _set_progress_floor; destruct (phase s); try reflexivity; fields; now destruct (above _ _). Qed.

Lemma keep_progress_bar_visible_installing  (s : window) :
  progress_bar_visible (switch_to_installing s) = progress_bar_visible s.
Proof. unfold switch_to_installing, _set_progress_floor; destruct (phase s); try reflexivity; fields; now destruct (above _ _). Qed.

Lemma keep_net_label_visible_installing  (s : window) :
  net_label_visible (switch_to_installing s) = net_label_visible s.
Proof. unfold switch_to_installing, _set_progress_floor; destruct (phase s); try reflexivity; fields; now destruct (above _ _). Qed.

Lemma keep_controls_enabled_installing  (s : window) :
  controls_enabled (switch_to_installing s) = controls_enabled s.
Proof. unfold switch_to_installing, _set_progress_floor; destruct (phase s); try reflexivity; fields; now destruct (above _ _). Qed.

Lemma keep_switch_checked_installing  (s : window) :
  switch_checked (switch_to_installing s) = switch_checked s.
Proof. unfold switch_to_installing, _set_progress_floor; destruct (phase s); try reflexivity; fields; now destruct (above _ _). Qed.

Lemma keep_commands_installing  (s : window) :
  commands (switch_to_installing s) = commands s.
Proof. unfold switch_to_installing, _set_progress_floor; destruct (phase s); try reflexivity; fields; now destruct (above _ _). Qed.

Lemma keep_dialogs_installing  (s : window) :
  dialogs (switch_to_installing s) = dialogs s.
Proof. unfold switch_to_installing, _set_progress_floor; destruct (phase s); try reflexivity; fields; now destruct (above _ _). Qed.

Lemma keep_phase_progress_downloading  (s : window) :
  phase_progress (switch_to_downloading s) = phase_progress s.
Proof. unfold switch_to_downloading; now destruct (phase s). Qed.

Lemma keep_starting_pct_downloading  (s : window) :
  starting_pct (switch_to_downloading s) = starting_pct s.
Proof. unfold switch_to_downloading; now destruct (phase s). Qed.

Lemma keep_last_raw_pct_downloading  (s : window) :
  last_raw_pct (switch_to_downloading s) = last_raw_pct s.
Proof. unfold switch_to_downloading; now destruct (phase s). Qed.

Lemma keep_reboot_prompt_shown_downloading  (s : window) :
  reboot_prompt_shown (switch_to_downloading s) = reboot_prompt_shown s.
Proof. unfold switch_to_downloading; now destruct (phase s). Qed.

Lemma keep_manual_check_active_downloading  (s : window) :
  manual_check_active (switch_to_downloading s) = manual_check_active s.
Proof. unfold switch_to_downloading; now destruct (phase s). Qed.

Lemma keep_check_timeout_active_downloading  (s : window) :
  check_timeout_active (switch_to_downloading s) = check_timeout_active s.
Proof. unfold switch_to_downloading; now destruct (phase s). Qed.

Lemma keep_progress_bar_downloading  (s : window) :
  progress_bar (switch_to_downloading s) = progress_bar s.
Proof. unfold switch_to_downloading; now destruct (phase s). Qed.

Lemma keep_progress_bar_visible_downloading  (s : window) :
  progress_bar_visible (switch_to_downloading s) = progress_bar_visible s.
Proof. unfold switch_to_downloading; now destruct (phase s). Qed.

Lemma keep_net_label_visible_downloading  (s : window) :
  net_label_visible (switch_to_downloading s) = net_label_visible s.
Proof. unfold switch_to_downloading; now destruct (phase s). Qed.

Lemma keep_controls_enabled_downloading  (s : window) :
  controls_enabled (switch_to_downloading s) = controls_enabled s.
Proof. unfold switch_to_downloading; now destruct (phase s). Qed.

Lemma keep_switch_checked_downloading  (s : window) :
  switch_checked (switch_to_downloading s) = switch_checked s.
Proof. unfold switch_to_downloading; now destruct (phase s). Qed.

Lemma keep_commands_downloading  (s : window) :
  commands (switch_to_downloading s) = commands s.
Proof. unfold switch_to_downloading; now destruct (phase s). Qed.

Lemma keep_dialogs_downloading  (s : window) :
  dialogs (switch_to_downloading s) = dialogs s.
Proof. unfold switch_to_downloading; now destruct (phase s). Qed.

Lemma keep_phase_prompt (yes : bool) (raises : option string) (s : window) :
  phase (_show_reboot_prompt yes raises s) = phase s.
Proof. unfold _show_reboot_prompt; now destruct (reboot_prompt_shown s), yes, raises. Qed.

Lemma keep_phase_progress_prompt (yes : bool) (raises : option string) (s : window) :
  phase_progress (_show_reboot_prompt yes raises s) = phase_progress s.
Proof. unfold _show_reboot_prompt; now destruct (reboot_prompt_shown s), yes, raises. Qed.

Lemma keep_starting_pct_prompt (yes : bool) (raises : option string) (s : window) :
  starting_pct (_show_reboot_prompt yes raises s) = starting_pct s.
Proof. unfold _show_reboot_prompt; now destruct (reboot_prompt_shown s), yes, raises. Qed.

Lemma keep_last_raw_pct_prompt (yes : bool) (raises : option string) (s : window) :
  last_raw_pct (_show_reboot_prompt yes raises s) = last_raw_pct s.
Proof. unfold _show_reboot_prompt; now destruct (reboot_prompt_shown s), yes, raises. Qed.

Lemma keep_manual_check_active_prompt (yes : bool) (raises : option string) (s : window) :
  manual_check_active (_show_reboot_prompt yes raises s) = manual_check_active s.
Proof. unfold _show_reboot_prompt; now destruct (reboot_prompt_shown s), yes, raises. Qed.

Lemma keep_phase_timer_active_prompt (yes : bool) (raises : option string) (s : window) :
  phase_timer_active (_show_reboot_prompt yes raises s) = phase_timer_active s.
Proof. unfold _show_reboot_prompt; now destruct (reboot_prompt_shown s), yes, raises. Qed.

Lemma keep_check_timeout_active_prompt (yes : bool) (raises : option string) (s : window) :
  check_timeout_active (_show_reboot_prompt yes raises s) = check_timeout_active s.
Proof. unfold _show_reboot_prompt; now destruct (reboot_prompt_shown s), yes, raises. Qed.

Lemma keep_progress_bar_prompt (yes : bool) (raises : option string) (s : window) :
  progress_bar (_show_reboot_prompt yes raises s) = progress_bar s.
Proof. unfold _show_reboot_prompt; now destruct (reboot_prompt_shown s), yes, raises. Qed.

Lemma keep_progress_bar_visible_prompt (yes : bool) (raises : option string) (s : window) :
  progress_bar_visible (_show_reboot_prompt yes raises s) = progress_bar_visible s.
Proof. unfold _show_reboot_prompt; now destruct (reboot_prompt_shown s), yes, raises. Qed.

Lemma keep_net_label_visible_prompt (yes : bool) (raises : option string) (s : window) :
  net_label_visible (_show_reboot_prompt yes raises s) = net_label_visible s.
Proof. unfold _show_reboot_prompt; now destruct (reboot_prompt_shown s), yes, raises. Qed.

Lemma keep_controls_enabled_prompt (yes : bool) (raises : option string) (s : window) :
  controls_enabled (_show_reboot_prompt yes raises s) = controls_enabled s.
Proof. unfold _show_reboot_prompt; now destruct (reboot_prompt_shown s), yes, raises. Qed.

Lemma keep_switch_checked_prompt (yes : bool) (raises : option string) (s : window) :
  switch_checked (_show_reboot_prompt yes raises s) = switch_checked s.
Proof. unfold _show_reboot_prompt; now destruct (reboot_prompt_shown s), yes, raises. Qed.

Lemma installing_phase (s : window) : phase (switch_to_installing s) = installing.
Proof.
  unfold switch_to_installing. destruct (phase s) eqn:E; try assumption;
    fields; now rewrite floor_phase.
Qed.

Lemma installing_timer (s : window) :
  phase_timer_active (switch_to_installing s)
  = match phase s with installing => phase_timer_active s | _ => false end.
Proof.
  unfold switch_to_installing. destruct (phase s); try reflexivity;
    fields; now rewrite keep_phase_timer_active_floor.
Qed.

Lemma downloading_phase (s : window) : phase (switch_to_downloading s) = downloading.
Proof. unfold switch_to_downloading. now destruct (phase s) eqn:E. Qed.

Lemma downloading_timer (s : window) :
  phase_timer_active (switch_to_downloading s)
  = match phase s with downloading => phase_timer_active s | _ => false end.
Proof. unfold switch_to_downloading. now destruct (phase s). Qed.

Lemma prompt_shown (yes : bool) (raises : option string) (s : window) :
  reboot_prompt_shown (_show_reboot_prompt yes raises s) = true.
Proof.
  unfold _show_reboot_prompt.
  now destruct (reboot_prompt_shown s) eqn:E, yes, raises.
Qed.

#[export] Hint Rewrite keep_phase_floor keep_starting_pct_floor
  keep_last_raw_pct_floor keep_reboot_prompt_shown_floor
  keep_manual_check_active_floor keep_phase_timer_active_floor
  keep_check_timeout_active_floor keep_progress_bar_visible_floor
  keep_net_label_visible_floor keep_controls_enabled_floor
  keep_switch_checked_floor keep_commands_floor keep_dialogs_floor
  keep_phase_advance keep_starting_pct_advance keep_last_raw_pct_advance
  keep_reboot_prompt_shown_advance keep_manual_check_active_advance
  keep_phase_timer_active_advance keep_check_timeout_active_advance
  keep_progress_bar_visible_advance keep_net_label_visible_advance
  keep_controls_enabled_advance keep_switch_checked_advance
  keep_commands_advance keep_dialogs_advance keep_starting_pct_installing
  keep_last_raw_pct_installing keep_reboot_prompt_shown_installing
  keep_manual_check_active_installing keep_check_timeout_active_installing
  keep_progress_bar_visible_installing keep_net_label_visible_installing
  keep_controls_enabled_installing keep_switch_checked_installing
  keep_commands_installing keep_dialogs_installing
  keep_phase_progress_downloading keep_starting_pct_downloading
  keep_last_raw_pct_downloading keep_reboot_prompt_shown_downloading
  keep_manual_check_active_downloading keep_check_timeout_active_downloading
  keep_progress_bar_downloading keep_progress_bar_visible_downloading
  keep_net_label_visible_downloading keep_controls_enabled_downloading
  keep_switch_checked_downloading keep_commands_downloading
  keep_dialogs_downloading keep_phase_prompt keep_phase_progress_prompt
  keep_starting_pct_prompt keep_last_raw_pct_prompt
  keep_manual_check_active_prompt keep_phase_timer_active_prompt
  keep_check_timeout_active_prompt keep_progress_bar_prompt
  keep_progress_bar_visible_prompt keep_net_label_visible_prompt
  keep_controls_enabled_prompt keep_switch_checked_prompt installing_phase
  installing_timer downloading_phase downloading_timer prompt_shown : frame.


(** Projections of field updates, with the calls of the helpers kept as they
    are. *)
Ltac hide_calls :=
  repeat match goal with
    | |- context [_set_progress_floor ?v ?x] =>
        let h := fresh "call" in remember (_set_progress_floor v x) as h
    | |- context [_advance_to_target ?t ?d ?x] =>
        let h := fresh "call" in remember (_advance_to_target t d x) as h
    | |- context [switch_to_installing ?x] =>
        let h := fresh "call" in remember (switch_to_installing x) as h
    | |- context [switch_to_downloading ?x] =>
        let h := fresh "call" in remember (switch_to_downloading x) as h
    | |- context [_show_reboot_prompt ?y ?r ?x] =>
        let h := fresh "call" in remember (_show_reboot_prompt y r x) as h
    | |- context [on_phase_event ?m ?y ?r ?x] =>
        let h := fresh "call" in remember (on_phase_event m y r x) as h
    end.

Ltac show_calls :=
  repeat match goal with
    | H : ?h = _set_progress_floor _ _ |- _ => subst h
    | H : ?h = _advance_to_target _ _ _ |- _ => subst h
    | H : ?h = switch_to_installing _ |- _ => subst h
    | H : ?h = switch_to_downloading _ |- _ => subst h
    | H : ?h = _show_reboot_prompt _ _ _ |- _ => subst h
    | H : ?h = on_phase_event _ _ _ _ |- _ => subst h
    end.

Ltac project :=
  hide_calls;
  cbn [phase phase_progress starting_pct last_raw_pct reboot_prompt_shown
       manual_check_active phase_timer_active check_timeout_active info footer
       net_label net_label_visible progress_bar progress_bar_visible
       controls_enabled switch_checked commands dialogs
       set_phase set_phase_progress set_starting_pct set_last_raw_pct
       set_reboot_prompt_shown set_manual_check_active set_phase_timer_active
       set_check_timeout_active set_info set_footer set_net_label
       set_progress_bar set_progress_bar_visible set_controls_enabled
       set_switch_checked call exec _lock_ui _reset_progress_math
       fst snd negb andb orb];
  show_calls.

Ltac rewrite_calls :=
  lazymatch goal with
  | |- context [_set_progress_floor _ _] => autorewrite with frame
  | |- context [_advance_to_target _ _ _] => autorewrite with frame
  | |- context [switch_to_installing _] => autorewrite with frame
  | |- context [switch_to_downloading _] => autorewrite with frame
  | |- context [_show_reboot_prompt _ _ _] => autorewrite with frame
  | |- context [on_phase_event _ _ _ _] => autorewrite with frame
  | _ => idtac
  end.

Ltac frame := repeat (progress (project; rewrite_calls)).

(** ** The fields after [on_phase_event] *)

Lemma event_phase (m : LogTail.marker) (yes : bool) (raises : option string)
    (s : window) :
  phase (on_phase_event m yes raises s)
  = match m with
    | LogTail.download_complete => downloaded
    | LogTail.rebooting => phase s
    | _ => match phase s with idle => idle | _ => installing end
    end.
Proof.
  destruct m; unfold on_phase_event, is_idle.
  - project. now rewrite keep_phase_floor.
  - destruct (phase s) eqn:E; [exact E|..]; apply installing_phase.
  - destruct (phase s) eqn:E; [exact E|..]; rewrite keep_phase_prompt;
      project; apply installing_phase.
  - destruct (phase s) eqn:E; [exact E|..]; apply installing_phase.
  - destruct (phase s) eqn:E; project; exact E.
Qed.

Lemma event_timer (m : LogTail.marker) (yes : bool) (raises : option string)
    (s : window) :
  phase_timer_active (on_phase_event m yes raises s)
  = match m with
    | LogTail.download_complete => false
    | LogTail.rebooting => phase_timer_active s
    | LogTail.need_reboot =>
        match phase s with idle => phase_timer_active s | _ => false end
    | _ => match phase s with
           | idle | installing => phase_timer_active s
           | _ => false
           end
    end.
Proof.
  destruct m; unfold on_phase_event, is_idle.
  - project. now rewrite keep_phase_timer_active_floor.
  - destruct (phase s) eqn:E; try reflexivity;
      rewrite installing_timer, E; reflexivity.
  - destruct (phase s) eqn:E; try reflexivity;
      rewrite keep_phase_timer_active_prompt; project;
      rewrite installing_timer; reflexivity.
  - destruct (phase s) eqn:E; try reflexivity;
      rewrite installing_timer, E; reflexivity.
  - destruct (phase s); reflexivity.
Qed.

Lemma event_controls (m : LogTail.marker) (yes : bool) (raises : option string)
    (s : window) :
  controls_enabled (on_phase_event m yes raises s)
  = match m with
    | LogTail.need_reboot =>
        match phase s with idle => controls_enabled s | _ => true end
    | _ => controls_enabled s
    end.
Proof.
  destruct m; unfold on_phase_event, is_idle.
  - project. now rewrite keep_controls_enabled_floor.
  - destruct (phase s); try reflexivity; apply keep_controls_enabled_installing.
  - destruct (phase s); try reflexivity;
      rewrite keep_controls_enabled_prompt; reflexivity.
  - destruct (phase s); try reflexivity; apply keep_controls_enabled_installing.
  - destruct (phase s); reflexivity.
Qed.

Lemma event_shown (m : LogTail.marker) (yes : bool) (raises : option string)
    (s : window) :
  reboot_prompt_shown (on_phase_event m yes raises s)
  = match m with
    | LogTail.need_reboot =>
        match phase s with idle => reboot_prompt_shown s | _ => true end
    | _ => reboot_prompt_shown s
    end.
Proof.
  destruct m; unfold on_phase_event, is_idle.
  - project. now rewrite keep_reboot_prompt_shown_floor.
  - destruct (phase s); try reflexivity;
      apply keep_reboot_prompt_shown_installing.
  - destruct (phase s); try reflexivity; apply prompt_shown.
  - destruct (phase s); try reflexivity;
      apply keep_reboot_prompt_shown_installing.
  - destruct (phase s); reflexivity.
Qed.

Ltac event_keeps kf ki kp :=
  match goal with
  | |- ?f (on_phase_event ?m ?yes ?raises ?s) = _ =>
      destruct m; unfold on_phase_event, is_idle;
      try (destruct (phase s); [reflexivity|..]);
      rewrite ?kp;
      project; rewrite ?ki, ?kf; reflexivity
  end.

Lemma keep_starting_pct_event m yes raises (s : window) :
  starting_pct (on_phase_event m yes raises s) = starting_pct s.
Proof.
  event_keeps keep_starting_pct_floor keep_starting_pct_installing
    keep_starting_pct_prompt.
Qed.

Lemma keep_last_raw_pct_event m yes raises (s : window) :
  last_raw_pct (on_phase_event m yes raises s) = last_raw_pct s.
Proof.
  event_keeps keep_last_raw_pct_floor keep_last_raw_pct_installing
    keep_last_raw_pct_prompt.
Qed.

Lemma keep_manual_check_active_event m yes raises (s : window) :
  manual_check_active (on_phase_event m yes raises s) = manual_check_active s.
Proof.
  event_keeps keep_manual_check_active_floor keep_manual_check_active_installing
    keep_manual_check_active_prompt.
Qed.

Lemma keep_check_timeout_active_event m yes raises (s : window) :
  check_timeout_active (on_phase_event m yes raises s) = check_timeout_active s.
Proof.
  event_keeps keep_check_timeout_active_floor keep_check_timeout_active_installing
    keep_check_timeout_active_prompt.
Qed.

Lemma keep_progress_bar_visible_event m yes raises (s : window) :
  progress_bar_visible (on_phase_event m yes raises s) = progress_bar_visible s.
Proof.
  event_keeps keep_progress_bar_visible_floor keep_progress_bar_visible_installing
    keep_progress_bar_visible_prompt.
Qed.

Lemma keep_net_label_visible_event m yes raises (s : window) :
  net_label_visible (on_phase_event m yes raises s) = net_label_visible s.
Proof.
  event_keeps keep_net_label_visible_floor keep_net_label_visible_installing
    keep_net_label_visible_prompt.
Qed.

Lemma keep_switch_checked_event m yes raises (s : window) :
  switch_checked (on_phase_event m yes raises s) = switch_checked s.
Proof.
  event_keeps keep_switch_checked_floor keep_switch_checked_installing
    keep_switch_checked_prompt.
Qed.

#[export] Hint Rewrite event_phase event_timer event_controls event_shown
  keep_starting_pct_event keep_last_raw_pct_event
  keep_manual_check_active_event keep_check_timeout_active_event
  keep_progress_bar_visible_event keep_net_label_visible_event
  keep_switch_checked_event : frame.

(** ** The bar and the progress *)

Lemma floor_bar (v : Z) (s : window) :
  progress_bar (_set_progress_floor v s)
  = if above (Z.max 0 (Z.min 100 v)) (phase_progress s)
    then Z.max 0 (Z.min 100 v) else progress_bar s.
Proof.
  unfold _set_progress_floor. destruct (above _ _); [|reflexivity].
  fields. rewrite int_of_float_inject.
  destruct ((0 <=? _) && (_ <=? 100)) eqn:F; [reflexivity|].
  apply andb_false_iff in F as [F|F]; lia.
Qed.

Lemma int_of_float_bounds (x : Q) (n : Z) :
  (0 <= x)%Q -> (x <= inject_Z n)%Q -> 0 <= int_of_float x <= n.
Proof.
  intros H0 Hn. unfold int_of_float.
  apply Qle_bool_iff in H0 as B. rewrite B.
  split.
  - change 0 with (Qfloor 0). now apply Qfloor_resp_le.
  - rewrite <- (Qfloor_Z n). now apply Qfloor_resp_le.
Qed.

Lemma set_bar_ok (v : Z) (s : window) :
  0 <= v <= 100 -> progress_bar (set_progress_bar v s) = v.
Proof.
  intro H. fields.
  destruct ((0 <=? v) && (v <=? 100)) eqn:F; [reflexivity|].
  apply andb_false_iff in F as [F|F]; lia.
Qed.

Lemma floor_bar_ok (v : Z) (s x : window) :
  v <= 95 -> phase_progress x = phase_progress s ->
  progress_bar x = progress_bar s -> bar_ok s ->
  (0 <= phase_progress (_set_progress_floor v x))%Q
  /\ (phase_progress (_set_progress_floor v x) <= 95)%Q
  /\ progress_bar (_set_progress_floor v x)
     = int_of_float (phase_progress (_set_progress_floor v x)).
Proof.
  intros Hv Hp Hb (H0 & H95 & Hbar).
  rewrite floor_progress, floor_bar, Hp, Hb.
  destruct (above _ _).
  - rewrite int_of_float_inject. change 0%Q with (inject_Z 0).
    change 95%Q with (inject_Z 95). rewrite <- !Zle_Qle.
    repeat split; lia.
  - now repeat split.
Qed.

Lemma advance_bar_ok (s x : window) :
  phase_progress x = phase_progress s ->
  progress_bar x = progress_bar s -> bar_ok s ->
  bar_ok (_advance_to_target 50 (1 # 2) x).
Proof.
  intros Hp Hb (H0 & H95 & Hbar). unfold bar_ok, _advance_to_target.
  change (Z.max 0 (Z.min 100 50)) with 50.
  destruct (above 50 (phase_progress x)) eqn:E;
    [|rewrite Hp, Hb; now repeat split].
  set (nv := if negb (Qle_bool (Qred (phase_progress x + (1 # 2))) (inject_Z 50))
             then inject_Z 50 else Qred (phase_progress x + (1 # 2))).
  assert (B : (0 <= nv)%Q /\ (nv <= inject_Z 50)%Q).
  { subst nv. destruct (Qle_bool _ _) eqn:F; cbn [negb].
    - apply Qle_bool_iff in F. split; [|exact F].
      rewrite Qred_correct, Hp. 
      apply (Qle_trans _ (phase_progress s + 0)); [rewrite Qplus_0_r; exact H0|].
      apply Qplus_le_r. discriminate.
    - split; [discriminate|apply Qle_refl]. }
  destruct B as [B0 B50]. fields.
  split; [exact B0|]. split.
  - eapply Qle_trans; [exact B50|]. discriminate.
  - pose proof (int_of_float_bounds nv 50 B0 B50).
    destruct ((0 <=? _) && (_ <=? 100)) eqn:F; [reflexivity|].
    apply andb_false_iff in F as [F|F]; lia.
Qed.

Lemma bar_ok_zero (s : window) :
  phase_progress s = 0%Q -> progress_bar s = 0 -> bar_ok s.
Proof.
  intros Hp Hb. unfold bar_ok. rewrite Hp, Hb.
  repeat split; try discriminate; reflexivity.
Qed.

Lemma step_bar_ok (limit depth : nat) (s : window) (e : event * replies) :
  bar_ok s -> bar_ok (step limit depth s e).
Proof.
  destruct e as [e r]. intro H. destruct e; cbn [step].
  - exact H.
  - unfold on_consent_required.
    destruct (check_timeout_active s); fields;
    destruct (manual_check_active s); cbn [negb fst]; try exact H;
    destruct (Parsing.parse_consent_required limit depth raw_json) as [[|t ts]|x|];
    cbn [fst]; try exact H;
    destruct (consent_yes r); try exact H;
    apply bar_ok_zero; reflexivity.
  - unfold on_consent_cleared. destruct (phase s); exact H.
  - apply bar_ok_zero; reflexivity.
  - unfold on_download_progress_raw.
    destruct (is_idle s); [exact H|].
    destruct (_ <? _); [exact H|].
    destruct (_ <=? 50); [exact H|].
    set (p := Z.max 0 (Z.min 100 raw_progress)).
    destruct (switched p s) as (_ & _ & _ & H4 & H5). cbv zeta in H4, H5.
    set (s1 := match phase (set_last_raw_pct p s) with
               | downloading => _ | _ => _ end) in *.
    destruct (starting_pct s1) as [p0|].
    + destruct (scaled_int _ _) as [z0|];
        [|unfold bar_ok; rewrite H4, H5; exact H].
      unfold bar_ok. project.
      apply (floor_bar_ok _ s s1); try assumption.
      destruct (Z.leb_spec 95 z0); lia.
    + unfold bar_ok. project.
      apply (floor_bar_ok _ s); try assumption. lia.
  - destruct m; unfold on_phase_event;
      try (destruct (is_idle s); [exact H|]).
    + unfold bar_ok. project.
      apply (floor_bar_ok 95 s); try reflexivity; try lia; exact H.
    + unfold switch_to_installing. destruct (phase s); try exact H;
        unfold bar_ok; project;
        apply (floor_bar_ok 95 s); try reflexivity; try lia; exact H.
    + unfold bar_ok.
      rewrite keep_phase_progress_prompt, keep_progress_bar_prompt. project.
      unfold switch_to_installing. project.
      apply (floor_bar_ok 95 s); try reflexivity; try lia; exact H.
    + unfold switch_to_installing. destruct (phase s); try exact H;
        unfold bar_ok; project;
        apply (floor_bar_ok 95 s); try reflexivity; try lia; exact H.
    + exact H.
  - exact H.
  - exact H.
  - unfold on_mode_toggled. destruct (_ && _); exact H.
  - unfold on_check_clicked. destruct (_ && _); exact H.
  - destruct (phase_timer_active s); [|exact H].
    unfold on_phase_tick. destruct (phase s); try exact H.
    destruct (negb _); [|exact H].
    now apply (advance_bar_ok s).
  - destruct (check_timeout_active s); [|exact H].
    unfold on_check_timeout. destruct (is_idle _); [|exact H].
    apply bar_ok_zero; reflexivity.
Qed.

(** ** Phases, the timer and the idle window *)

Ltac slots :=
  unfold on_status_ready, on_consent_required, on_consent_cleared, on_error,
    on_download_progress_raw, on_reboot_started,
    on_reboot_failed, on_mode_toggled, on_check_clicked, on_phase_tick,
    on_check_timeout, start_update_flow, reset_progress_state, is_idle,
    _is_update_flow_active.

Ltac plain b :=
  lazymatch b with
  | context [if _ then _ else _] => fail
  | context [match _ with _ => _ end] => fail
  | _ => idtac
  end.

Ltac split_cases :=
  repeat (frame;
          match goal with
          | |- context [match phase ?s with _ => _ end] =>
              is_var s; let E := fresh "E" in destruct (phase s) eqn:E
          | |- context [if ?b then _ else _] =>
              plain b; let E := fresh "E" in destruct b eqn:E
          | |- context [match ?x with _ => _ end] =>
              plain x; let E := fresh "E" in destruct x eqn:E
          end).

Ltac by_cases := slots; split_cases; frame; intros; try congruence.

Lemma step_phase_idle (limit depth : nat) (s : window) (e : event) (r : replies) :
  phase s <> idle -> phase (step limit depth s (e, r)) = idle ->
  exists err, e = error err.
Proof.
  intros Hs H'.
  destruct e as [mode craw|raw| |err|p|m| |msg|checked| | |];
    [ | | |now exists err| | | | | | | |];
    exfalso; cbn [step] in H'; revert H'; by_cases.
Qed.

Lemma step_not_need_reboot (limit depth : nat) (s : window) (e : event * replies) :
  phase s <> need_reboot -> phase (step limit depth s e) <> need_reboot.
Proof.
  destruct e as [e r]. intros Hs. destruct e; cbn [step]; revert Hs; by_cases.
Qed.


Lemma step_timer (limit depth : nat) (s : window) (e : event * replies) :
  phase_timer_active s = is_preparing s ->
  phase_timer_active (step limit depth s e) = is_preparing (step limit depth s e).
Proof.
  destruct e as [e r]. unfold is_preparing. intros Hs.
  destruct e; cbn [step]; revert Hs; by_cases.
Qed.

Lemma event_in_idle (m : LogTail.marker) (yes : bool) (raises : option string)
    (s : window) :
  phase s = idle -> m <> LogTail.download_complete ->
  on_phase_event m yes raises s = s.
Proof.
  intros E Hm. unfold on_phase_event, is_idle. rewrite E.
  destruct m; try reflexivity. now elim Hm.
Qed.

Lemma step_at_rest (limit depth : nat) (s : window) (e : event * replies) :
  (phase s = idle -> at_rest s) ->
  phase (step limit depth s e) = idle -> at_rest (step limit depth s e).
Proof.
  destruct e as [e r]. intros Hs H'.
  destruct (phase s) eqn:E;
    [|destruct (step_phase_idle limit depth s e r) as [err ->];
      [congruence|exact H'|repeat split; reflexivity]..].
  pose proof (Hs eq_refl) as R.
  destruct R as (R1 & R2 & R3 & R4 & R5 & R6 & R7 & R8 & R9).
  destruct e as [mode craw|raw| |err|p|m| |msg|checked| | |];
    cbn [step] in *;
    [ | | | | |
      destruct m;
      [rewrite event_phase in H'; discriminate
      |rewrite event_in_idle by (assumption || discriminate);
       exact (Hs eq_refl)..]
    | | | | | |];
    clear Hs; revert H'; unfold at_rest; slots; rewrite ?E, ?R5;
    (split_cases; frame; rewrite ?E; intros; try congruence;
    repeat split; (reflexivity || assumption)).
Qed.

(** ** Nested deliveries *)

Lemma delivery_induction (P : delivery -> Prop) :
  (forall e r ds, Forall P ds -> P (Deliver e r ds)) -> forall d, P d.
Proof.
  intro H. fix IH 1. intros [e r ds]. apply H.
  induction ds as [|d ds IHds]; constructor; [apply IH|exact IHds].
Qed.

Lemma coherent_core (s s' : window) :
  same_core s s' -> coherent s -> coherent s'.
Proof.
  unfold same_core, coherent, at_rest, bar_ok, is_preparing.
  intros (-> & -> & -> & -> & -> & -> & -> & -> & -> & ->). exact (fun H => H).
Qed.

Lemma coherent_started (s : window) : coherent (start_update_flow s).
Proof.
  unfold coherent, is_preparing, bar_ok, start_update_flow. project.
  split; [discriminate|]. split; [reflexivity|]. split; [discriminate|].
  repeat split; try discriminate; reflexivity.
Qed.

Lemma step_coherent (limit depth : nat) (s : window) (e : event * replies) :
  coherent s -> coherent (step limit depth s e).
Proof.
  intros (H1 & H2 & H3 & H4). split; [|split; [|split]].
  - now apply step_not_need_reboot.
  - now apply step_timer.
  - now apply step_at_rest.
  - now apply step_bar_ok.
Qed.

Lemma timeout_stopped_core (s : window) : same_core s (timeout_stopped s).
Proof.
  unfold timeout_stopped, same_core.
  destruct (check_timeout_active s); repeat split; reflexivity.
Qed.

Lemma consent_coherent (limit depth : nat) (raw : string) (yes : bool)
    (during : window -> window) (s : window) :
  (forall w, coherent w -> coherent (during w)) ->
  coherent s ->
  coherent (fst (on_consent_required limit depth raw yes during s)).
Proof.
  intros Hd Hs.
  assert (H0 : coherent (timeout_stopped s))
    by (apply (coherent_core s); [apply timeout_stopped_core|exact Hs]).
  destruct (manual_check_active s) eqn:M.
  - rewrite (consent_after_timeout _ _ _ _ _ _ M).
    revert H0. generalize (timeout_stopped s). intros x0 H0.
    destruct (Parsing.parse_consent_required limit depth raw) as [[|t ts]|e|];
      cbn [fst]; [| |exact H0..].
    + apply (coherent_core x0); [repeat split; reflexivity|exact H0].
    + cbv zeta.
      assert (Hw : coherent (during (exec (consent_dialog t) x0))).
      { apply Hd. apply (coherent_core x0); [|exact H0].
        repeat split; reflexivity. }
      revert Hw. generalize (during (exec (consent_dialog t) x0)).
      intros w Hw. destruct yes.
      * pose proof (coherent_started w) as Hx. revert Hx.
        generalize (start_update_flow w). intros x Hx.
        apply (coherent_core x); [repeat split; reflexivity|exact Hx].
      * apply (coherent_core w); [repeat split; reflexivity|exact Hw].
  - unfold on_consent_required. fold (timeout_stopped s).
    destruct (timeout_stopped_fields s) as (M' & _).
    rewrite M', M. cbn [negb fst].
    revert H0. generalize (timeout_stopped s). intros x0 H0.
    apply (coherent_core x0); [repeat split; reflexivity|exact H0].
Qed.

Lemma deliver_coherent (limit depth : nat) (d : delivery) :
  forall s, coherent s -> coherent (deliver limit depth s d).
Proof.
  induction d as [e r ds IH] using delivery_induction. intros s Hs.
  assert (F : forall w, coherent w ->
                        coherent (fold_left (deliver limit depth) ds w)).
  { induction IH as [|d ds Hd _ IHds]; intros w Hw; [exact Hw|].
    cbn [fold_left]. apply IHds, Hd, Hw. }
  destruct e; cbn [deliver]; try now apply step_coherent.
  now apply consent_coherent.
Qed.

Lemma coherent_init : coherent init.
Proof.
  unfold coherent, at_rest, bar_ok, is_preparing. cbn.
  split; [discriminate|]. split; [reflexivity|].
  split; [intros _; repeat split; reflexivity|].
  repeat split; try discriminate; reflexivity.
Qed.

Lemma deliver_all_coherent (limit depth : nat) (ds : list delivery) :
  forall s, coherent s -> coherent (deliver_all limit depth s ds).
Proof.
  unfold deliver_all.
  induction ds as [|d ds IH]; intros s H; [exact H|].
  cbn [fold_left]. apply IH. now apply deliver_coherent.
Qed.

(** Only the deliveries inside the dialog can bring the phase to idle. *)
Lemma consent_phase_idle (limit depth : nat) (raw : string) (yes : bool)
    (during : window -> window) (s : window) :
  phase s <> idle ->
  phase (fst (on_consent_required limit depth raw yes during s)) = idle ->
  exists w, phase w <> idle /\ phase (during w) = idle.
Proof.
  intros Hs H'.
  destruct (timeout_stopped_fields s) as (M' & _ & _ & _ & P & _).
  destruct (manual_check_active s) eqn:M.
  - rewrite (consent_after_timeout _ _ _ _ _ _ M) in H'.
    revert H' P. generalize (timeout_stopped s). intros x0 H' P.
    destruct (Parsing.parse_consent_required limit depth raw) as [[|t ts]|e|];
      cbn [fst] in H'; try (cbn [phase set_manual_check_active] in H'; congruence).
    cbv zeta in H'. exists (exec (consent_dialog t) x0).
    split; [cbn [phase exec]; congruence|].
    revert H'. generalize (during (exec (consent_dialog t) x0)). intros w H'.
    destruct yes; [|exact H'].
    exfalso. assert (E : phase (start_update_flow w) = preparing)
      by reflexivity.
    revert H' E. generalize (start_update_flow w). intros x H' E.
    cbn [phase set_manual_check_active call] in H'. congruence.
  - exfalso. destruct (consent_passive limit depth raw yes during s M)
      as (_ & _ & _ & Ph & _). cbv zeta in Ph. congruence.
Qed.

Lemma deliver_phase_idle (limit depth : nat) (d : delivery) :
  forall s, phase s <> idle -> phase (deliver limit depth s d) = idle ->
            has_error d = true.
Proof.
  induction d as [e r ds IH] using delivery_induction. intros s Hs H'.
  assert (F : forall w, phase w <> idle ->
                        phase (fold_left (deliver limit depth) ds w) = idle ->
                        existsb has_error ds = true).
  { clear s Hs H'.
    induction IH as [|d ds Hd _ IHds]; intros w Hw Hi; [now elim Hw|].
    cbn [fold_left] in Hi. cbn [existsb].
    destruct (phase (deliver limit depth w d)) eqn:E;
      [rewrite (Hd w Hw E); reflexivity|..];
      (rewrite (IHds (deliver limit depth w d));
       [apply orb_true_r|congruence|exact Hi]). }
  cbn [has_error].
  destruct e; cbn [deliver] in H';
    try (destruct (step_phase_idle limit depth s _ r Hs H') as [err He];
         discriminate He).
  - destruct (consent_phase_idle limit depth raw_json (consent_yes r) _ s Hs H')
      as (w & Hw & Hi).
    rewrite (F w Hw Hi). apply orb_true_r.
  - reflexivity.
Qed.

(** ** Stage A: the timer *)

Lemma half_le (x : Q) (k n : Z) :
  (x == k # 2)%Q -> ((inject_Z n <= x)%Q <-> 2 * n <= k).
Proof.
  intro H. rewrite H. unfold Qle, inject_Z. cbn [Qnum Qden]. lia.
Qed.

Lemma tick_half (limit depth : nat) (r : replies) (s : window) (k : Z) :
  phase s = preparing -> phase_timer_active s = true ->
  (phase_progress s == k # 2)%Q -> 0 <= k <= 100 ->
  let s' := step limit depth s (phase_timer_timeout, r) in
  phase s' = preparing /\ phase_timer_active s' = true
  /\ (phase_progress s' == Z.min (k + 1) 100 # 2)%Q.
Proof.
  intros Hp Ht Hk Hr. cbv zeta. cbn [step]. rewrite Ht.
  unfold on_phase_tick. rewrite Hp.
  destruct (Qle_bool 50 (phase_progress s)) eqn:E; cbn [negb].
  - apply Qle_bool_iff in E. apply (half_le _ k 50 Hk) in E.
    replace (Z.min (k + 1) 100) with k by lia. now repeat split.
  - rewrite keep_phase_advance, keep_phase_timer_active_advance.
    split; [exact Hp|]. split; [exact Ht|].
    assert (L : ~ (inject_Z 50 <= phase_progress s)%Q).
    { intro L. apply Qle_bool_iff in L. change (inject_Z 50) with 50%Q in L.
      congruence. }
    rewrite (half_le _ k 50 Hk) in L.
    unfold _advance_to_target. change (Z.max 0 (Z.min 100 50)) with 50.
    assert (A : above 50 (phase_progress s) = true).
    { apply above_spec. apply Qnot_le_lt. now rewrite (half_le _ k 50 Hk). }
    rewrite A.
    assert (N : (Qred (phase_progress s + (1 # 2)) == k + 1 # 2)%Q).
    { rewrite Qred_correct, Hk. unfold Qeq, Qplus. cbn [Qnum Qden]. lia. }
    assert (B : Qle_bool (Qred (phase_progress s + (1 # 2))) (inject_Z 50)
                = true).
    { apply Qle_bool_iff. rewrite N. unfold Qle, inject_Z. cbn [Qnum Qden].
      lia. }
    rewrite B. cbn [negb phase_progress set_progress_bar set_phase_progress].
    rewrite N. replace (Z.min (k + 1) 100) with (k + 1) by lia. reflexivity.
Qed.

Lemma ticks_half (limit depth : nat) (r : replies) (n : nat) :
  forall (s : window) (k : Z),
    phase s = preparing -> phase_timer_active s = true ->
    (phase_progress s == k # 2)%Q -> 0 <= k <= 100 ->
    let s' := run limit depth s (repeat (phase_timer_timeout, r) n) in
    phase s' = preparing /\ phase_timer_active s' = true
    /\ (phase_progress s' == Z.min (k + Z.of_nat n) 100 # 2)%Q.
Proof.
  induction n as [|n IH]; intros s k Hp Ht Hk Hr; cbv zeta.
  - cbn [repeat run fold_left]. replace (Z.min (k + Z.of_nat 0) 100) with k by lia.
    now repeat split.
  - cbn [repeat run fold_left].
    destruct (tick_half limit depth r s k Hp Ht Hk Hr) as (P1 & T1 & K1).
    cbv zeta in P1, T1, K1.
    destruct (IH _ _ P1 T1 K1 ltac:(lia)) as (P2 & T2 & K2).
    cbv zeta in P2, T2, K2. unfold run in *.
    split; [exact P2|]. split; [exact T2|].
    rewrite K2. replace (Z.min (Z.min (k + 1) 100 + Z.of_nat n) 100)
      with (Z.min (k + Z.of_nat (S n)) 100) by lia.
    reflexivity.
Qed.

(** ** Stage B: raw percentages *)


Lemma floor_capped (v c : Z) (s x : window) :
  v <= c -> 0 <= c -> phase_progress x = phase_progress s ->
  (phase_progress s <= inject_Z c)%Q ->
  (phase_progress (_set_progress_floor v x) <= inject_Z c)%Q.
Proof.
  intros Hv Hc Hp Hs. rewrite floor_progress, Hp.
  destruct (above _ _); [|exact Hs].
  rewrite <- Zle_Qle. lia.
Qed.

Lemma raw_capped (raw : Z) (s : window) :
  (phase_progress s <= 94)%Q ->
  (phase_progress (on_download_progress_raw raw s) <= 94)%Q.
Proof.
  intro H. unfold on_download_progress_raw.
  destruct (is_idle s); [exact H|].
  destruct (_ <? _); [exact H|].
  destruct (_ <=? 50); [exact H|].
  set (p := Z.max 0 (Z.min 100 raw)).
  destruct (switched p s) as (_ & _ & _ & H4 & _). cbv zeta in H4.
  set (s1 := match phase (set_last_raw_pct p s) with
             | downloading => _ | _ => _ end) in *.
  destruct (starting_pct s1) as [p0|].
  - destruct (scaled_int _ _) as [z0|]; [|rewrite H4; exact H].
    cbn [phase_progress set_info].
    apply (floor_capped _ 94 s); [|lia|exact H4|exact H].
    destruct (Z.leb_spec 95 z0); lia.
  - cbn [phase_progress set_info].
    apply (floor_capped _ 94 s); [lia|lia|exact H4|exact H].
Qed.

Lemma tick_capped (s : window) :
  (phase_progress s <= 94)%Q -> (phase_progress (on_phase_tick s) <= 94)%Q.
Proof.
  intro H. unfold on_phase_tick.
  destruct (phase s); try exact H.
  destruct (negb _); [|exact H].
  unfold _advance_to_target. change (Z.max 0 (Z.min 100 50)) with 50.
  destruct (above 50 (phase_progress s)); [|exact H].
  cbn [phase_progress set_progress_bar set_phase_progress].
  destruct (Qle_bool _ _) eqn:E; cbn [negb]; [|discriminate].
  apply Qle_bool_iff in E. eapply Qle_trans; [exact E|discriminate].
Qed.

Lemma run_capped (limit depth : nat) (es : list (event * replies)) :
  forall s : window,
    forallb (fun e => is_stage_event (fst e)) es = true ->
    (phase_progress s <= 94)%Q ->
    (phase_progress (run limit depth s es) <= 94)%Q.
Proof.
  induction es as [|[e r] es IH]; intros s H Hs; [exact Hs|].
  cbn [forallb fst] in H. apply andb_true_iff in H as [He Hes].
  cbn [run fold_left]. apply (IH _ Hes).
  destruct e; try discriminate He; cbn [step].
  - now apply raw_capped.
  - destruct (phase_timer_active s); [now apply tick_capped|exact Hs].
Qed.

(** ** The reboot prompt *)


Lemma rbudget_same (s s' : window) :
  dialogs s' = dialogs s -> reboot_prompt_shown s' = reboot_prompt_shown s ->
  rbudget s' = rbudget s.
Proof. unfold rbudget, reboot_dialogs. now intros -> ->. Qed.

Lemma prompt_rbudget (yes : bool) (raises : option string) (x : window) :
  rbudget (_show_reboot_prompt yes raises x) = rbudget x.
Proof.
  unfold _show_reboot_prompt, rbudget, reboot_dialogs.
  destruct (reboot_prompt_shown x) eqn:E; [now rewrite E|].
  destruct yes, raises; cbn [negb]; project;
    rewrite ?filter_app, ?length_app; cbn; lia.
Qed.

Lemma event_rbudget (m : LogTail.marker) (yes : bool) (raises : option string)
    (s : window) :
  rbudget (on_phase_event m yes raises s) = rbudget s.
Proof.
  destruct m; unfold on_phase_event, is_idle.
  - apply rbudget_same; project;
      [rewrite keep_dialogs_floor|rewrite keep_reboot_prompt_shown_floor];
      reflexivity.
  - destruct (phase s); [reflexivity|..]; apply rbudget_same;
      (apply keep_dialogs_installing
       || apply keep_reboot_prompt_shown_installing).
  - destruct (phase s); [reflexivity|..]; rewrite prompt_rbudget;
      apply rbudget_same; project;
      (rewrite keep_dialogs_installing
       || rewrite keep_reboot_prompt_shown_installing); reflexivity.
  - destruct (phase s); [reflexivity|..]; apply rbudget_same;
      (apply keep_dialogs_installing
       || apply keep_reboot_prompt_shown_installing).
  - destruct (phase s); reflexivity.
Qed.

Lemma step_rbudget (limit depth : nat) (s : window) (e : event) (r : replies) :
  restarts e = false -> rbudget (step limit depth s (e, r)) = rbudget s.
Proof.
  intro H. destruct e; try discriminate H; cbn [step].
  - reflexivity.
  - unfold on_consent_cleared. now destruct (phase s).
  - apply rbudget_same; by_cases.
  - apply event_rbudget.
  - reflexivity.
  - unfold on_reboot_failed, rbudget, reboot_dialogs. project.
    rewrite filter_app. cbn. now rewrite app_nil_r.
  - unfold on_mode_toggled. now destruct (_ && _).
  - unfold on_check_clicked. now destruct (_ && _).
  - destruct (phase_timer_active s); [|reflexivity].
    apply rbudget_same; unfold on_phase_tick;
      destruct (phase s); try reflexivity;
      destruct (negb _); try reflexivity;
      (apply keep_dialogs_advance || apply keep_reboot_prompt_shown_advance).
Qed.

Lemma run_rbudget (limit depth : nat) (es : list (event * replies)) :
  forall s : window,
    forallb (fun e => negb (restarts (fst e))) es = true ->
    rbudget (run limit depth s es) = rbudget s.
Proof.
  induction es as [|[e r] es IH]; intros s H; [reflexivity|].
  cbn [forallb fst] in H. apply andb_true_iff in H as [He Hes].
  apply negb_true_iff in He. cbn [run fold_left].
  unfold run in IH. rewrite (IH _ Hes). now apply step_rbudget.
Qed.

(** ** A manual check whose answer cannot be parsed *)


Lemma step_waiting (limit depth : nat) (s : window) (e : event) (r : replies) :
  waits e = true ->
  manual_check_active s = true -> check_timeout_active s = false ->
  manual_check_active (step limit depth s (e, r)) = true
  /\ check_timeout_active (step limit depth s (e, r)) = false.
Proof.
  intros H M T. destruct e; try discriminate H; cbn [step];
    revert M T; by_cases; split; congruence.
Qed.

Lemma run_waiting (limit depth : nat) (es : list (event * replies)) :
  forall s : window,
    forallb (fun e => waits (fst e)) es = true ->
    manual_check_active s = true -> check_timeout_active s = false ->
    manual_check_active (run limit depth s es) = true
    /\ check_timeout_active (run limit depth s es) = false.
Proof.
  induction es as [|[e r] es IH]; intros s H M T; [now split|].
  cbn [forallb fst] in H. apply andb_true_iff in H as [He Hes].
  cbn [run fold_left].
  destruct (step_waiting limit depth s e r He M T) as [M1 T1].
  now apply (IH _ Hes).
Qed.

(** ** Windows reached from the start *)

Lemma run_bar_ok (limit depth : nat) (es : list (event * replies)) :
  forall s, bar_ok s -> bar_ok (run limit depth s es).
Proof.
  induction es as [|e es IH]; intros s H; [exact H|].
  cbn [run fold_left]. apply IH. now apply step_bar_ok.
Qed.

Lemma int_of_float_half (x : Q) (k : Z) :
  (x == k # 2)%Q -> 0 <= k -> int_of_float x = k / 2.
Proof.
  intros H Hk. unfold int_of_float.
  assert (B : Qle_bool 0 x = true).
  { apply Qle_bool_iff. rewrite H. unfold Qle. cbn [Qnum Qden]. lia. }
  rewrite B, (Qfloor_comp _ _ H). reflexivity.
Qed.

(** X1: once an update flow has left the idle phase, the window is idle
    again only after the worker has reported an error, whatever is
    delivered and however the deliveries are nested in consent dialogs. *)
Theorem idle_only_after_error (limit depth : nat) (d : delivery) (s : window) :
  phase s <> idle -> phase (deliver limit depth s d) = idle ->
  has_error d = true.
Proof. apply deliver_phase_idle. Qed.

Lemma idle_only_after_error_witness :
  let s := run 4300 1000 init
             [(check_clicked, says_no);
              (phase_event LogTail.download_complete, says_no)] in
  let d := Deliver (consent_required one_app_payload) says_no
             [Deliver (error "bus lost") says_no []] in
  phase s <> idle /\ phase (deliver 4300 1000 s d) = idle
  /\ has_error d = true.
Proof.
  cbv zeta. split; [vm_compute; discriminate|].
  split; [vm_compute; reflexivity|].
  apply (idle_only_after_error 4300 1000 _
           (run 4300 1000 init
              [(check_clicked, says_no);
               (phase_event LogTail.download_complete, says_no)]));
    [vm_compute; discriminate|vm_compute; reflexivity].
Defined.

(** X2: [on_phase_event] writes the phase [need_reboot] and overwrites it
    with [installing] before it returns or opens the reboot prompt: no
    window reached from the initial one holds the phase [need_reboot],
    the last name in the list of [_is_update_flow_active]. *)
Theorem need_reboot_phase_unused (limit depth : nat) (ds : list delivery) :
  phase (deliver_all limit depth init ds) <> need_reboot.
Proof.
  destruct (deliver_all_coherent limit depth ds init coherent_init) as [H _].
  exact H.
Qed.



(** X4: in every window reached from the initial one the stage-A timer is
    running exactly when the phase is [preparing]. *)
Theorem timer_runs_exactly_while_preparing (limit depth : nat)
    (ds : list delivery) :
  let s := deliver_all limit depth init ds in
  phase_timer_active s = is_preparing s.
Proof.
  destruct (deliver_all_coherent limit depth ds init coherent_init)
    as (_ & H & _).
  exact H.
Qed.

(** X5: a window reached from the initial one that is idle is at rest:
    progress and bar at 0, bar and network label hidden, timer stopped,
    controls enabled, no reboot prompt remembered, no starting or last raw
    percentage. *)
Theorem idle_window_at_rest (limit depth : nat) (ds : list delivery) :
  phase (deliver_all limit depth init ds) = idle ->
  at_rest (deliver_all limit depth init ds).
Proof.
  destruct (deliver_all_coherent limit depth ds init coherent_init)
    as (_ & _ & H & _).
  exact H.
Qed.

Lemma idle_window_at_rest_witness :
  let ds := [Deliver check_clicked says_yes [];
             Deliver (consent_required one_app_payload) says_yes [];
             Deliver (download_progress 60) says_yes [];
             Deliver (phase_event LogTail.download_complete) says_yes [];
             Deliver (error "bus lost") says_yes []] in
  phase (deliver_all 4300 1000 init ds) = idle
  /\ at_rest (deliver_all 4300 1000 init ds).
Proof.
  cbv zeta. split; [vm_compute; reflexivity|].
  apply (idle_window_at_rest 4300 1000). vm_compute. reflexivity.
Defined.

(** X6: in every window reached from the initial one the bar shows the
    integer part of the progress, and the progress lies between 0 and
    95. *)
Theorem bar_shows_integer_part (limit depth : nat) (ds : list delivery) :
  let s := deliver_all limit depth init ds in
  (0 <= phase_progress s)%Q /\ (phase_progress s <= 95)%Q
  /\ progress_bar s = int_of_float (phase_progress s).
Proof.
  destruct (deliver_all_coherent limit depth ds init coherent_init)
    as (_ & _ & _ & H).
  exact H.
Qed.

(** X7: [n] ticks of the stage-A timer after the start of an update flow
    leave the phase at [preparing], the progress at [min(n, 100) / 2] and
    the bar at the integer part of that value. *)
Theorem ticks_advance_by_half (limit depth : nat) (r : replies) (n : nat)
    (s : window) :
  let s' := run limit depth (start_update_flow s)
              (repeat (phase_timer_timeout, r) n) in
  phase s' = preparing
  /\ (phase_progress s' == Z.min (Z.of_nat n) 100 # 2)%Q
  /\ progress_bar s' = Z.min (Z.of_nat n) 100 / 2.
Proof.
  cbv zeta.
  destruct (ticks_half limit depth r n (start_update_flow s) 0)
    as (P & _ & K); [reflexivity|reflexivity|reflexivity|lia|].
  cbv zeta in P, K. change (0 + Z.of_nat n) with (Z.of_nat n) in K.
  split; [exact P|]. split; [exact K|].
  assert (B : bar_ok (start_update_flow s))
    by (apply bar_ok_zero; reflexivity).
  apply (run_bar_ok limit depth (repeat (phase_timer_timeout, r) n)) in B.
  destruct B as (_ & _ & B). rewrite B.
  apply int_of_float_half; [exact K|lia].
Qed.

(** X8: raw percentages and timer ticks alone never take the progress
    above 94: the last point is left to the download-complete marker. *)
Theorem stage_b_stops_at_94 (limit depth : nat) (es : list (event * replies))
    (s : window) :
  forallb (fun e => is_stage_event (fst e)) es = true ->
  (phase_progress s <= 94)%Q ->
  (phase_progress (run limit depth s es) <= 94)%Q.
Proof. apply run_capped. Qed.

Lemma stage_b_stops_at_94_witness :
  let es := [(download_progress 10, says_yes); (phase_timer_timeout, says_yes);
             (download_progress 60, says_yes); (download_progress 100, says_yes);
             (download_progress 100, says_yes)] in
  let s := start_update_flow init in
  forallb (fun e => is_stage_event (fst e)) es = true
  /\ (phase_progress s <= 94)%Q
  /\ (phase_progress (run 4300 1000 s es) <= 94)%Q.
Proof.
  cbv zeta. split; [reflexivity|]. split; [discriminate|].
  apply (stage_b_stops_at_94 4300 1000); [reflexivity|discriminate].
Defined.

(** X9: between two restarts of the flow (a consent notification, an
    error, the check timeout) the reboot prompt opens at most once, never
    when it is already marked as shown, and it is marked as shown once it
    has opened. *)
Theorem reboot_prompt_once_per_flow (limit depth : nat)
    (es : list (event * replies)) (s : window) :
  forallb (fun e => negb (restarts (fst e))) es = true ->
  let s' := run limit depth s es in
  (reboot_dialogs s' <= reboot_dialogs s + 1)%nat
  /\ (reboot_prompt_shown s = true ->
      (reboot_dialogs s' <= reboot_dialogs s)%nat)
  /\ ((reboot_dialogs s < reboot_dialogs s')%nat ->
      reboot_prompt_shown s' = true).
Proof.
  intro H. cbv zeta. pose proof (run_rbudget limit depth es s H) as R.
  unfold rbudget in R.
  destruct (reboot_prompt_shown s), (reboot_prompt_shown (run limit depth s es));
    repeat split; intros; try reflexivity; try discriminate; lia.
Qed.

Lemma reboot_prompt_once_per_flow_witness :
  let es := [(phase_event LogTail.need_reboot, says_no);
             (phase_event LogTail.install_complete, says_no);
             (phase_event LogTail.need_reboot, says_yes)] in
  let s := start_update_flow init in
  let s' := run 4300 1000 s es in
  forallb (fun e => negb (restarts (fst e))) es = true
  /\ (reboot_dialogs s' <= reboot_dialogs s + 1)%nat
  /\ (reboot_prompt_shown s = true ->
      (reboot_dialogs s' <= reboot_dialogs s)%nat)
  /\ ((reboot_dialogs s < reboot_dialogs s')%nat ->
      reboot_prompt_shown s' = true).
Proof.
  cbv zeta. split; [reflexivity|].
  apply (reboot_prompt_once_per_flow 4300 1000). reflexivity.
Defined.

(** X10: when the payload of a manual check cannot be parsed, the slot
    leaves the manual check open with its timeout stopped; nothing but a
    new check or a consent notification closes it, and the next
    notification with a target opens the dialog without a new check. *)
Theorem unparsed_answer_keeps_check_open (limit depth : nat)
    (raw raw' : string) (yes : bool) (during : window -> window) (s : window)
    (e : exn) (es : list (event * replies)) (r : replies)
    (t : Parsing.UpdateTarget) (ts : list Parsing.UpdateTarget) :
  manual_check_active s = true ->
  Parsing.parse_consent_required limit depth raw = Raised e ->
  forallb (fun e => waits (fst e)) es = true ->
  Parsing.parse_consent_required limit depth raw' = Returned (t :: ts) ->
  let s1 := fst (on_consent_required limit depth raw yes during s) in
  let s2 := run limit depth s1 es in
  manual_check_active s2 = true /\ check_timeout_active s2 = false
  /\ dialogs (step limit depth s2 (consent_required raw', r))
     = dialogs s2 ++ [consent_dialog t].
Proof.
  intros M P W P'. cbv zeta.
  destruct (consent_raises limit depth raw yes during s e M P)
    as (_ & _ & _ & M1 & T1 & _). cbv zeta in M1, T1.
  destruct (run_waiting limit depth es _ W M1 T1) as [M2 T2].
  split; [exact M2|]. split; [exact T2|].
  cbn [step].
  destruct (consent_modal limit depth raw' (consent_yes r) (fun w => w)
              _ t ts M2 P') as (_ & D1 & _ & _ & D & _).
  cbv zeta in D1, D. now rewrite D, D1.
Qed.

Lemma unparsed_answer_keeps_check_open_witness :
  let s := on_check_clicked init in
  let es := [(consent_cleared, says_yes); (check_timeout_timeout, says_yes);
             (mode_toggled true, says_yes)] in
  let s1 := fst (on_consent_required 4300 1000 "not json" true (fun w => w) s) in
  let s2 := run 4300 1000 s1 es in
  manual_check_active s = true
  /\ manual_check_active s2 = true /\ check_timeout_active s2 = false
  /\ dialogs (step 4300 1000 s2 (consent_required one_app_payload, says_yes))
     = dialogs s2 ++ [consent_dialog one_app_target].
Proof.
  cbv zeta. split; [reflexivity|].
  apply (unparsed_answer_keeps_check_open 4300 1000 "not json" one_app_payload
           true (fun w => w) (on_check_clicked init) JSONDecodeError _ says_yes
           one_app_target []);
    vm_compute; reflexivity.
Defined.

(* ================================================================== *)
(** * Whitespace around log lines; shortened target ids *)
(* ================================================================== *)

Module StripFacts.
Import Text Regex LogTail TextShape.
Local Open Scope string_scope.

Lemma lstrip_app_blank (ws s : string) :
  blank ws = true -> lstrip (ws ++ s) = lstrip s.
Proof.
  unfold blank. induction ws as [|c ws IH]; [reflexivity|].
  cbn [list_ascii_of_string forallb]. intro H.
  apply andb_true_iff in H as [Hc Hws].
  cbn [append lstrip]. rewrite Hc. now apply IH.
Qed.

Lemma rstrip_blank (ws : string) : blank ws = true -> rstrip ws = EmptyString.
Proof.
  unfold blank. induction ws as [|c ws IH]; [reflexivity|].
  cbn [list_ascii_of_string forallb]. intro H.
  apply andb_true_iff in H as [Hc Hws].
  cbn [rstrip]. rewrite (IH Hws), Hc. reflexivity.
Qed.

Lemma rstrip_app_blank (s ws : string) :
  blank ws = true -> rstrip (s ++ ws) = rstrip s.
Proof.
  intro H. induction s as [|c s IH]; [now apply rstrip_blank|].
  cbn [append rstrip]. now rewrite IH.
Qed.

Lemma strip_app_blank_r (s ws : string) :
  blank ws = true -> strip (s ++ ws) = strip s.
Proof.
  intro H. unfold strip. induction s as [|c s IH].
  - cbn [append lstrip rstrip].
    assert (L : lstrip ws = EmptyString) by now apply LogFacts.lstrip_blank.
    now rewrite L.
  - cbn [append lstrip]. destruct (is_space c); [exact IH|].
    change (String c (s ++ ws)) with (String c s ++ ws).
    now apply rstrip_app_blank.
Qed.

Lemma strip_surrounded (ws1 s ws2 : string) :
  blank ws1 = true -> blank ws2 = true -> strip (ws1 ++ s ++ ws2) = strip s.
Proof.
  intros H1 H2. unfold strip. rewrite (lstrip_app_blank ws1 _ H1).
  now apply strip_app_blank_r.
Qed.

Lemma process_line_strip (limit : nat) (a b : string) :
  strip a = strip b -> process_line limit a = process_line limit b.
Proof. unfold process_line. now intros ->. Qed.

Lemma process_line_surrounded (limit : nat) (ws1 line ws2 : string) :
  blank ws1 = true -> blank ws2 = true ->
  process_line limit (ws1 ++ line ++ ws2) = process_line limit line.
Proof.
  intros H1 H2. apply process_line_strip. now apply strip_surrounded.
Qed.

End StripFacts.

Module ShortenFacts.
Import Json Parsing.

Lemma slice_to_length {A : Type} (k : Z) (l : list A) :
  0 <= k -> Z.of_nat (List.length (slice_to k l)) <= k.
Proof.
  intro H. unfold slice_to.
  destruct (Z.leb_spec 0 k); [|lia].
  rewrite length_firstn. lia.
Qed.

Lemma shorten_spec (tid : ustring) (max_len : Z) :
  (Z.of_nat (List.length tid) <= max_len -> _shorten_target_id tid max_len = tid)
  /\ (max_len < Z.of_nat (List.length tid) ->
      3 <= max_len ->
      _shorten_target_id tid max_len
      = firstn (Z.to_nat (max_len - 3)) tid ++ ustr "..."
      /\ Z.of_nat (List.length (_shorten_target_id tid max_len)) = max_len)
  /\ (3 <= max_len ->
      Z.of_nat (List.length (_shorten_target_id tid max_len)) <= max_len).
Proof.
  unfold _shorten_target_id, slice_to.
  destruct (Z.leb_spec (Z.of_nat (List.length tid)) max_len) as [L|L].
  - split; [reflexivity|]. split; [lia|]. intros _. exact L.
  - assert (G : 3 <= max_len ->
                firstn (Z.to_nat (max_len - 3)) tid ++ ustr "..."
                = firstn (Z.to_nat (max_len - 3)) tid ++ ustr "..."
                /\ Z.of_nat (List.length (firstn (Z.to_nat (max_len - 3)) tid
                                          ++ ustr "...")) = max_len).
    { intro H3. split; [reflexivity|].
      rewrite length_app, length_firstn.
      change (List.length (ustr "...")) with 3%nat. lia. }
    split; [lia|]. split.
    + intros _ H3. destruct (Z.leb_spec 0 (max_len - 3)); [|lia]. now apply G.
    + intro H3. destruct (Z.leb_spec 0 (max_len - 3)); [|lia].
      destruct (G H3) as [_ E]. lia.
Qed.

End ShortenFacts.

(* ================================================================== *)
(** * Properties of the backlog replay *)
(* ================================================================== *)

Module WatcherFacts.
Import Text Py Window Samples WindowShape Watcher.

Lemma complete_line (limit : nat) (line : string) :
  announces_complete line = true ->
  LogTail.process_line limit line = [LogTail.phase_event LogTail.download_complete].
Proof.
  unfold announces_complete, LogTail.process_line. intro H.
  destruct (strip line) as [|c t]; [discriminate H|].
  cbn [nonempty negb]. now rewrite H.
Qed.

Lemma other_line (limit : nat) (line : string) (sg : LogTail.signal) :
  announces_complete line = false ->
  In sg (LogTail.process_line limit line) -> sg <> LogTail.phase_event LogTail.download_complete.
Proof.
  unfold announces_complete, LogTail.process_line. intros H I.
  destruct (negb (nonempty (strip line))); [destruct I|].
  rewrite H in I.
  destruct (Regex.search LogTail.ostree_receiving_objects_re _);
    [destruct I as [<-|[]]; discriminate|].
  destruct (Regex.search LogTail.progress_re _);
    [destruct I as [<-|[]]; discriminate|].
  repeat (destruct (LogTail.matches _ _); [destruct I as [<-|[]]; discriminate|]).
  destruct I.
Qed.

Lemma idle_ignores (limit depth : nat) (s : window) (sg : LogTail.signal) (r : replies) :
  phase s = idle -> sg <> LogTail.phase_event LogTail.download_complete ->
  step limit depth s (to_event sg, r) = s.
Proof.
  intros E H. destruct sg as [p|m]; cbn [to_event step].
  - unfold on_download_progress_raw, is_idle. now rewrite E.
  - apply event_in_idle; [exact E|]. intro F. apply H. now rewrite F.
Qed.

Lemma log_events_drive (sigs : list LogTail.signal) (r : replies) :
  forallb (fun e => drives_progress (fst e))
    (List.map (fun sg => (to_event sg, r)) sigs) = true.
Proof.
  induction sigs as [|[p|m] sigs IH]; [reflexivity|exact IH..].
Qed.

Lemma log_events_keep_active (limit depth : nat) (r : replies)
    (sigs : list LogTail.signal) :
  forall s, phase s <> idle ->
            phase (run limit depth s
                     (List.map (fun sg => (to_event sg, r)) sigs)) <> idle.
Proof.
  induction sigs as [|sg sigs IH]; intros s H; [exact H|].
  cbn [List.map run fold_left]. apply IH. intro E.
  destruct (step_phase_idle limit depth s (to_event sg) r H E) as [err F].
  destruct sg; discriminate F.
Qed.

Lemma idle_replay (limit depth : nat) (r : replies) (lines : list string) :
  forall s, phase s = idle ->
    forallb (fun l => negb (announces_complete l)) lines = true ->
    run limit depth s
      (List.map (fun sg => (to_event sg, r))
         (flat_map (LogTail.process_line limit) lines)) = s.
Proof.
  induction lines as [|l lines IH]; intros s E H; [reflexivity|].
  cbn [forallb] in H. apply andb_true_iff in H as [Hl Hls].
  apply negb_true_iff in Hl.
  cbn [flat_map]. rewrite map_app. unfold run. rewrite fold_left_app.
  assert (G : forall sigs,
             (forall sg, In sg sigs -> sg <> LogTail.phase_event LogTail.download_complete) ->
             fold_left (step limit depth)
               (List.map (fun sg => (to_event sg, r)) sigs) s = s).
  { induction sigs as [|sg sigs IHs]; intro Hs; [reflexivity|].
    cbn [List.map fold_left].
    rewrite (idle_ignores limit depth s sg r E); [|apply Hs; now left].
    apply IHs. intros sg' I. apply Hs. now right. }
  rewrite G; [|intros sg I; now apply (other_line limit l)].
  now apply IH.
Qed.

Lemma complete_replay (limit depth : nat) (r : replies) (lines : list string) :
  forall s,
    existsb announces_complete lines = true ->
    let s' := run limit depth s
                (List.map (fun sg => (to_event sg, r))
                   (flat_map (LogTail.process_line limit) lines)) in
    phase s' <> idle /\ (95 <= phase_progress s')%Q.
Proof.
  induction lines as [|l lines IH]; intros s H; [discriminate H|].
  cbn [existsb] in H. cbv zeta. cbn [flat_map]. rewrite map_app.
  unfold run. rewrite fold_left_app.
  destruct (announces_complete l) eqn:Hl.
  - rewrite (complete_line limit l Hl). cbn [List.map fold_left step to_event].
    destruct (on_download_complete (reboot_yes r) (reboot_raises r) s)
      as (P & Q9 & _). cbv zeta in P, Q9.
    set (s1 := on_phase_event LogTail.download_complete (reboot_yes r)
                 (reboot_raises r) s) in *.
    split.
    + apply (log_events_keep_active limit depth r). rewrite P. discriminate.
    + eapply Qle_trans; [exact Q9|].
      apply (run_monotone limit depth), log_events_drive.
  - cbn [orb] in H. apply (IH _ H).
Qed.

End WatcherFacts.

(* ================================================================== *)
(** * Properties of the consent notifications *)
(* ================================================================== *)

Module ClientFacts.
Import Text Py Window Samples WindowShape.

Lemma emitted_payload (raw : option string) (r : string) :
  In (Client.consent_required r) (Client._emit_consent raw) ->
  nonempty r = true /\ raw = Some r.
Proof.
  unfold Client._emit_consent. destruct raw as [x|]; [|intros [H|[]]; discriminate].
  destruct (nonempty x) eqn:E; intros [H|[]]; try discriminate.
  injection H as <-. now split.
Qed.

Lemma props_changed_one (raw : string) :
  Client._on_props_changed (Some Client._emit_consent) (Some raw)
  = if nonempty raw then [Client.consent_required raw]
    else [Client.consent_cleared].
Proof.
  unfold Client._on_props_changed, Client._emit_consent.
  destruct (nonempty raw) eqn:E; cbv iota beta; rewrite ?E; reflexivity.
Qed.

Lemma check_emits (status : option (Z * string)) :
  Client.check_for_updates (Some Client._emit_consent) status
  = match status with
    | Some (_, raw) => if nonempty raw then [Client.consent_required raw] else []
    | None => []
    end.
Proof.
  unfold Client.check_for_updates, Client._emit_consent.
  destruct status as [[m raw]|]; [|reflexivity].
  destruct (nonempty raw) eqn:E; cbv iota beta; rewrite ?E; reflexivity.
Qed.


End ClientFacts.

(* ================================================================== *)
(** * The client, the watcher and the text helpers with the window *)
(* ================================================================== *)



(** X12: the window is never told that consent is required with an empty
    payload: whatever the property change and the value read back hold,
    every [consent_required] signal of the client carries a non-empty
    string. *)
Theorem consent_signal_never_empty (changed : option string)
    (status : option (Z * string)) (r : string) :
  In (Client.consent_required r)
    (Client._on_props_changed (Some Client._emit_consent) changed
     ++ Client.check_for_updates (Some Client._emit_consent) status) ->
  Text.nonempty r = true.
Proof.
  intro H. apply in_app_or in H as [H|H].
  - destruct changed as [raw|]; [|destruct H].
    rewrite ClientFacts.props_changed_one in H.
    destruct (Text.nonempty raw) eqn:E; destruct H as [H|[]];
      try discriminate H.
    injection H as <-. exact E.
  - rewrite ClientFacts.check_emits in H.
    destruct status as [[m raw]|]; [|destruct H].
    destruct (Text.nonempty raw) eqn:E; [|destruct H].
    destruct H as [H|[]]. injection H as <-. exact E.
Qed.

Lemma consent_signal_never_empty_witness :
  In (Client.consent_required "{}")
    (Client._on_props_changed (Some Client._emit_consent) (Some EmptyString)
     ++ Client.check_for_updates (Some Client._emit_consent)
          (Some (1, "{}"%string)))
  /\ Text.nonempty "{}" = true.
Proof.
  split; [right; left; reflexivity|].
  apply (consent_signal_never_empty (Some EmptyString) (Some (1, "{}"%string))).
  right. left. reflexivity.
Defined.

(** X13: whitespace before and after a log line does not change the
    signals emitted for it; in particular the line end kept by
    [readlines] is ignored. *)
Theorem surrounding_whitespace_ignored (limit : nat) (ws1 line ws2 : string) :
  TextShape.blank ws1 = true -> TextShape.blank ws2 = true ->
  LogTail.process_line limit (ws1 ++ line ++ ws2)
  = LogTail.process_line limit line.
Proof. apply StripFacts.process_line_surrounded. Qed.

Lemma surrounding_whitespace_ignored_witness :
  let ws1 := "  "%string in
  let ws2 := String (ascii_of_nat 13) (String (ascii_of_nat 10) EmptyString) in
  let line := "Event: DownloadProgressReport, Progress at 42%"%string in
  TextShape.blank ws1 = true /\ TextShape.blank ws2 = true
  /\ LogTail.process_line 4300 (ws1 ++ line ++ ws2)
     = LogTail.process_line 4300 line.
Proof.
  cbv zeta. split; [reflexivity|]. split; [reflexivity|].
  apply (surrounding_whitespace_ignored 4300); reflexivity.
Defined.

(** X14: for a limit of at least 3 the shortened target id has the length
    [min(len(tid), max_len)]: an id within the limit is returned as it
    is, a longer one is cut to [max_len - 3] characters followed by three
    dots. *)
Theorem shortened_id_length (tid : Json.ustring) (max_len : Z) :
  3 <= max_len ->
  Z.of_nat (List.length (Parsing._shorten_target_id tid max_len))
  = Z.min (Z.of_nat (List.length tid)) max_len
  /\ (Z.of_nat (List.length tid) <= max_len ->
      Parsing._shorten_target_id tid max_len = tid)
  /\ (max_len < Z.of_nat (List.length tid) ->
      Parsing._shorten_target_id tid max_len
      = firstn (Z.to_nat (max_len - 3)) tid ++ Json.ustr "...").
Proof.
  intro H3.
  destruct (ShortenFacts.shorten_spec tid max_len) as (A & B & _).
  split; [|split; [exact A|intro L; now destruct (B L H3)]].
  destruct (Z.le_gt_cases (Z.of_nat (List.length tid)) max_len) as [L|L].
  - rewrite (A L). lia.
  - destruct (B L H3) as [_ E]. rewrite E. lia.
Qed.

Lemma shortened_id_length_witness :
  let tid := Json.ustr "0123456789abcdef0123456789abcdef0123456789abcdef0123456789abcdef" in
  3 <= 48
  /\ Z.of_nat (List.length (Parsing._shorten_target_id tid 48))
     = Z.min (Z.of_nat (List.length tid)) 48.
Proof.
  cbv zeta. split; [lia|].
  apply (shortened_id_length
           (Json.ustr "0123456789abcdef0123456789abcdef0123456789abcdef0123456789abcdef")
           48).
  lia.
Defined.

(** X15: replaying the backlog of the log into an idle window changes
    nothing unless one of its last 300 lines announces the end of a
    download; if one does, the window leaves the idle phase with a progress
    of at least 95, although no update flow was started. *)
Theorem backlog_replay_into_idle_window (limit depth : nat) (r : replies)
    (lines : list string) (s : window) :
  phase s = idle ->
  let tail := Watcher.last_lines Watcher.BACKLOG_LINES lines in
  let s' := run limit depth s
              (List.map (fun e => (e, r))
                 (Watcher.backlog limit (Watcher.Lines lines))) in
  (existsb Watcher.announces_complete tail = false -> s' = s)
  /\ (existsb Watcher.announces_complete tail = true ->
      phase s' <> idle /\ (95 <= phase_progress s')%Q).
Proof.
  intro E. cbv zeta. unfold Watcher.backlog. rewrite map_map. split.
  - intro H. apply WatcherFacts.idle_replay; [exact E|].
    generalize dependent (Watcher.last_lines Watcher.BACKLOG_LINES lines).
    intro l. induction l as [|a l IH]; [reflexivity|].
    cbn [existsb forallb]. intro H. apply orb_false_iff in H as [Ha Hl].
    rewrite Ha. cbn [negb andb]. now apply IH.
  - intro H. now apply WatcherFacts.complete_replay.
Qed.

Lemma backlog_replay_into_idle_window_witness :
  let lines := ["Event: DownloadProgressReport, Progress at 42%"%string;
                "Event: AllDownloadsComplete, Result - Success"%string;
                "Event: InstallStarted"%string] in
  let s' := run 4300 1000 init
              (List.map (fun e => (e, says_no))
                 (Watcher.backlog 4300 (Watcher.Lines lines))) in
  phase init = idle
  /\ phase s' <> idle /\ (95 <= phase_progress s')%Q.
Proof.
  cbv zeta. split; [reflexivity|].
  apply (backlog_replay_into_idle_window 4300 1000 says_no _ init);
    reflexivity.
Defined.

(** X16: the backlog gives at most 300 signals, one per line at most. *)
Theorem backlog_at_most_300_signals (limit : nat) (lines : list string) :
  (List.length (Watcher.backlog limit (Watcher.Lines lines)) <= 300)%nat
  /\ (List.length (Watcher.backlog limit (Watcher.Lines lines))
      <= List.length lines)%nat.
Proof.
  unfold Watcher.backlog. rewrite length_map.
  assert (F : forall l, (List.length (flat_map (LogTail.process_line limit) l)
                         <= List.length l)%nat).
  { induction l as [|a l IH]; [reflexivity|].
    cbn [flat_map]. rewrite length_app. cbn [List.length].
    pose proof (LogFacts.process_line_short limit a). lia. }
  pose proof (F (Watcher.last_lines Watcher.BACKLOG_LINES lines)) as L.
  unfold Watcher.last_lines, Watcher.BACKLOG_LINES in *.
  rewrite length_skipn in L. lia.
Qed.
